(** * go-banking: the ledger store, the Bank Z mock client and the two
      mutating HTTP handlers ([createCustomer], [transferMoney]).

    The Go program keeps all its state in two package-level variables,
    [store.GlobalStore] and [bankzClient], and draws fresh values from two
    outside sources, [time.Now()] and [uuid.New()].  The embedding threads one
    [World] holding these four through a small state monad.

    - [float64] is Rocq's primitive binary64 float, so every [+], [-], [*],
      [<] and [<=] below rounds and compares exactly as the Go code does
      (each operation rounded on its own, round to nearest even; the fee and
      the interest are stored in variables that are read again, so no
      multiplication is fused with the addition that follows it).
    - Go maps are [gmap string _]; [m[k] = v] is [<[k:=v]> m].
    - [time.Time] is a number of nanoseconds ([Z]); the n-th call of
      [time.Now()] returns the n-th reading of the world's clock.
    - [uuid.New().String()] returns the n-th string of the world's UUID source.
    - [sync.RWMutex] only serialises the accesses; one handler runs at a time
      here, so locking leaves no trace.
    - [fmt.Printf] logging writes to standard output only and is left out.
    - The three GET handlers and the two listing methods of the store write
      nothing to the store and are not part of the embedding. *)

From Stdlib Require Import ZArith String Ascii List Bool Lia Floats.
From Stdlib Require DecimalString.
From stdpp Require Import base option gmap strings.

Set Warnings "-inexact-float".
Open Scope string_scope.

(** ** package models *)

Module Customer.
Record t := mk { ID : string; Name : string; Email : string }.
End Customer.

Module Account.
(** [Type_] is the Go field [Type]: "current" or "savings". *)
Record t := mk {
  ID : string;
  CustomerID : string;
  Type_ : string;
  Balance : float;
  CreatedAt : Z
}.

(** [a.Balance = b] on a local copy of the struct. *)
Definition withBalance (a : t) (b : float) : t :=
  mk (ID a) (CustomerID a) (Type_ a) b (CreatedAt a).
End Account.

Module Transaction.
Record t := mk {
  ID : string;
  AccountID : string;
  CustomerID : string;
  Type_ : string;
  Amount : float;
  FromAccountID : string;
  ToAccountID : string;
  CreatedAt : Z
}.
End Transaction.

(** ** package store *)

Module Store.
Record t := mk {
  customers : gmap string Customer.t;
  accounts : gmap string Account.t;
  transactions : gmap string Transaction.t
}.

Definition empty : t := mk ∅ ∅ ∅.

Definition AddCustomer (customer : Customer.t) (s : t) : t :=
  mk (<[Customer.ID customer := customer]> (customers s)) (accounts s) (transactions s).

Definition GetCustomerByID (id : string) (s : t) : option Customer.t :=
  customers s !! id.

Definition AddAccount (account : Account.t) (s : t) : t :=
  mk (customers s) (<[Account.ID account := account]> (accounts s)) (transactions s).

Definition GetAccountByID (id : string) (s : t) : option Account.t :=
  accounts s !! id.

Definition UpdateAccount (account : Account.t) (s : t) : t :=
  mk (customers s) (<[Account.ID account := account]> (accounts s)) (transactions s).

Definition AddTransaction (transaction : Transaction.t) (s : t) : t :=
  mk (customers s) (accounts s)
     (<[Transaction.ID transaction := transaction]> (transactions s)).

(** The writes of the store API, as data, to speak about sequences of them. *)
Inductive op :=
| OpAddCustomer (c : Customer.t)
| OpAddAccount (a : Account.t)
| OpUpdateAccount (a : Account.t)
| OpAddTransaction (x : Transaction.t).

Definition apply (o : op) (s : t) : t :=
  match o with
  | OpAddCustomer c => AddCustomer c s
  | OpAddAccount a => AddAccount a s
  | OpUpdateAccount a => UpdateAccount a s
  | OpAddTransaction x => AddTransaction x s
  end.

Definition run (l : list op) (s : t) : t := fold_left (fun s o => apply o s) l s.

(** Every account is filed under its own ID (all writes use [account.ID]). *)
Definition keyed (s : t) : Prop :=
  map_Forall (λ k a, Account.ID a = k) (accounts s).
End Store.

(** ** package bankz: data *)

Module bankz.
Record MockAccount := mkMockAccount { AccountID : string; Balance : float }.

Record Token := mkToken { AccessToken : string; ExpiresAt : Z }.

Record MockClient := mkMockClient {
  accounts : gmap string MockAccount;
  clientID : string;
  clientSecret : string;
  token : option Token;
  tokenEndpoint : string
}.

Definition NewMockClient : MockClient :=
  mkMockClient
    (<["bankz-acc-456" := mkMockAccount "bankz-acc-456" 500]>
       (<["bankz-acc-123" := mkMockAccount "bankz-acc-123" 1000]> ∅))
    "mock-client-id" "mock-client-secret" None
    "https://mock.bankz.com/oauth/token".

Definition withToken (c : MockClient) (t : Token) : MockClient :=
  mkMockClient (accounts c) (clientID c) (clientSecret c) (Some t) (tokenEndpoint c).

Definition withAccounts (c : MockClient) (m : gmap string MockAccount) : MockClient :=
  mkMockClient m (clientID c) (clientSecret c) (token c) (tokenEndpoint c).
End bankz.

(** ** The world and its monad *)

Record World := mkWorld {
  wStore : Store.t;               (* store.GlobalStore *)
  wClient : bankz.MockClient;     (* bankzClient *)
  wClock : nat → Z;               (* successive readings of time.Now() *)
  wNowCalls : nat;                (* how many readings were taken *)
  wUuid : nat → string;           (* successive results of uuid.New().String() *)
  wUuidCalls : nat                (* how many were drawn *)
}.

Definition M (A : Type) : Type := World → A * World.

#[global] Instance M_ret : MRet M := λ A a w, (a, w).

#[global] Instance M_bind : MBind M :=
  λ A B k m w, let (a, w') := m w in k a w'.

Definition ret {A} (a : A) : M A := mret a.

Module time.
(** [1 * time.Hour], in nanoseconds. *)
Definition Hour : Z := 3600000000000.

Definition Now : M Z :=
  λ w, (wClock w (wNowCalls w),
        mkWorld (wStore w) (wClient w) (wClock w) (S (wNowCalls w))
                (wUuid w) (wUuidCalls w)).
End time.

Module uuid.
(** [uuid.New().String()] *)
Definition New : M string :=
  λ w, (wUuid w (wUuidCalls w),
        mkWorld (wStore w) (wClient w) (wClock w) (wNowCalls w)
                (wUuid w) (S (wUuidCalls w))).
End uuid.

Module fmt.
(** The [%d] verb on an [int64]. *)
Definition d (n : Z) : string := DecimalString.NilZero.string_of_int (Z.to_int n).
End fmt.

Definition readStore {A} (f : Store.t → A) : M A := λ w, (f (wStore w), w).

Definition writeStore (f : Store.t → Store.t) : M unit :=
  λ w, (tt, mkWorld (f (wStore w)) (wClient w) (wClock w) (wNowCalls w)
                    (wUuid w) (wUuidCalls w)).

Definition readClient {A} (f : bankz.MockClient → A) : M A := λ w, (f (wClient w), w).

Definition writeClient (f : bankz.MockClient → bankz.MockClient) : M unit :=
  λ w, (tt, mkWorld (wStore w) (f (wClient w)) (wClock w) (wNowCalls w)
                    (wUuid w) (wUuidCalls w)).

(** The methods of [store.GlobalStore], as actions on the world. *)
Module GlobalStore.
Definition AddCustomer c : M unit := writeStore (Store.AddCustomer c).
Definition GetCustomerByID id : M (option Customer.t) := readStore (Store.GetCustomerByID id).
Definition AddAccount a : M unit := writeStore (Store.AddAccount a).
Definition GetAccountByID id : M (option Account.t) := readStore (Store.GetAccountByID id).
Definition UpdateAccount a : M unit := writeStore (Store.UpdateAccount a).
Definition AddTransaction x : M unit := writeStore (Store.AddTransaction x).
End GlobalStore.

(** ** package bankz: the methods of [*MockClient], on [bankzClient] *)

Module bankzClient.
(** A Go [(T, error)] result: [inl v] is [(v, nil)], [inr msg] is an error
    whose [Error()] is [msg]. *)
Definition result (A : Type) : Type := A + string.

Definition GetToken : M (result string) :=
  tok ← readClient bankz.token;
  (* c.token != nil && c.token.ExpiresAt.After(time.Now()); the clock is
     read only when a token is cached *)
  cached ←
    match tok with
    | None => ret None
    | Some t =>
        now ← time.Now;
        ret (if (now <? bankz.ExpiresAt t)%Z then Some (bankz.AccessToken t) else None)
    end;
  match cached with
  | Some s => ret (inl s)
  | None =>
      id ← readClient bankz.clientID;
      secret ← readClient bankz.clientSecret;
      if negb (String.eqb id "mock-client-id") || negb (String.eqb secret "mock-client-secret")
      then ret (inr "invalid client credentials")
      else
        n ← time.Now;
        let tokenID := "token-" +:+ fmt.d n in
        e ← time.Now;
        let t := bankz.mkToken tokenID (e + 1 * time.Hour)%Z in
        writeClient (λ c, bankz.withToken c t);;
        ret (inl (bankz.AccessToken t))
  end.

(** [None] is Go's [nil] error. *)
Definition validateToken (token : string) : M (option string) :=
  tok ← readClient bankz.token;
  match tok with
  | None => ret (Some "invalid or expired token")
  | Some t =>
      if negb (String.eqb (bankz.AccessToken t) token)
      then ret (Some "invalid or expired token")
      else
        now ← time.Now;
        if (bankz.ExpiresAt t <? now)%Z
        then ret (Some "invalid or expired token")
        else ret None
  end.

Definition GetBalance (accountID token : string) : M (result float) :=
  err ← validateToken token;
  match err with
  | Some e => ret (inr e)
  | None =>
      accs ← readClient bankz.accounts;
      match accs !! accountID with
      | None => ret (inr ("Bank Z account " +:+ accountID +:+ " not found"))
      | Some account => ret (inl (bankz.Balance account))
      end
  end.

Definition InitiateTransfer (fromAccountID toAccountID token : string) (amount : float)
  : M (result string) :=
  err ← validateToken token;
  match err with
  | Some e => ret (inr e)
  | None =>
      if (amount <=? 0)%float then ret (inr "amount must be positive")
      else
        accs ← readClient bankz.accounts;
        match accs !! toAccountID with
        | None => ret (inr ("destination Bank Z account " +:+ toAccountID +:+ " not found"))
        | Some account =>
            writeClient (λ c, bankz.withAccounts c
              (<[toAccountID := bankz.mkMockAccount toAccountID
                                   (bankz.Balance account + amount)%float]> (bankz.accounts c)));;
            n ← time.Now;
            ret (inl ("bankz-tx-" +:+ fmt.d n))
        end
  end.
End bankzClient.

(** ** package regexp: the fragment the two validation patterns use

    Both patterns are anchored with [^] and [$] (no flags), so
    [MatchString] holds exactly when the whole string matches.  Matching is by
    derivatives; a character class is a predicate on bytes (all classes below
    are ASCII, so a byte of a multi-byte rune is in none of them). *)

Module regexp.
Inductive re :=
| Fail_
| Eps
| Class (p : ascii → bool)
| Cat (r1 r2 : re)
| Alt (r1 r2 : re)
| Star (r : re).

(** [r+] and [r{2,}] *)
Definition Plus (r : re) : re := Cat r (Star r).
Definition AtLeast2 (r : re) : re := Cat r (Cat r (Star r)).

Fixpoint nullable (r : re) : bool :=
  match r with
  | Fail_ => false
  | Eps => true
  | Class _ => false
  | Cat r1 r2 => nullable r1 && nullable r2
  | Alt r1 r2 => nullable r1 || nullable r2
  | Star _ => true
  end.

Fixpoint deriv (c : ascii) (r : re) : re :=
  match r with
  | Fail_ => Fail_
  | Eps => Fail_
  | Class p => if p c then Eps else Fail_
  | Cat r1 r2 =>
      if nullable r1 then Alt (Cat (deriv c r1) r2) (deriv c r2)
      else Cat (deriv c r1) r2
  | Alt r1 r2 => Alt (deriv c r1) (deriv c r2)
  | Star r1 => Cat (deriv c r1) (Star r1)
  end.

Fixpoint MatchString (r : re) (s : string) : bool :=
  match s with
  | EmptyString => nullable r
  | String c s' => MatchString (deriv c r) s'
  end.

Definition between (lo hi c : ascii) : bool :=
  (nat_of_ascii lo <=? nat_of_ascii c)%nat && (nat_of_ascii c <=? nat_of_ascii hi)%nat.

Definition oneOf (l : list ascii) (c : ascii) : bool :=
  existsb (Ascii.eqb c) l.

Definition letter (c : ascii) : bool := between "a" "z" c || between "A" "Z" c.
Definition digit (c : ascii) : bool := between "0" "9" c.

(** [\s] is [\t\n\f\r ] in Go's RE2 syntax. *)
Definition space (c : ascii) : bool :=
  oneOf [ascii_of_nat 9; ascii_of_nat 10; ascii_of_nat 12; ascii_of_nat 13; " "%char] c.

Definition lit (c : ascii) : re := Class (Ascii.eqb c).
End regexp.

(** ** package main *)

Record CustomerRequest := mkCustomerRequest { Name : string; Email : string }.

Record TransferRequest := mkTransferRequest {
  FromAccountID : string;
  ToAccountID : string;
  Amount : float
}.

Module http.
Definition StatusOK : Z := 200.
Definition StatusCreated : Z := 201.
Definition StatusBadRequest : Z := 400.
Definition StatusNotFound : Z := 404.
Definition StatusInternalServerError : Z := 500.
End http.

(** What a handler hands to [c.JSON]: the status code and the object. *)
Inductive Body :=
| H_errors (errors : list string)          (* gin.H{"errors": ...} *)
| H_error (error : string)                 (* gin.H{"error": ...} *)
| CustomerCreated (customerId currentAccountId savingsAccountId : string)
| TransferDone (transactionId status : string).

Record Response := JSON { code : Z; body : Body }.

(** [^[a-zA-Z\s]+$] *)
Definition nameRegex : regexp.re :=
  regexp.Plus (regexp.Class (λ c, regexp.letter c || regexp.space c)).

(** [^[a-zA-Z0-9._%+-]+@[a-zA-Z0-9.-]+\.[a-zA-Z]{2,}$] *)
Definition emailRegex : regexp.re :=
  regexp.Cat
    (regexp.Plus (regexp.Class (λ c, regexp.letter c || regexp.digit c
                                     || regexp.oneOf ["."; "_"; "%"; "+"; "-"]%char c)))
    (regexp.Cat (regexp.lit "@")
       (regexp.Cat
          (regexp.Plus (regexp.Class (λ c, regexp.letter c || regexp.digit c
                                           || regexp.oneOf ["."; "-"]%char c)))
          (regexp.Cat (regexp.lit ".")
             (regexp.AtLeast2 (regexp.Class regexp.letter))))).

(** The validation block of [createCustomer]: the messages, in the order they
    are appended. *)
Definition customerErrors (req : CustomerRequest) : list string :=
  let errors : list string := [] in
  let errors := if String.eqb (Name req) "" then (errors ++ ["Name cannot be empty"])%list else errors in
  let errors :=
    if negb (String.eqb (Name req) "") && negb (regexp.MatchString nameRegex (Name req))
    then (errors ++ ["Name must contain only letters and spaces"])%list else errors in
  let errors := if String.eqb (Email req) "" then (errors ++ ["Email cannot be empty"])%list else errors in
  let errors :=
    if negb (String.eqb (Email req) "") && negb (regexp.MatchString emailRegex (Email req))
    then (errors ++ ["Invalid email format"])%list else errors in
  errors.

(** [body] is the outcome of [c.ShouldBindJSON(&req)]: [None] when binding
    fails, the decoded request otherwise. *)
Definition createCustomer (body : option CustomerRequest) : M Response :=
  match body with
  | None => ret (JSON http.StatusBadRequest (H_errors ["Invalid request body"]))
  | Some req =>
      let errors := customerErrors req in
      if (0 <? length errors)%nat
      then ret (JSON http.StatusBadRequest (H_errors errors))
      else
        customerID ← uuid.New;
        currentAccountID ← uuid.New;
        savingsAccountID ← uuid.New;
        bonusTransactionID ← uuid.New;
        now ← time.Now;
        let customer := Customer.mk customerID (Name req) (Email req) in
        GlobalStore.AddCustomer customer;;
        let currentAccount := Account.mk currentAccountID customerID "current" 0 now in
        GlobalStore.AddAccount currentAccount;;
        let savingsAccount := Account.mk savingsAccountID customerID "savings" 500 now in
        GlobalStore.AddAccount savingsAccount;;
        let bonusTransaction :=
          Transaction.mk bonusTransactionID savingsAccountID customerID "bonus" 500 "" "" now in
        GlobalStore.AddTransaction bonusTransaction;;
        ret (JSON http.StatusCreated
               (CustomerCreated customerID currentAccountID savingsAccountID))
  end.

(** The validation block of [transferMoney]. *)
Definition transferErrors (req : TransferRequest) : list string :=
  let errors : list string := [] in
  let errors :=
    if String.eqb (FromAccountID req) "" then (errors ++ ["From account ID cannot be empty"])%list
    else errors in
  let errors :=
    if String.eqb (ToAccountID req) "" then (errors ++ ["To account ID cannot be empty"])%list
    else errors in
  let errors :=
    if (Amount req <=? 0)%float then (errors ++ ["Amount must be positive"])%list else errors in
  let errors :=
    if String.eqb (FromAccountID req) (ToAccountID req) && negb (String.eqb (FromAccountID req) "")
    then (errors ++ ["Cannot transfer to the same account"])%list else errors in
  errors.

(** The branch [if isExternalTransfer { ... return }]. *)
Definition bankzTransfer (customerID : string) (req : TransferRequest) (token : string)
    (fromAccount : Account.t) : M Response :=
  if (Account.Balance fromAccount <? Amount req)%float
  then ret (JSON http.StatusBadRequest (H_error "Insufficient funds"))
  else
    r ← bankzClient.InitiateTransfer (Account.ID fromAccount) (ToAccountID req) token (Amount req);
    match r with
    | inr err => ret (JSON http.StatusBadRequest (H_error err))
    | inl transactionID =>
        let fromAccount :=
          Account.withBalance fromAccount (Account.Balance fromAccount - Amount req)%float in
        GlobalStore.UpdateAccount fromAccount;;
        now ← time.Now;
        GlobalStore.AddTransaction
          (Transaction.mk transactionID (Account.ID fromAccount) customerID "bankz_transfer"
             (Amount req) (Account.ID fromAccount) (ToAccountID req) now);;
        ret (JSON http.StatusCreated (TransferDone transactionID "success"))
    end.

(** [fee := 0.0; if fromAccount.Type == "current" { fee = req.Amount * 0.0005 }] *)
Definition feeOf (fromAccount : Account.t) (amount : float) : float :=
  if String.eqb (Account.Type_ fromAccount) "current" then (amount * 0.0005)%float else 0%float.

(** [interest := 0.0; if toAccount.Type == "savings" { interest = req.Amount * 0.005 }] *)
Definition interestOf (toAccount : Account.t) (amount : float) : float :=
  if String.eqb (Account.Type_ toAccount) "savings" then (amount * 0.005)%float else 0%float.

(** The rest of the handler, after [// Internal transfer]. *)
Definition internalTransfer (customerID : string) (req : TransferRequest)
    (fromAccount toAccount : Account.t) : M Response :=
  let fee := feeOf fromAccount (Amount req) in
  let totalDeduction := (Amount req + fee)%float in
  if (Account.Balance fromAccount <? totalDeduction)%float
  then ret (JSON http.StatusBadRequest (H_error "Insufficient funds"))
  else
    let interest := interestOf toAccount (Amount req) in
    let fromAccount :=
      Account.withBalance fromAccount (Account.Balance fromAccount - totalDeduction)%float in
    let toAccount :=
      Account.withBalance toAccount (Account.Balance toAccount + (Amount req + interest))%float in
    GlobalStore.UpdateAccount fromAccount;;
    GlobalStore.UpdateAccount toAccount;;
    now ← time.Now;
    transferTransactionID ← uuid.New;
    GlobalStore.AddTransaction
      (Transaction.mk transferTransactionID (Account.ID fromAccount) customerID "transfer"
         (Amount req) (Account.ID fromAccount) (Account.ID toAccount) now);;
    (if (0 <? fee)%float then
       feeTransactionID ← uuid.New;
       GlobalStore.AddTransaction
         (Transaction.mk feeTransactionID (Account.ID fromAccount) customerID "fee" fee "" "" now)
     else ret tt);;
    (if (0 <? interest)%float then
       interestTransactionID ← uuid.New;
       GlobalStore.AddTransaction
         (Transaction.mk interestTransactionID (Account.ID toAccount) customerID "interest"
            interest "" "" now)
     else ret tt);;
    ret (JSON http.StatusCreated (TransferDone transferTransactionID "success")).

(** [customerID] is [c.Param("customerId")]; [body] is the outcome of
    [c.ShouldBindJSON(&req)]. *)
Definition transferMoney (customerID : string) (body : option TransferRequest) : M Response :=
  match body with
  | None => ret (JSON http.StatusBadRequest (H_errors ["Invalid request body"]))
  | Some req =>
      let errors := transferErrors req in
      if (0 <? length errors)%nat
      then ret (JSON http.StatusBadRequest (H_errors errors))
      else
        customer ← GlobalStore.GetCustomerByID customerID;
        match customer with
        | None => ret (JSON http.StatusNotFound (H_error "Customer not found"))
        | Some _ =>
            tok ← bankzClient.GetToken;
            match tok with
            | inr _ =>
                ret (JSON http.StatusInternalServerError
                       (H_error "Failed to authenticate with Bank Z"))
            | inl token =>
                fromFound ← GlobalStore.GetAccountByID (FromAccountID req);
                match fromFound with
                | None =>
                    ret (JSON http.StatusBadRequest
                           (H_error ("Source account " +:+ FromAccountID req +:+ " not found")))
                | Some fromAccount =>
                    if negb (String.eqb (Account.CustomerID fromAccount) customerID)
                    then ret (JSON http.StatusBadRequest
                                (H_error "Source account does not belong to the customer"))
                    else
                      toFound ← GlobalStore.GetAccountByID (ToAccountID req);
                      match toFound with
                      | None =>
                          (* isExternalTransfer is set iff GetBalance succeeds *)
                          b ← bankzClient.GetBalance (ToAccountID req) token;
                          match b with
                          | inl _ => bankzTransfer customerID req token fromAccount
                          | inr _ =>
                              ret (JSON http.StatusBadRequest
                                     (H_error ("Destination account " +:+ ToAccountID req
                                               +:+ " not found")))
                          end
                      | Some toAccount =>
                          if negb (String.eqb (Account.CustomerID toAccount) customerID)
                          then ret (JSON http.StatusBadRequest
                                      (H_error "Destination account does not belong to the customer"))
                          else internalTransfer customerID req fromAccount toAccount
                      end
                end
            end
        end
  end.

(** * Vocabulary of the statements *)

(** [w'] differs from [w] at most in the Bank Z client and in the number of
    clock readings taken. *)
Record gatewayStep (w w' : World) : Prop := {
  gs_store : wStore w' = wStore w;
  gs_clock : wClock w' = wClock w;
  gs_uuid : wUuid w' = wUuid w;
  gs_uuidCalls : wUuidCalls w' = wUuidCalls w;
  gs_nowCalls : (wNowCalls w ≤ wNowCalls w')%nat;
  gs_clientID : bankz.clientID (wClient w') = bankz.clientID (wClient w);
  gs_clientSecret : bankz.clientSecret (wClient w') = bankz.clientSecret (wClient w)
}.

(** The credentials [NewMockClient] configures; no code path writes them. *)
Definition credentialsOK (c : bankz.MockClient) : Prop :=
  bankz.clientID c = "mock-client-id" ∧ bankz.clientSecret c = "mock-client-secret".

(** The world after [n] more readings of the clock. *)
Definition tick (n : nat) (w : World) : World :=
  mkWorld (wStore w) (wClient w) (wClock w) (n + wNowCalls w) (wUuid w) (wUuidCalls w).

(** The world after [n] more UUIDs were drawn. *)
Definition drawn (n : nat) (w : World) : World :=
  mkWorld (wStore w) (wClient w) (wClock w) (wNowCalls w) (wUuid w) (n + wUuidCalls w).

Definition withClient (c : bankz.MockClient) (w : World) : World :=
  mkWorld (wStore w) c (wClock w) (wNowCalls w) (wUuid w) (wUuidCalls w).

Definition withStore (s : Store.t) (w : World) : World :=
  mkWorld s (wClient w) (wClock w) (wNowCalls w) (wUuid w) (wUuidCalls w).

(** The next reading of the clock. *)
Definition nextNow (w : World) : Z := wClock w (wNowCalls w).

(** The token minted when the clock shows [n] and then [e]. *)
Definition minted (n e : Z) : bankz.Token :=
  bankz.mkToken ("token-" +:+ fmt.d n) (e + 1 * time.Hour)%Z.

Definition destinationNotFound (req : TransferRequest) : Response :=
  JSON http.StatusBadRequest
       (H_error ("Destination account " +:+ ToAccountID req +:+ " not found")).

Definition destinationNotOwned : Response :=
  JSON http.StatusBadRequest (H_error "Destination account does not belong to the customer").

Definition insufficientFunds : Response :=
  JSON http.StatusBadRequest (H_error "Insufficient funds").

Definition authFailure : Response :=
  JSON http.StatusInternalServerError (H_error "Failed to authenticate with Bank Z").

Definition b2n (b : bool) : nat := if b then 1 else 0.

(** The writes of a committed internal transfer, in program order.  [now] is
    the clock reading and [u], [k] the UUID source and its position when the
    transfer commits. *)
Definition internalWrites (customerID : string) (req : TransferRequest)
    (fromAccount toAccount : Account.t) (now : Z) (u : nat → string) (k : nat)
  : list Store.op :=
  let fee := feeOf fromAccount (Amount req) in
  let interest := interestOf toAccount (Amount req) in
  [ Store.OpUpdateAccount
      (Account.withBalance fromAccount
         (Account.Balance fromAccount - (Amount req + fee))%float);
    Store.OpUpdateAccount
      (Account.withBalance toAccount
         (Account.Balance toAccount + (Amount req + interest))%float);
    Store.OpAddTransaction
      (Transaction.mk (u k) (Account.ID fromAccount) customerID "transfer" (Amount req)
         (Account.ID fromAccount) (Account.ID toAccount) now) ]
  ++ (if (0 <? fee)%float
      then [ Store.OpAddTransaction
               (Transaction.mk (u (S k)) (Account.ID fromAccount) customerID "fee" fee "" "" now) ]
      else [])
  ++ (if (0 <? interest)%float
      then [ Store.OpAddTransaction
               (Transaction.mk (u (if (0 <? fee)%float then S (S k) else S k))
                  (Account.ID toAccount) customerID "interest" interest "" "" now) ]
      else []).

(** The writes of a committed Bank Z transfer. *)
Definition bankzWrites (customerID : string) (req : TransferRequest)
    (fromAccount : Account.t) (transactionID : string) (now : Z) : list Store.op :=
  [ Store.OpUpdateAccount
      (Account.withBalance fromAccount (Account.Balance fromAccount - Amount req)%float);
    Store.OpAddTransaction
      (Transaction.mk transactionID (Account.ID fromAccount) customerID "bankz_transfer"
         (Amount req) (Account.ID fromAccount) (ToAccountID req) now) ].

(** The writes of a successful [createCustomer]. *)
Definition onboardingWrites (req : CustomerRequest) (now : Z) (u : nat → string) (k : nat)
  : list Store.op :=
  [ Store.OpAddCustomer (Customer.mk (u k) (Name req) (Email req));
    Store.OpAddAccount (Account.mk (u (1 + k)) (u k) "current" 0 now);
    Store.OpAddAccount (Account.mk (u (2 + k)) (u k) "savings" 500 now);
    Store.OpAddTransaction
      (Transaction.mk (u (3 + k)) (u (2 + k)) (u k) "bonus" 500 "" "" now) ].

(** [o] writes a transaction record under [id]. *)
Definition addsTransaction (id : string) (o : Store.op) : Prop :=
  match o with
  | Store.OpAddTransaction x => Transaction.ID x = id
  | _ => False
  end.

(** A ledger to run the handlers on: customer "c1" with the current account
    "a1" holding 1000 and the savings account "a2" holding 500, and customer
    "c2" with the current account "b1" holding 50. *)
Definition exampleStore : Store.t :=
  Store.run
    [ Store.OpAddCustomer (Customer.mk "c1" "Jane Doe" "jane@example.com");
      Store.OpAddAccount (Account.mk "a1" "c1" "current" 1000 0);
      Store.OpAddAccount (Account.mk "a2" "c1" "savings" 500 0);
      Store.OpAddCustomer (Customer.mk "c2" "John Roe" "john@example.com");
      Store.OpAddAccount (Account.mk "b1" "c2" "current" 50 0) ]
    Store.empty.

(** A clock that advances by one nanosecond per reading, and UUIDs "u0",
    "u1", ... *)
Definition exampleWorld : World :=
  mkWorld exampleStore bankz.NewMockClient (λ n, 1000 + Z.of_nat n)%Z 0
          (λ n, "u" +:+ fmt.d (Z.of_nat n)) 0.

(** The same ledger under a clock that jumps two hours ahead at its fourth
    reading: a token minted at the start is valid for the third reading and
    expired at the fourth. *)
Definition jumpingWorld : World :=
  mkWorld exampleStore bankz.NewMockClient
          (λ n, if (n <? 3)%nat then 0 else 2 * time.Hour)%Z 0
          (λ n, "u" +:+ fmt.d (Z.of_nat n)) 0.

(** The messages a response reports. *)
Definition reported (r : Response) : list string :=
  match body r with
  | H_errors l => l
  | H_error e => [e]
  | _ => []
  end.

(** The four input checks of [transferMoney] with their messages, in the
    order the handler evaluates them. *)
Definition inputChecks (req : TransferRequest) : list (bool * string) :=
  [ (String.eqb (FromAccountID req) "", "From account ID cannot be empty");
    (String.eqb (ToAccountID req) "", "To account ID cannot be empty");
    ((Amount req <=? 0)%float, "Amount must be positive");
    (String.eqb (FromAccountID req) (ToAccountID req)
     && negb (String.eqb (FromAccountID req) ""),
     "Cannot transfer to the same account") ].

(** The two handlers that write, as requests, and a server that serves a
    list of them one after the other. *)
Inductive Request :=
| PostCustomers (body : option CustomerRequest)
| PostTransfers (customerID : string) (body : option TransferRequest).

Definition serve (r : Request) : M Response :=
  match r with
  | PostCustomers body => createCustomer body
  | PostTransfers customerID body => transferMoney customerID body
  end.

Definition serveAll (l : list Request) (w : World) : World :=
  fold_left (λ w r, (serve r w).2) l w.

(** [id] was produced between [w] and [w']: by [uuid.New()], or as the
    transaction ID the Bank Z client derives from a clock reading. *)
Definition idDrawn (w w' : World) (id : string) : Prop :=
  (∃ k, (wUuidCalls w ≤ k < wUuidCalls w')%nat ∧ id = wUuid w k)
  ∨ (∃ k, (wNowCalls w ≤ k < wNowCalls w')%nat
          ∧ id = "bankz-tx-" +:+ fmt.d (wClock w k)).

(** [w'] comes from [w] by store writes whose transaction IDs were all drawn
    in between; the clock and the UUID source only moved forward. *)
Record served (w w' : World) : Prop := {
  sv_clock : wClock w' = wClock w;
  sv_uuid : wUuid w' = wUuid w;
  sv_nowCalls : (wNowCalls w ≤ wNowCalls w')%nat;
  sv_uuidCalls : (wUuidCalls w ≤ wUuidCalls w')%nat;
  sv_clientID : bankz.clientID (wClient w') = bankz.clientID (wClient w);
  sv_clientSecret : bankz.clientSecret (wClient w') = bankz.clientSecret (wClient w);
  sv_writes : ∃ l, wStore w' = Store.run l (wStore w)
                   ∧ Forall (λ o, ∀ id, addsTransaction id o → idDrawn w w' id) l
}.


(** Binary64 values through their specification ([SpecFloat]). *)
Module F64.
Import SpecFloat.


Definition finiteSF (f : spec_float) : bool :=
  match f with S754_zero _ | S754_finite _ _ _ => true | _ => false end.

Definition notNan (f : spec_float) : bool :=
  match f with S754_nan => false | _ => true end.
End F64.

(** * The listing methods of the store and the GET handlers *)

(** A Go [range] over a map visits every entry once, in an order the language
    leaves open.  The order of one traversal is given as the list of keys in
    the order they are visited; [traversal m keys] says that [keys] is such an
    order for [m], and [rangeOver m keys] is the sequence of entries the loop
    body sees. *)
Definition traversal {A} (m : gmap string A) (keys : list string) : Prop :=
  keys ≡ₚ (map_to_list m).*1.

Definition rangeOver {A} (m : gmap string A) (keys : list string) : list (string * A) :=
  omap (λ k, (λ v, (k, v)) <$> m !! k) keys.

(** [GetAccountsByCustomerID]; [keys] is the order in which
    [range s.accounts] visits the map. *)
Definition GetAccountsByCustomerID (customerID : string) (keys : list string) (s : Store.t)
  : list Account.t :=
  fold_left
    (λ accounts e,
       if String.eqb (Account.CustomerID e.2) customerID then (accounts ++ [e.2])%list
       else accounts)
    (rangeOver (Store.accounts s) keys) [].

(** The set [accountIDs] that [GetTransactionsByCustomerID] builds first. *)
Definition accountIDsOf (customerID : string) (keys : list string) (s : Store.t) : gset string :=
  fold_left
    (λ accountIDs e,
       if String.eqb (Account.CustomerID e.2) customerID
       then {[Account.ID e.2]} ∪ accountIDs
       else accountIDs)
    (rangeOver (Store.accounts s) keys) ∅.

(** [GetTransactionsByCustomerID]; [accountKeys] and [transactionKeys] are the
    orders of its two [range] loops. *)
Definition GetTransactionsByCustomerID (customerID : string)
    (accountKeys transactionKeys : list string) (s : Store.t) : list Transaction.t :=
  let accountIDs := accountIDsOf customerID accountKeys s in
  fold_left
    (λ transactions e,
       if bool_decide (Transaction.AccountID e.2 ∈ accountIDs)
       then (transactions ++ [e.2])%list
       else transactions)
    (rangeOver (Store.transactions s) transactionKeys) [].

Module BankZBalanceResponse.
Record t := mk { AccountID : string; Balance : float }.
End BankZBalanceResponse.

(** [CreatedAt] is the formatted timestamp. *)
Module TransactionResponse.
Record t := mk {
  ID : string;
  AccountID : string;
  CustomerID : string;
  Type_ : string;
  Amount : float;
  FromAccountID : string;
  ToAccountID : string;
  CreatedAt : string
}.
End TransactionResponse.

(** What the GET handlers hand to [c.JSON].  A Go slice is a list here, so a
    nil slice and an empty one are the same value. *)
Inductive ReadBody :=
| R_error (error : string)
| R_accounts (customerId : string) (accounts : list Account.t)
| R_balances (customerId : string) (balances : list BankZBalanceResponse.t)
| R_transactions (customerId : string) (transactions : list TransactionResponse.t).

Record ReadResponse := ReadJSON { rcode : Z; rbody : ReadBody }.

Definition getCustomerAccounts (customerID : string) (keys : list string) : M ReadResponse :=
  found ← GlobalStore.GetCustomerByID customerID;
  match found with
  | None => ret (ReadJSON http.StatusNotFound (R_error "Customer not found"))
  | Some _ =>
      accounts ← readStore (GetAccountsByCustomerID customerID keys);
      if (length accounts =? 0)%nat
      then ret (ReadJSON http.StatusNotFound (R_error "No accounts found for customer"))
      else ret (ReadJSON http.StatusOK (R_accounts customerID accounts))
  end.

(** The loop of [getBankZBalances] over [linkedAccountIDs]: an account whose
    [GetBalance] fails is skipped. *)
Fixpoint collectBalances (linkedAccountIDs : list string) (token : string)
    (balances : list BankZBalanceResponse.t) : M (list BankZBalanceResponse.t) :=
  match linkedAccountIDs with
  | [] => ret balances
  | accountID :: rest =>
      r ← bankzClient.GetBalance accountID token;
      match r with
      | inr _ => collectBalances rest token balances
      | inl balance =>
          collectBalances rest token
            (balances ++ [BankZBalanceResponse.mk accountID balance])%list
      end
  end.

Definition linkedAccountIDs : list string := ["bankz-acc-123"; "bankz-acc-456"].

Definition getBankZBalances (customerID : string) : M ReadResponse :=
  found ← GlobalStore.GetCustomerByID customerID;
  match found with
  | None => ret (ReadJSON http.StatusNotFound (R_error "Customer not found"))
  | Some _ =>
      tok ← bankzClient.GetToken;
      match tok with
      | inr _ =>
          ret (ReadJSON http.StatusInternalServerError
                 (R_error "Failed to authenticate with Bank Z"))
      | inl token =>
          balances ← collectBalances linkedAccountIDs token [];
          ret (ReadJSON http.StatusOK (R_balances customerID balances))
      end
  end.

(** The filter loop of [getCustomerTransactions]; an empty query parameter
    filters nothing. *)
Definition filterTransactions (accountID transactionType : string)
    (transactions : list Transaction.t) : list Transaction.t :=
  fold_left
    (λ filtered tx,
       if negb (String.eqb accountID "") && negb (String.eqb (Transaction.AccountID tx) accountID)
       then filtered
       else if negb (String.eqb transactionType "")
               && negb (String.eqb (Transaction.Type_ tx) transactionType)
       then filtered
       else (filtered ++ [tx])%list)
    transactions [].

Section Transactions.
(** [t.Format(time.RFC3339)], which depends on the time zone of the process. *)
Variable RFC3339 : Z → string.

Definition toTransactionResponse (tx : Transaction.t) : TransactionResponse.t :=
  TransactionResponse.mk (Transaction.ID tx) (Transaction.AccountID tx)
    (Transaction.CustomerID tx) (Transaction.Type_ tx) (Transaction.Amount tx)
    (Transaction.FromAccountID tx) (Transaction.ToAccountID tx)
    (RFC3339 (Transaction.CreatedAt tx)).

(** [accountID] and [transactionType] are [c.Query("accountId")] and
    [c.Query("type")], empty when the parameter is absent. *)
Definition getCustomerTransactions (customerID accountID transactionType : string)
    (accountKeys transactionKeys : list string) : M ReadResponse :=
  found ← GlobalStore.GetCustomerByID customerID;
  match found with
  | None => ret (ReadJSON http.StatusNotFound (R_error "Customer not found"))
  | Some _ =>
      transactions ←
        readStore (GetTransactionsByCustomerID customerID accountKeys transactionKeys);
      if (length transactions =? 0)%nat
      then ret (ReadJSON http.StatusOK (R_transactions customerID []))
      else
        let filtered := filterTransactions accountID transactionType transactions in
        let responseTransactions := map toTransactionResponse filtered in
        ret (ReadJSON http.StatusOK (R_transactions customerID responseTransactions))
  end.
End Transactions.

(** * Vocabulary for the rest of the code *)

(** The strings a pattern denotes. *)
Inductive denotes : regexp.re → string → Prop :=
| denotes_eps : denotes regexp.Eps ""
| denotes_class p c : p c = true → denotes (regexp.Class p) (String c "")
| denotes_cat r1 r2 s1 s2 :
    denotes r1 s1 → denotes r2 s2 → denotes (regexp.Cat r1 r2) (s1 +:+ s2)
| denotes_alt_l r1 r2 s : denotes r1 s → denotes (regexp.Alt r1 r2) s
| denotes_alt_r r1 r2 s : denotes r2 s → denotes (regexp.Alt r1 r2) s
| denotes_star_nil r : denotes (regexp.Star r) ""
| denotes_star_cons r s1 s2 :
    denotes r s1 → denotes (regexp.Star r) s2 → denotes (regexp.Star r) (s1 +:+ s2).

(** Every character of [s] is in the class [p]. *)
Fixpoint allChars (p : ascii → bool) (s : string) : bool :=
  match s with
  | EmptyString => true
  | String c s' => p c && allChars p s'
  end.

(** The character classes of the two patterns. *)
Definition nameChar (c : ascii) : bool := regexp.letter c || regexp.space c.

Definition localChar (c : ascii) : bool :=
  regexp.letter c || regexp.digit c || regexp.oneOf ["."; "_"; "%"; "+"; "-"]%char c.

Definition domainChar (c : ascii) : bool :=
  regexp.letter c || regexp.digit c || regexp.oneOf ["."; "-"]%char c.

(** [s] is made of a non-empty local part, "@", a non-empty domain, "." and at
    least two letters. *)
Definition emailShape (s : string) : Prop :=
  ∃ l d t, s = l +:+ "@" +:+ d +:+ "." +:+ t
           ∧ l ≠ "" ∧ allChars localChar l = true
           ∧ d ≠ "" ∧ allChars domainChar d = true
           ∧ (2 ≤ String.length t)%nat ∧ allChars regexp.letter t = true.

(** [w'] differs from [w] at most in the cached token and in the number of
    clock readings: the store and the partner accounts are the same. *)
Record quietStep (w w' : World) : Prop := {
  qs_gateway : gatewayStep w w';
  qs_accounts : bankz.accounts (wClient w') = bankz.accounts (wClient w)
}.

(** Every record is filed under its own ID, every account belongs to a stored
    customer and every transaction is posted against a stored account. *)
Record consistent (s : Store.t) : Prop := {
  cs_customers : map_Forall (λ k c, Customer.ID c = k) (Store.customers s);
  cs_accounts : Store.keyed s;
  cs_transactions : map_Forall (λ k t, Transaction.ID t = k) (Store.transactions s);
  cs_owner :
    map_Forall (λ _ a, is_Some (Store.customers s !! Account.CustomerID a)) (Store.accounts s);
  cs_posted :
    map_Forall (λ _ t, is_Some (Store.accounts s !! Transaction.AccountID t))
               (Store.transactions s)
}.

(** The record a write refers to is in the store [s] it is applied to. *)
Definition refersToStored (s : Store.t) (o : Store.op) : Prop :=
  match o with
  | Store.OpAddCustomer _ => True
  | Store.OpAddAccount a | Store.OpUpdateAccount a =>
      is_Some (Store.customers s !! Account.CustomerID a)
  | Store.OpAddTransaction t => is_Some (Store.accounts s !! Transaction.AccountID t)
  end.

Fixpoint writesReferToStored (s : Store.t) (l : list Store.op) : Prop :=
  match l with
  | [] => True
  | o :: l' => refersToStored s o ∧ writesReferToStored (Store.apply o s) l'
  end.

(** The entry [getBankZBalances] reports for a linked account, if the client
    holds it. *)
Definition balanceEntry (c : bankz.MockClient) (accountID : string)
  : list BankZBalanceResponse.t :=
  match bankz.accounts c !! accountID with
  | Some account => [BankZBalanceResponse.mk accountID (bankz.Balance account)]
  | None => []
  end.

(** The filter of [getCustomerTransactions] as a test on one transaction. *)
Definition passesFilters (accountID transactionType : string) (tx : Transaction.t) : Prop :=
  (accountID = "" ∨ Transaction.AccountID tx = accountID)
  ∧ (transactionType = "" ∨ Transaction.Type_ tx = transactionType).

(** * Facts *)

(** ** Binary64 arithmetic *)

Module F64Facts.
Import SpecFloat F64.












Section Compare.
Variables prec emax : Z.
Hypothesis prec_pos : (0 < prec)%Z.






End Compare.



Lemma is_finite_SF (x : float) : is_finite x = true → finiteSF (Prim2SF x) = true.
Proof.
  unfold is_finite, is_nan, is_infinity. rewrite !FloatAxioms.eqb_spec, FloatAxioms.abs_spec.
  change (Prim2SF infinity) with (S754_infinity false).
  destruct (Prim2SF x) as [s|s| |s m e]; try done. by destruct s.
Qed.




End F64Facts.

(** ** The gateway never touches the ledger *)

Lemma gatewayStep_refl w : gatewayStep w w.
Proof. by constructor. Qed.

Lemma gatewayStep_trans w1 w2 w3 : gatewayStep w1 w2 → gatewayStep w2 w3 → gatewayStep w1 w3.
Proof.
  intros [] []; constructor; try congruence. lia.
Qed.

Ltac run_step :=
  match goal with
  | |- context [String.eqb ?a ?b] => destruct (String.eqb a b) eqn:?
  | |- context [Z.ltb ?a ?b] => destruct (Z.ltb a b) eqn:?
  | |- context [PrimFloat.leb ?a ?b] => destruct (PrimFloat.leb a b) eqn:?
  | |- context [@lookup _ _ (gmap _ _) _ ?k ?m] => destruct (@lookup _ _ (gmap _ _) _ k m) eqn:?
  | |- context [match ?o with Some _ => _ | None => _ end] => destruct o eqn:?
  end.

Ltac unfold_gateway :=
  unfold bankzClient.GetToken, bankzClient.GetBalance, bankzClient.InitiateTransfer,
    bankzClient.validateToken, time.Now, readClient, writeClient, ret,
    mbind, mret, M_bind, M_ret.

Lemma GetToken_step w : gatewayStep w (bankzClient.GetToken w).2.
Proof.
  unfold_gateway. destruct w as [s c clk n u k]; simpl.
  repeat (run_step; simpl); constructor; simpl; auto; lia.
Qed.

Lemma validateToken_step token w : gatewayStep w (bankzClient.validateToken token w).2.
Proof.
  unfold_gateway. destruct w as [s c clk n u k]; simpl.
  repeat (run_step; simpl); constructor; simpl; auto; lia.
Qed.

Lemma GetBalance_step a token w : gatewayStep w (bankzClient.GetBalance a token w).2.
Proof.
  unfold_gateway. destruct w as [s c clk n u k]; simpl.
  repeat (run_step; simpl); constructor; simpl; auto; lia.
Qed.

Lemma InitiateTransfer_step a b token x w :
  gatewayStep w (bankzClient.InitiateTransfer a b token x w).2.
Proof.
  unfold_gateway. destruct w as [s c clk n u k]; simpl.
  repeat (run_step; simpl); constructor; simpl; auto; lia.
Qed.

(** ** GetToken *)

Lemma GetToken_cached w t :
  bankz.token (wClient w) = Some t →
  (nextNow w < bankz.ExpiresAt t)%Z →
  bankzClient.GetToken w = (inl (bankz.AccessToken t), tick 1 w).
Proof.
  intros Ht Hlt. unfold_gateway. unfold nextNow in Hlt.
  destruct w as [s c clk n u k]; simpl in *. rewrite Ht. simpl.
  apply Z.ltb_lt in Hlt. by rewrite Hlt.
Qed.

Lemma GetToken_fresh w :
  credentialsOK (wClient w) →
  bankz.token (wClient w) = None →
  let t := minted (nextNow w) (nextNow (tick 1 w)) in
  bankzClient.GetToken w
  = (inl (bankz.AccessToken t), tick 2 (withClient (bankz.withToken (wClient w) t) w)).
Proof.
  intros [Hi Hs] Ht. unfold_gateway. unfold nextNow, tick, withClient.
  destruct w as [s c clk n u k]; simpl in *. rewrite Ht; simpl.
  rewrite Hi, Hs. by simpl.
Qed.

Lemma GetToken_expired w t0 :
  credentialsOK (wClient w) →
  bankz.token (wClient w) = Some t0 →
  (bankz.ExpiresAt t0 ≤ nextNow w)%Z →
  let t := minted (nextNow (tick 1 w)) (nextNow (tick 2 w)) in
  bankzClient.GetToken w
  = (inl (bankz.AccessToken t), tick 3 (withClient (bankz.withToken (wClient w) t) w)).
Proof.
  intros [Hi Hs] Ht Hle. unfold_gateway. unfold nextNow, tick, withClient in *.
  destruct w as [s c clk n u k]; simpl in *. rewrite Ht. simpl.
  apply Z.ltb_ge in Hle. rewrite Hle; simpl. rewrite Hi, Hs. by simpl.
Qed.

Lemma GetToken_succeeds w :
  credentialsOK (wClient w) → ∃ token w', bankzClient.GetToken w = (inl token, w').
Proof.
  intros Hc. destruct (bankz.token (wClient w)) as [t0|] eqn:Ht.
  - destruct (Z.lt_ge_cases (nextNow w) (bankz.ExpiresAt t0)).
    + rewrite (GetToken_cached w t0) by done. eauto.
    + rewrite (GetToken_expired w t0) by done. eauto.
  - rewrite GetToken_fresh by done. eauto.
Qed.

(** ** The shape of a transfer *)

Ltac unfold_store :=
  unfold GlobalStore.GetCustomerByID, GlobalStore.GetAccountByID, GlobalStore.AddCustomer,
    GlobalStore.AddAccount, GlobalStore.UpdateAccount, GlobalStore.AddTransaction,
    Store.GetCustomerByID, Store.GetAccountByID, readStore, writeStore,
    uuid.New, time.Now, ret, mbind, mret, M_bind, M_ret.

(** Once the request is valid, the customer exists, a token was obtained and
    the source account is the customer's, the handler is left with resolving
    the destination. *)
Lemma transferMoney_resolved customerID req w c token w1 fromAccount :
  transferErrors req = [] →
  Store.customers (wStore w) !! customerID = Some c →
  bankzClient.GetToken w = (inl token, w1) →
  Store.accounts (wStore w) !! FromAccountID req = Some fromAccount →
  Account.CustomerID fromAccount = customerID →
  transferMoney customerID (Some req) w =
    match Store.accounts (wStore w) !! ToAccountID req with
    | None =>
        let (b, w2) := bankzClient.GetBalance (ToAccountID req) token w1 in
        match b with
        | inl _ => bankzTransfer customerID req token fromAccount w2
        | inr _ => (destinationNotFound req, w2)
        end
    | Some toAccount =>
        if negb (String.eqb (Account.CustomerID toAccount) customerID)
        then (destinationNotOwned, w1)
        else internalTransfer customerID req fromAccount toAccount w1
    end.
Proof.
  intros Hv Hc Ht Hf Ho. unfold transferMoney. rewrite Hv. simpl.
  unfold_store. rewrite Hc, Ht.
  pose proof (GetToken_step w) as Hs. rewrite Ht in Hs. destruct Hs as [Hs _ _ _ _ _ _].
  simpl in Hs. rewrite Hs, Hf. rewrite Ho, String.eqb_refl. simpl. rewrite Hs.
  destruct (Store.accounts (wStore w) !! ToAccountID req) as [toAccount|].
  - by destruct (negb _).
  - destruct (bankzClient.GetBalance _ _ _) as [[?|?] ?]; reflexivity.
Qed.

Lemma internalTransfer_commit customerID req fromAccount toAccount w :
  (Account.Balance fromAccount <? Amount req + feeOf fromAccount (Amount req))%float = false →
  internalTransfer customerID req fromAccount toAccount w =
    (JSON http.StatusCreated (TransferDone (wUuid w (wUuidCalls w)) "success"),
     drawn (1 + b2n (0 <? feeOf fromAccount (Amount req))%float
              + b2n (0 <? interestOf toAccount (Amount req))%float)
       (tick 1 (withStore
          (Store.run (internalWrites customerID req fromAccount toAccount
                        (nextNow w) (wUuid w) (wUuidCalls w)) (wStore w)) w))).
Proof.
  intros Hb. unfold internalTransfer, internalWrites. rewrite Hb. unfold_store.
  destruct w as [s c clk n u k]; unfold drawn, tick, withStore, nextNow; simpl.
  destruct (0 <? feeOf fromAccount (Amount req))%float;
    destruct (0 <? interestOf toAccount (Amount req))%float; reflexivity.
Qed.

Lemma internalTransfer_reject customerID req fromAccount toAccount w :
  (Account.Balance fromAccount <? Amount req + feeOf fromAccount (Amount req))%float = true →
  internalTransfer customerID req fromAccount toAccount w = (insufficientFunds, w).
Proof. intros Hb. unfold internalTransfer. by rewrite Hb. Qed.

(** ** What a committed internal transfer writes *)

Lemma internalWrites_accounts customerID req fromAccount toAccount now u k s :
  Store.accounts (Store.run (internalWrites customerID req fromAccount toAccount now u k) s)
  = <[Account.ID toAccount :=
        Account.withBalance toAccount
          (Account.Balance toAccount
           + (Amount req + interestOf toAccount (Amount req)))%float]>
      (<[Account.ID fromAccount :=
           Account.withBalance fromAccount
             (Account.Balance fromAccount
              - (Amount req + feeOf fromAccount (Amount req)))%float]>
         (Store.accounts s)).
Proof.
  unfold internalWrites.
  destruct (0 <? feeOf _ _)%float, (0 <? interestOf _ _)%float; reflexivity.
Qed.

Lemma internalWrites_customers customerID req fromAccount toAccount now u k s :
  Store.customers (Store.run (internalWrites customerID req fromAccount toAccount now u k) s)
  = Store.customers s.
Proof.
  unfold internalWrites.
  destruct (0 <? feeOf _ _)%float, (0 <? interestOf _ _)%float; reflexivity.
Qed.





(** Writes keep every account filed under its own ID. *)
Lemma apply_keyed o s : Store.keyed s → Store.keyed (Store.apply o s).
Proof.
  unfold Store.keyed. destruct o as [c|a|a|x]; simpl; try done.
  - intros H. by apply map_Forall_insert_2.
  - intros H. by apply map_Forall_insert_2.
Qed.

Lemma run_keyed l s : Store.keyed s → Store.keyed (Store.run l s).
Proof.
  revert s. induction l as [|o l IH]; intros s H; [done|].
  unfold Store.run in *. simpl. by apply IH, apply_keyed.
Qed.

Lemma GetToken_store w : wStore (bankzClient.GetToken w).2 = wStore w.
Proof. apply GetToken_step. Qed.

(** * The properties of the specification *)

(** The embedding on the onboarding scenario: "Jane Doe" gets a current
    account at 0 and a savings account at 500; 100 from current to savings is
    refused; 100 from savings to current leaves 400 and 100 and records one
    transfer, with no fee and no interest. *)
Example onboarding_scenario :
  let w0 := withStore Store.empty exampleWorld in
  let r1 := createCustomer (Some (mkCustomerRequest "Jane Doe" "jane@example.com")) w0 in
  let r2 := transferMoney "u0" (Some (mkTransferRequest "u1" "u2" 100)) r1.2 in
  let r3 := transferMoney "u0" (Some (mkTransferRequest "u2" "u1" 100)) r2.2 in
  r1.1 = JSON 201 (CustomerCreated "u0" "u1" "u2")
  ∧ r2.1 = JSON 400 (H_error "Insufficient funds")
  ∧ r3.1 = JSON 201 (TransferDone "u4" "success")
  ∧ Account.Balance <$> Store.accounts (wStore r3.2) !! "u1" = Some 100%float
  ∧ Account.Balance <$> Store.accounts (wStore r3.2) !! "u2" = Some 400%float
  ∧ Transaction.Type_ <$> Store.transactions (wStore r3.2)
    = <["u4" := "transfer"]> (<["u3" := "bonus"]> ∅).
Proof. repeat split; vm_compute; reflexivity. Qed.

Example customerErrors_rejects :
  customerErrors (mkCustomerRequest "Jane3" "jane@example")
  = ["Name must contain only letters and spaces"; "Invalid email format"]
  ∧ customerErrors (mkCustomerRequest "" "a@b.c")
    = ["Name cannot be empty"; "Invalid email format"]
  ∧ customerErrors (mkCustomerRequest "Jane Doe" "j.doe+x@mail.example.org") = [].
Proof. repeat split; vm_compute; reflexivity. Qed.


Lemma empty_keyed : Store.keyed Store.empty.
Proof. apply map_Forall_empty. Qed.

Lemma exampleStore_keyed : Store.keyed exampleStore.
Proof. apply run_keyed, empty_keyed. Qed.

Lemma NewMockClient_credentialsOK : credentialsOK bankz.NewMockClient.
Proof. by split. Qed.


(** C8. [GetToken] caches: while the cached token's expiry is ahead of the
    clock the call returns that token and mints nothing (the client is left as
    it was); otherwise it mints a token, caches it, and the cached expiry is
    exactly one hour after the clock reading taken for it (the last reading of
    the call); hence a later call made while that token is still cached and
    unexpired returns the same string as the earlier one. *)
Theorem GetToken_caches_until_expiry (w : World) :
  credentialsOK (wClient w) →
  (∀ t, bankz.token (wClient w) = Some t →
        (nextNow w < bankz.ExpiresAt t)%Z →
        bankzClient.GetToken w = (inl (bankz.AccessToken t), tick 1 w))
  ∧ (¬ (∃ t, bankz.token (wClient w) = Some t ∧ (nextNow w < bankz.ExpiresAt t)%Z) →
     ∃ t' w',
       bankzClient.GetToken w = (inl (bankz.AccessToken t'), w')
       ∧ bankz.token (wClient w') = Some t'
       ∧ bankz.ExpiresAt t'
         = (wClock w (Nat.pred (wNowCalls w')) + 3600000000000)%Z
       ∧ bankz.accounts (wClient w') = bankz.accounts (wClient w))
  ∧ (∀ w2,
       bankz.token (wClient w2) = bankz.token (wClient (bankzClient.GetToken w).2) →
       (∀ t, bankz.token (wClient w2) = Some t → (nextNow w2 < bankz.ExpiresAt t)%Z) →
       (bankzClient.GetToken w2).1 = (bankzClient.GetToken w).1).
Proof.
  intros Hc.
  assert (∃ t, (bankzClient.GetToken w).1 = inl (bankz.AccessToken t)
               ∧ bankz.token (wClient (bankzClient.GetToken w).2) = Some t) as Hafter.
  { destruct (bankz.token (wClient w)) as [t0|] eqn:Ht.
    - destruct (Z.lt_ge_cases (nextNow w) (bankz.ExpiresAt t0)).
      + rewrite (GetToken_cached w t0) by done. by exists t0.
      + rewrite (GetToken_expired w t0) by done. eauto.
    - rewrite GetToken_fresh by done. eauto. }
  split; [|split].
  - intros t Ht Hlt. by apply GetToken_cached.
  - intros Hno. destruct (bankz.token (wClient w)) as [t0|] eqn:Ht.
    + assert (bankz.ExpiresAt t0 ≤ nextNow w)%Z as Hle.
      { destruct (Z.lt_ge_cases (nextNow w) (bankz.ExpiresAt t0)); [|done].
        destruct Hno. eauto. }
      rewrite (GetToken_expired w t0) by done. eexists _, _.
      split; [reflexivity|]. split; [reflexivity|]. split; [|reflexivity].
      simpl. unfold nextNow, time.Hour. simpl. f_equal.
    + rewrite GetToken_fresh by done. eexists _, _.
      split; [reflexivity|]. split; [reflexivity|]. split; [|reflexivity].
      simpl. unfold nextNow, time.Hour. simpl. f_equal.
  - intros w2 Heq Hlt. destruct Hafter as (t & Hr & Ht).
    rewrite Ht in Heq. rewrite (GetToken_cached w2 t), Hr; auto.
Qed.

Lemma GetToken_caches_until_expiry_witness :
  bankzClient.GetToken (bankzClient.GetToken exampleWorld).2
  = (inl "token-1000", tick 1 (bankzClient.GetToken exampleWorld).2)
  ∧ (bankzClient.GetToken (bankzClient.GetToken exampleWorld).2).1
    = (bankzClient.GetToken exampleWorld).1.
Proof.
  split.
  - refine (proj1 (GetToken_caches_until_expiry (bankzClient.GetToken exampleWorld).2 _)
              (bankz.mkToken "token-1000" 3600000001001) _ _);
      vm_compute; by auto.
  - refine (proj2 (proj2 (GetToken_caches_until_expiry exampleWorld
                            NewMockClient_credentialsOK)) _ _ _).
    + reflexivity.
    + intros t Ht. vm_compute in Ht. injection Ht as <-. vm_compute. reflexivity.
Defined.

(** ** The Bank Z branch *)

Lemma bankzTransfer_reject customerID req token fromAccount w :
  (Account.Balance fromAccount <? Amount req)%float = true →
  bankzTransfer customerID req token fromAccount w = (insufficientFunds, w).
Proof. intros Hb. unfold bankzTransfer. by rewrite Hb. Qed.

Lemma bankzTransfer_error customerID req token fromAccount w err w1 :
  (Account.Balance fromAccount <? Amount req)%float = false →
  bankzClient.InitiateTransfer (Account.ID fromAccount) (ToAccountID req) token (Amount req) w
  = (inr err, w1) →
  bankzTransfer customerID req token fromAccount w
  = (JSON http.StatusBadRequest (H_error err), w1).
Proof.
  intros Hb Hi. unfold bankzTransfer. rewrite Hb. unfold_store. by rewrite Hi.
Qed.

Lemma bankzTransfer_commit customerID req token fromAccount w transactionID w1 :
  (Account.Balance fromAccount <? Amount req)%float = false →
  bankzClient.InitiateTransfer (Account.ID fromAccount) (ToAccountID req) token (Amount req) w
  = (inl transactionID, w1) →
  bankzTransfer customerID req token fromAccount w
  = (JSON http.StatusCreated (TransferDone transactionID "success"),
     tick 1 (withStore
       (Store.run (bankzWrites customerID req fromAccount transactionID (nextNow w1))
                  (wStore w1)) w1)).
Proof.
  intros Hb Hi. unfold bankzTransfer. rewrite Hb. unfold_store. rewrite Hi.
  destruct w1 as [s c clk n u k]. reflexivity.
Qed.

(** A valid request has a positive amount (or a NaN, which no JSON number
    decodes to) and two different, non-empty account IDs. *)
Lemma transferErrors_nil req :
  transferErrors req = [] →
  FromAccountID req ≠ "" ∧ ToAccountID req ≠ ""
  ∧ (Amount req <=? 0)%float = false
  ∧ FromAccountID req ≠ ToAccountID req.
Proof.
  unfold transferErrors. intros H.
  destruct (String.eqb_spec (FromAccountID req) "") as [E1|E1];
    destruct (String.eqb_spec (ToAccountID req) "") as [E2|E2];
    destruct (Amount req <=? 0)%float;
    destruct (String.eqb_spec (FromAccountID req) (ToAccountID req)) as [E3|E3];
    simpl in H; try done.
Qed.

(** Every way in which [transferMoney] answers 201. *)
Lemma transferMoney_created customerID req w :
  code (transferMoney customerID (Some req) w).1 = http.StatusCreated →
  transferErrors req = []
  ∧ ∃ c token w1 fromAccount,
      Store.customers (wStore w) !! customerID = Some c
      ∧ bankzClient.GetToken w = (inl token, w1)
      ∧ Store.accounts (wStore w) !! FromAccountID req = Some fromAccount
      ∧ Account.CustomerID fromAccount = customerID
      ∧ ((∃ toAccount,
            Store.accounts (wStore w) !! ToAccountID req = Some toAccount
            ∧ Account.CustomerID toAccount = customerID
            ∧ (Account.Balance fromAccount
               <? Amount req + feeOf fromAccount (Amount req))%float = false)
         ∨ (Store.accounts (wStore w) !! ToAccountID req = None
            ∧ ∃ b w2 transactionID w3,
                bankzClient.GetBalance (ToAccountID req) token w1 = (inl b, w2)
                ∧ (Account.Balance fromAccount <? Amount req)%float = false
                ∧ bankzClient.InitiateTransfer (Account.ID fromAccount) (ToAccountID req)
                    token (Amount req) w2 = (inl transactionID, w3))).
Proof.
  intros H.
  destruct (transferErrors req) as [|e l] eqn:Hv.
  2:{ unfold transferMoney in H. rewrite Hv in H. discriminate H. }
  split; [done|].
  destruct (Store.customers (wStore w) !! customerID) as [c|] eqn:Hc.
  2:{ unfold transferMoney in H. rewrite Hv in H. simpl in H. unfold_store.
      revert H. unfold_store. by rewrite Hc. }
  destruct (bankzClient.GetToken w) as [[token|e] w1] eqn:Hg.
  2:{ unfold transferMoney in H. rewrite Hv in H. simpl in H.
      revert H. unfold_store. by rewrite Hc, Hg. }
  pose proof (GetToken_store w) as Hs. rewrite Hg in Hs. simpl in Hs.
  destruct (Store.accounts (wStore w) !! FromAccountID req) as [fromAccount|] eqn:Hf.
  2:{ unfold transferMoney in H. rewrite Hv in H. simpl in H.
      revert H. unfold_store. by rewrite Hc, Hg, Hs, Hf. }
  destruct (String.eqb_spec (Account.CustomerID fromAccount) customerID) as [Ho|Ho].
  2:{ unfold transferMoney in H. rewrite Hv in H. simpl in H.
      revert H. unfold_store. rewrite Hc, Hg, Hs, Hf.
      by destruct (String.eqb_spec (Account.CustomerID fromAccount) customerID). }
  exists c, token, w1, fromAccount. do 4 (split; [done|]).
  rewrite (transferMoney_resolved _ _ _ _ _ _ _ Hv Hc Hg Hf Ho) in H.
  destruct (Store.accounts (wStore w) !! ToAccountID req) as [toAccount|] eqn:Ht.
  - left. exists toAccount. split; [done|].
    destruct (String.eqb_spec (Account.CustomerID toAccount) customerID) as [Hto|Hto];
      [|discriminate H].
    split; [done|]. simpl negb in H. cbv iota in H.
    destruct (Account.Balance fromAccount
              <? Amount req + feeOf fromAccount (Amount req))%float eqn:Hb; [|done].
    rewrite internalTransfer_reject in H by done. discriminate H.
  - right. split; [done|].
    destruct (bankzClient.GetBalance (ToAccountID req) token w1) as [[b|e] w2] eqn:Hgb;
      [|discriminate H].
    destruct (Account.Balance fromAccount <? Amount req)%float eqn:Hb.
    { rewrite bankzTransfer_reject in H by done. discriminate H. }
    destruct (bankzClient.InitiateTransfer (Account.ID fromAccount) (ToAccountID req)
                token (Amount req) w2) as [[transactionID|e] w3] eqn:Hi.
    + by exists b, w2, transactionID, w3.
    + rewrite (bankzTransfer_error _ _ _ _ _ _ _ Hb Hi) in H. discriminate H.
Qed.

(** C2. In a Bank Z transfer, when [InitiateTransfer] returns an error the
    handler answers 400 with that error, and the store is exactly the one the
    request found: no balance was changed and no transaction was recorded. *)
Theorem gateway_error_leaves_store_untouched
    customerID req w c fromAccount token w1 b w2 err w3 :
  transferErrors req = [] →
  Store.customers (wStore w) !! customerID = Some c →
  Store.accounts (wStore w) !! FromAccountID req = Some fromAccount →
  Account.CustomerID fromAccount = customerID →
  Store.accounts (wStore w) !! ToAccountID req = None →
  bankzClient.GetToken w = (inl token, w1) →
  bankzClient.GetBalance (ToAccountID req) token w1 = (inl b, w2) →
  (Account.Balance fromAccount <? Amount req)%float = false →
  bankzClient.InitiateTransfer (Account.ID fromAccount) (ToAccountID req) token
    (Amount req) w2 = (inr err, w3) →
  transferMoney customerID (Some req) w = (JSON http.StatusBadRequest (H_error err), w3)
  ∧ wStore w3 = wStore w.
Proof.
  intros Hv Hc Hf Ho Ht Hg Hgb Hb Hi.
  rewrite (transferMoney_resolved _ _ _ _ _ _ _ Hv Hc Hg Hf Ho), Ht, Hgb.
  split; [by apply bankzTransfer_error|].
  pose proof (GetToken_store w) as H1. rewrite Hg in H1.
  pose proof (gs_store _ _ (GetBalance_step (ToAccountID req) token w1)) as H2.
  rewrite Hgb in H2.
  pose proof (gs_store _ _ (InitiateTransfer_step (Account.ID fromAccount)
                (ToAccountID req) token (Amount req) w2)) as H3.
  rewrite Hi in H3. simpl in *. congruence.
Qed.

Lemma gateway_error_leaves_store_untouched_witness :
  let r := transferMoney "c1" (Some (mkTransferRequest "a1" "bankz-acc-123" 10)) jumpingWorld in
  r.1 = JSON http.StatusBadRequest (H_error "invalid or expired token")
  ∧ wStore r.2 = exampleStore.
Proof.
  pose (g := bankzClient.GetToken jumpingWorld).
  pose (gb := bankzClient.GetBalance "bankz-acc-123" "token-0" g.2).
  pose (it := bankzClient.InitiateTransfer "a1" "bankz-acc-123" "token-0" 10 gb.2).
  destruct (gateway_error_leaves_store_untouched "c1"
              (mkTransferRequest "a1" "bankz-acc-123" 10) jumpingWorld
              (Customer.mk "c1" "Jane Doe" "jane@example.com")
              (Account.mk "a1" "c1" "current" 1000 0)
              "token-0" g.2 1000%float gb.2 "invalid or expired token" it.2)
    as [H1 H2]; try (vm_compute; reflexivity).
  cbv zeta. rewrite H1. split; [reflexivity|exact H2].
Defined.



(** C4. Destination resolution, for a request that passed the input checks
    (valid body, existing customer, token obtained, source account found and
    owned by the customer): a local destination of another customer is
    rejected; a local destination of the same customer makes the transfer
    internal; an ID unknown locally for which [GetBalance] succeeds makes it a
    Bank Z transfer; an ID unknown locally for which [GetBalance] fails is
    answered "Destination account ... not found", which is neither the
    insufficient-funds nor the authentication answer, and the store is left
    as it was. *)
Theorem destination_resolution customerID req w c token w1 fromAccount :
  transferErrors req = [] →
  Store.customers (wStore w) !! customerID = Some c →
  bankzClient.GetToken w = (inl token, w1) →
  Store.accounts (wStore w) !! FromAccountID req = Some fromAccount →
  Account.CustomerID fromAccount = customerID →
  (∀ toAccount,
     Store.accounts (wStore w) !! ToAccountID req = Some toAccount →
     Account.CustomerID toAccount ≠ customerID →
     transferMoney customerID (Some req) w = (destinationNotOwned, w1))
  ∧ (∀ toAccount,
       Store.accounts (wStore w) !! ToAccountID req = Some toAccount →
       Account.CustomerID toAccount = customerID →
       transferMoney customerID (Some req) w
       = internalTransfer customerID req fromAccount toAccount w1)
  ∧ (∀ b w2,
       Store.accounts (wStore w) !! ToAccountID req = None →
       bankzClient.GetBalance (ToAccountID req) token w1 = (inl b, w2) →
       transferMoney customerID (Some req) w
       = bankzTransfer customerID req token fromAccount w2)
  ∧ (∀ e w2,
       Store.accounts (wStore w) !! ToAccountID req = None →
       bankzClient.GetBalance (ToAccountID req) token w1 = (inr e, w2) →
       transferMoney customerID (Some req) w = (destinationNotFound req, w2)
       ∧ wStore w2 = wStore w
       ∧ destinationNotFound req ≠ insufficientFunds
       ∧ destinationNotFound req ≠ authFailure).
Proof.
  intros Hv Hc Hg Hf Ho.
  rewrite (transferMoney_resolved _ _ _ _ _ _ _ Hv Hc Hg Hf Ho).
  split; [|split; [|split]].
  - intros toAccount -> Hne.
    by destruct (String.eqb_spec (Account.CustomerID toAccount) customerID).
  - intros toAccount -> ->. by rewrite String.eqb_refl.
  - intros b w2 -> ->. reflexivity.
  - intros e w2 -> Hgb. rewrite Hgb. split; [reflexivity|]. split; [|split].
    + pose proof (GetToken_store w) as H1. rewrite Hg in H1.
      pose proof (gs_store _ _ (GetBalance_step (ToAccountID req) token w1)) as H2.
      rewrite Hgb in H2. simpl in *. congruence.
    + unfold destinationNotFound, insufficientFunds. intros E.
      injection E as E. discriminate E.
    + discriminate.
Qed.

Lemma destination_resolution_witness :
  transferMoney "c1" (Some (mkTransferRequest "a1" "b1" 10)) exampleWorld
  = (destinationNotOwned, (bankzClient.GetToken exampleWorld).2)
  ∧ code (transferMoney "c1" (Some (mkTransferRequest "a1" "a2" 10)) exampleWorld).1
    = http.StatusCreated
  ∧ (transferMoney "c1" (Some (mkTransferRequest "a1" "bankz-acc-456" 10)) exampleWorld).1
    = JSON http.StatusCreated (TransferDone "bankz-tx-1004" "success")
  ∧ (transferMoney "c1" (Some (mkTransferRequest "a1" "nowhere" 10)) exampleWorld).1
    = JSON http.StatusBadRequest (H_error "Destination account nowhere not found").
Proof.
  pose (g := bankzClient.GetToken exampleWorld).
  pose (c1 := Customer.mk "c1" "Jane Doe" "jane@example.com").
  pose (a1 := Account.mk "a1" "c1" "current" 1000 0).
  assert (Store.customers (wStore exampleWorld) !! "c1" = Some c1) as Hc
    by (vm_compute; reflexivity).
  assert (g = (inl "token-1000", g.2)) as Hg by (vm_compute; reflexivity).
  split; [|split; [|split]].
  - refine (proj1 (destination_resolution "c1" (mkTransferRequest "a1" "b1" 10)
                     exampleWorld c1 "token-1000" g.2 a1 _ Hc Hg _ _)
              (Account.mk "b1" "c2" "current" 50 0) _ _);
      try (vm_compute; reflexivity). discriminate.
  - rewrite (proj1 (proj2 (destination_resolution "c1" (mkTransferRequest "a1" "a2" 10)
                     exampleWorld c1 "token-1000" g.2 a1 eq_refl Hc Hg eq_refl eq_refl))
              (Account.mk "a2" "c1" "savings" 500 0) eq_refl eq_refl).
    vm_compute; reflexivity.
  - rewrite (proj1 (proj2 (proj2 (destination_resolution "c1"
                     (mkTransferRequest "a1" "bankz-acc-456" 10)
                     exampleWorld c1 "token-1000" g.2 a1 eq_refl Hc Hg eq_refl eq_refl)))
              500%float (bankzClient.GetBalance "bankz-acc-456" "token-1000" g.2).2
              eq_refl eq_refl).
    vm_compute; reflexivity.
  - rewrite (proj1 (proj2 (proj2 (proj2 (destination_resolution "c1"
                     (mkTransferRequest "a1" "nowhere" 10)
                     exampleWorld c1 "token-1000" g.2 a1 eq_refl Hc Hg eq_refl eq_refl)))
              "Bank Z account nowhere not found"
              (bankzClient.GetBalance "nowhere" "token-1000" g.2).2
              eq_refl eq_refl)).
    reflexivity.
Defined.

(** C6, as the code has it.  The four input checks (source ID given,
    destination ID given, amount positive, source and destination different)
    are all evaluated and every violated one is reported, in that order, in one
    400 answer that leaves the world as it was.  Only a request passing all of
    them reaches the later checks, and there the first failure alone decides
    the answer: unknown customer (404); no token (500); source account unknown
    (400); source account of another customer (400).  None of these touches the
    store. *)
Theorem transfer_checks_accumulate_then_first_failure customerID req w :
  transferErrors req = map snd (List.filter fst (inputChecks req))
  ∧ (transferErrors req ≠ [] →
     transferMoney customerID (Some req) w
     = (JSON http.StatusBadRequest (H_errors (transferErrors req)), w))
  ∧ (transferErrors req = [] →
     (Store.customers (wStore w) !! customerID = None →
      transferMoney customerID (Some req) w
      = (JSON http.StatusNotFound (H_error "Customer not found"), w))
     ∧ (∀ c, Store.customers (wStore w) !! customerID = Some c →
        (∀ e w1, bankzClient.GetToken w = (inr e, w1) →
           transferMoney customerID (Some req) w = (authFailure, w1)
           ∧ wStore w1 = wStore w)
        ∧ (∀ token w1, bankzClient.GetToken w = (inl token, w1) →
           (Store.accounts (wStore w) !! FromAccountID req = None →
            transferMoney customerID (Some req) w
            = (JSON http.StatusBadRequest
                 (H_error ("Source account " +:+ FromAccountID req +:+ " not found")), w1)
            ∧ wStore w1 = wStore w)
           ∧ (∀ fromAccount,
                Store.accounts (wStore w) !! FromAccountID req = Some fromAccount →
                Account.CustomerID fromAccount ≠ customerID →
                transferMoney customerID (Some req) w
                = (JSON http.StatusBadRequest
                     (H_error "Source account does not belong to the customer"), w1)
                ∧ wStore w1 = wStore w)))).
Proof.
  split; [|split].
  - unfold transferErrors, inputChecks. simpl.
    destruct (String.eqb (FromAccountID req) ""), (String.eqb (ToAccountID req) ""),
      (Amount req <=? 0)%float, (String.eqb (FromAccountID req) (ToAccountID req));
      reflexivity.
  - intros Hne. unfold transferMoney.
    destruct (transferErrors req) as [|e l]; [done|reflexivity].
  - intros Hv. split.
    + intros Hc. unfold transferMoney. rewrite Hv. simpl. unfold_store. by rewrite Hc.
    + intros c Hc. split.
      * intros e w1 Hg. pose proof (GetToken_store w) as Hs. rewrite Hg in Hs.
        split; [|exact Hs].
        unfold transferMoney. rewrite Hv. simpl. unfold_store. by rewrite Hc, Hg.
      * intros token w1 Hg. pose proof (GetToken_store w) as Hs. rewrite Hg in Hs.
        simpl in Hs. split.
        -- intros Hf. split; [|exact Hs].
           unfold transferMoney. rewrite Hv. simpl. unfold_store.
           by rewrite Hc, Hg, Hs, Hf.
        -- intros fromAccount Hf Ho. split; [|exact Hs].
           unfold transferMoney. rewrite Hv. simpl. unfold_store.
           rewrite Hc, Hg, Hs, Hf.
           by destruct (String.eqb_spec (Account.CustomerID fromAccount) customerID).
Qed.

Lemma transfer_checks_accumulate_then_first_failure_witness :
  transferMoney "c1" (Some (mkTransferRequest "" "a2" (-1))) exampleWorld
  = (JSON http.StatusBadRequest
       (H_errors ["From account ID cannot be empty"; "Amount must be positive"]),
     exampleWorld)
  ∧ transferMoney "nobody" (Some (mkTransferRequest "a1" "a2" 1)) exampleWorld
    = (JSON http.StatusNotFound (H_error "Customer not found"), exampleWorld)
  ∧ (transferMoney "c1" (Some (mkTransferRequest "b1" "a2" 1)) exampleWorld).1
    = JSON http.StatusBadRequest (H_error "Source account does not belong to the customer").
Proof.
  split; [|split].
  - apply (proj1 (proj2 (transfer_checks_accumulate_then_first_failure "c1"
                           (mkTransferRequest "" "a2" (-1)) exampleWorld))).
    discriminate.
  - apply (proj1 (proj2 (proj2 (transfer_checks_accumulate_then_first_failure "nobody"
                           (mkTransferRequest "a1" "a2" 1) exampleWorld)) eq_refl)).
    reflexivity.
  - pose (g := bankzClient.GetToken exampleWorld).
    pose proof (transfer_checks_accumulate_then_first_failure "c1"
                  (mkTransferRequest "b1" "a2" 1) exampleWorld) as (_ & _ & H).
    destruct (H eq_refl) as [_ H1].
    destruct (H1 (Customer.mk "c1" "Jane Doe" "jane@example.com") eq_refl) as [_ H2].
    destruct (H2 "token-1000" g.2 eq_refl) as [_ H3].
    destruct (H3 (Account.mk "b1" "c2" "current" 50 0) eq_refl) as [H4 _]; [discriminate|].
    by rewrite H4.
Defined.

(** C6 as stated fails: a request with a non-positive amount and equal account
    IDs gets both messages, not only the first violated precondition. *)
Lemma two_violations_are_both_reported :
  reported (transferMoney "c1" (Some (mkTransferRequest "a1" "a1" 0)) exampleWorld).1
  = ["Amount must be positive"; "Cannot transfer to the same account"]
  ∧ reported (transferMoney "c1" (Some (mkTransferRequest "a1" "a1" 0)) exampleWorld).1
    ≠ ["Amount must be positive"].
Proof. split; [reflexivity|discriminate]. Qed.

(** C7. Every [createCustomer] call answered 201 had a decodable body and
    wrote exactly four records: the customer with the given name and email; a
    "current" account of that customer with balance 0; a "savings" account of
    that customer with balance 500; one "bonus" transaction of 500 on the
    savings account.  The answer carries the customer ID and both account
    IDs. *)
Theorem createCustomer_writes_four_records body w :
  code (createCustomer body w).1 = http.StatusCreated →
  ∃ req,
    body = Some req
    ∧ let u i := wUuid w (i + wUuidCalls w) in
      let now := nextNow w in
      let s := wStore w in
      let s' := wStore (createCustomer body w).2 in
      (createCustomer body w).1 = JSON http.StatusCreated (CustomerCreated (u 0) (u 1) (u 2))
      ∧ Store.customers s'
        = <[u 0 := Customer.mk (u 0) (Name req) (Email req)]> (Store.customers s)
      ∧ Store.accounts s'
        = <[u 2 := Account.mk (u 2) (u 0) "savings" 500 now]>
            (<[u 1 := Account.mk (u 1) (u 0) "current" 0 now]> (Store.accounts s))
      ∧ Store.transactions s'
        = <[u 3 := Transaction.mk (u 3) (u 2) (u 0) "bonus" 500 "" "" now]>
            (Store.transactions s).
Proof.
  destruct body as [req|]; [|discriminate].
  unfold createCustomer. destruct (customerErrors req) as [|e l]; [|discriminate].
  intros _. exists req. split; [done|].
  destruct w as [s c clk n u k]. unfold nextNow. simpl. done.
Qed.

Lemma createCustomer_writes_four_records_witness :
  let r := createCustomer (Some (mkCustomerRequest "Jane Doe" "jane@example.com"))
             (withStore Store.empty exampleWorld) in
  r.1 = JSON http.StatusCreated (CustomerCreated "u0" "u1" "u2")
  ∧ Store.customers (wStore r.2) !! "u0"
    = Some (Customer.mk "u0" "Jane Doe" "jane@example.com")
  ∧ Store.accounts (wStore r.2) !! "u1" = Some (Account.mk "u1" "u0" "current" 0 1000)
  ∧ Store.accounts (wStore r.2) !! "u2" = Some (Account.mk "u2" "u0" "savings" 500 1000)
  ∧ Store.transactions (wStore r.2) !! "u3"
    = Some (Transaction.mk "u3" "u2" "u0" "bonus" 500 "" "" 1000).
Proof.
  destruct (createCustomer_writes_four_records
              (Some (mkCustomerRequest "Jane Doe" "jane@example.com"))
              (withStore Store.empty exampleWorld) eq_refl)
    as (req & Hreq & Hr & Hc & Ha & Ht).
  injection Hreq as <-. cbv zeta. rewrite Hr, Hc, Ha, Ht.
  repeat split; vm_compute; reflexivity.
Defined.

Lemma internalWrites_transactions customerID req fromAccount toAccount now u k s :
  Store.transactions (Store.run (internalWrites customerID req fromAccount toAccount now u k) s)
  = let fee := feeOf fromAccount (Amount req) in
    let interest := interestOf toAccount (Amount req) in
    let t1 := <[u k := Transaction.mk (u k) (Account.ID fromAccount) customerID "transfer"
                         (Amount req) (Account.ID fromAccount) (Account.ID toAccount) now]>
                (Store.transactions s) in
    let t2 := if (0 <? fee)%float
              then <[u (S k) := Transaction.mk (u (S k)) (Account.ID fromAccount) customerID
                                  "fee" fee "" "" now]> t1
              else t1 in
    if (0 <? interest)%float
    then let i := if (0 <? fee)%float then S (S k) else S k in
         <[u i := Transaction.mk (u i) (Account.ID toAccount) customerID
                    "interest" interest "" "" now]> t2
    else t2.
Proof.
  unfold internalWrites.
  destruct (0 <? feeOf _ _)%float, (0 <? interestOf _ _)%float; reflexivity.
Qed.

(** C9. Transferring 200 from a current account holding 1000 to a savings
    account of the same customer: the fee is 0.1 and the interest 1.0 (as
    binary64 values), the current account ends at 799.9, the savings balance
    becomes its old value plus 201.0, and the transactions recorded are the
    three records "transfer" (200), "fee" (0.1) and "interest" (1.0) - three
    more entries when the three drawn IDs are new and distinct. *)
Theorem scenario_current_to_savings_200 customerID req w c fromAccount toAccount :
  Store.keyed (wStore w) →
  credentialsOK (wClient w) →
  transferErrors req = [] →
  Amount req = 200%float →
  Store.customers (wStore w) !! customerID = Some c →
  Store.accounts (wStore w) !! FromAccountID req = Some fromAccount →
  Account.CustomerID fromAccount = customerID →
  Account.Type_ fromAccount = "current" →
  Account.Balance fromAccount = 1000%float →
  Store.accounts (wStore w) !! ToAccountID req = Some toAccount →
  Account.CustomerID toAccount = customerID →
  Account.Type_ toAccount = "savings" →
  let r := transferMoney customerID (Some req) w in
  let u i := wUuid w (i + wUuidCalls w) in
  let src := FromAccountID req in
  let dst := ToAccountID req in
  feeOf fromAccount (Amount req) = 0.1%float
  ∧ interestOf toAccount (Amount req) = 1%float
  ∧ r.1 = JSON http.StatusCreated (TransferDone (u 0) "success")
  ∧ Store.accounts (wStore r.2) !! src = Some (Account.withBalance fromAccount 799.9)
  ∧ Store.accounts (wStore r.2) !! dst
    = Some (Account.withBalance toAccount (Account.Balance toAccount + 201)%float)
  ∧ ∃ now,
      Store.transactions (wStore r.2)
      = <[u 2 := Transaction.mk (u 2) dst customerID "interest" 1 "" "" now]>
          (<[u 1 := Transaction.mk (u 1) src customerID "fee" 0.1 "" "" now]>
             (<[u 0 := Transaction.mk (u 0) src customerID "transfer" 200 src dst now]>
                (Store.transactions (wStore w))))
      ∧ (NoDup [u 0; u 1; u 2] →
         (∀ i, (i < 3)%nat → Store.transactions (wStore w) !! u i = None) →
         size (Store.transactions (wStore r.2)) = 3 + size (Store.transactions (wStore w))).
Proof.
  intros Hk Hcred Hv Ha Hc Hf Hfo Hft Hfb Ht Hto Htt r u src dst.
  assert (feeOf fromAccount (Amount req) = 0.1%float) as Hfee
    by (unfold feeOf; rewrite Hft, Ha; reflexivity).
  assert (interestOf toAccount (Amount req) = 1%float) as Hint
    by (unfold interestOf; rewrite Htt, Ha; reflexivity).
  split; [done|]. split; [done|].
  destruct (GetToken_succeeds w Hcred) as (token & w1 & Hg).
  pose proof (GetToken_step w) as Hs. rewrite Hg in Hs.
  destruct Hs as [Hs _ Hu Huc _ _ _]. simpl in Hs, Hu, Huc.
  assert (Account.ID fromAccount = src) as If by (by apply Hk in Hf).
  assert (Account.ID toAccount = dst) as It by (by apply Hk in Ht).
  destruct (transferErrors_nil _ Hv) as (_ & _ & _ & Hne).
  subst r.
  rewrite (transferMoney_resolved _ _ _ _ _ _ _ Hv Hc Hg Hf Hfo), Ht, Hto.
  rewrite String.eqb_refl. simpl negb. cbv iota.
  rewrite internalTransfer_commit by (rewrite Hfee, Hfb, Ha; reflexivity).
  unfold drawn, tick, withStore. cbn [fst snd code wStore].
  rewrite internalWrites_accounts, internalWrites_transactions.
  rewrite Hfee, Hint, Hfb, Ha, If, It, Hs, Hu, Huc. cbv zeta.
  change (0 <? 0.1)%float with true. change (0 <? 1)%float with true. cbv iota.
  change (1000 - (200 + 0.1))%float with 799.9%float.
  change (200 + 1)%float with 201%float.
  split; [done|]. split; [by rewrite lookup_insert_ne, lookup_insert_eq|].
  split; [by rewrite lookup_insert_eq|].
  exists (nextNow w1). split; [reflexivity|].
  intros Hnd Hfresh. apply NoDup_cons in Hnd as [N0 Hnd]. apply NoDup_cons in Hnd as [N1 _].
  rewrite !map_size_insert_None; [lia| | |].
  - by apply (Hfresh 0%nat); lia.
  - rewrite lookup_insert_ne; [apply (Hfresh 1%nat); lia|]. set_solver.
  - rewrite !lookup_insert_ne; [apply (Hfresh 2%nat); lia| |]; set_solver.
Qed.

Lemma scenario_current_to_savings_200_witness :
  let r := transferMoney "c1" (Some (mkTransferRequest "a1" "a2" 200)) exampleWorld in
  r.1 = JSON http.StatusCreated (TransferDone "u0" "success")
  ∧ Store.accounts (wStore r.2) !! "a1" = Some (Account.mk "a1" "c1" "current" 799.9 0)
  ∧ Store.accounts (wStore r.2) !! "a2" = Some (Account.mk "a2" "c1" "savings" 701 0)
  ∧ size (Store.transactions (wStore r.2)) = 3%nat.
Proof.
  destruct (scenario_current_to_savings_200 "c1" (mkTransferRequest "a1" "a2" 200)
              exampleWorld (Customer.mk "c1" "Jane Doe" "jane@example.com")
              (Account.mk "a1" "c1" "current" 1000 0) (Account.mk "a2" "c1" "savings" 500 0)
              exampleStore_keyed NewMockClient_credentialsOK
              eq_refl eq_refl eq_refl eq_refl eq_refl eq_refl eq_refl eq_refl eq_refl eq_refl)
    as (_ & _ & H1 & H2 & H3 & now & _ & H4).
  cbv zeta. split; [exact H1|]. split; [exact H2|]. split; [exact H3|].
  rewrite H4; [reflexivity| |].
  - apply (bool_decide_unpack (NoDup _)). vm_compute. exact I.
  - intros i Hi. destruct i as [|[|[|i]]]; try reflexivity; lia.
Defined.

(** C10. An accepted internal transfer changes no customer record and no
    account other than the source and the destination; every transaction
    stored before is still stored, unchanged, provided the IDs drawn from
    [uuid.New()] are new; and every record of the transaction map afterwards
    is either one that was there before or one of the transfer, fee and
    interest records just written under a drawn ID. *)
Theorem internal_transfer_frame customerID req w toAccount :
  Store.keyed (wStore w) →
  Store.accounts (wStore w) !! ToAccountID req = Some toAccount →
  code (transferMoney customerID (Some req) w).1 = http.StatusCreated →
  let s := wStore w in
  let s' := wStore (transferMoney customerID (Some req) w).2 in
  let u i := wUuid w (i + wUuidCalls w) in
  Store.customers s' = Store.customers s
  ∧ (∀ id, id ≠ FromAccountID req → id ≠ ToAccountID req →
           Store.accounts s' !! id = Store.accounts s !! id)
  ∧ ((∀ i, (i < 3)%nat → Store.transactions s !! u i = None) →
     ∀ id t, Store.transactions s !! id = Some t → Store.transactions s' !! id = Some t)
  ∧ (∀ id t, Store.transactions s' !! id = Some t →
       Store.transactions s !! id = Some t
       ∨ (Transaction.ID t = id
          ∧ Transaction.CustomerID t = customerID
          ∧ (∃ i, (i < 3)%nat ∧ id = u i)
          ∧ (Transaction.Type_ t = "transfer" ∧ Transaction.Amount t = Amount req
             ∨ Transaction.Type_ t = "fee"
             ∨ Transaction.Type_ t = "interest"))).
Proof.
  intros Hk Ht H s s' u.
  destruct (transferMoney_created _ _ _ H)
    as (Hv & c & token & w1 & fa & Hc & Hg & Hf & Ho & Hcase).
  destruct Hcase as [(ta & Ht' & Hto & Hb)|(Ht' & _)]; [|congruence].
  rewrite Ht in Ht'. injection Ht' as <-.
  pose proof (GetToken_step w) as Hs. rewrite Hg in Hs.
  destruct Hs as [Hs _ Hu Huc _ _ _]. simpl in Hs, Hu, Huc.
  assert (Account.ID fa = FromAccountID req) as If by (by apply Hk in Hf).
  assert (Account.ID toAccount = ToAccountID req) as It by (by apply Hk in Ht).
  subst s'.
  rewrite (transferMoney_resolved _ _ _ _ _ _ _ Hv Hc Hg Hf Ho), Ht, Hto.
  rewrite String.eqb_refl. simpl negb. cbv iota.
  rewrite internalTransfer_commit by exact Hb.
  unfold drawn, tick, withStore. cbn [fst snd code wStore].
  rewrite internalWrites_customers, internalWrites_accounts, internalWrites_transactions.
  rewrite If, It, Hs, Hu, Huc. fold s. cbv zeta.
  split; [done|]. split; [|split].
  - intros id H1 H2. by rewrite !lookup_insert_ne.
  - intros Hfresh id t Hid.
    assert (∀ i, (i < 3)%nat → wUuid w (i + wUuidCalls w) ≠ id) as Hne.
    { intros i Hi E. specialize (Hfresh i Hi). subst u. simpl in Hfresh. congruence. }
    pose proof (Hne 0%nat) as H0. pose proof (Hne 1%nat) as H1. pose proof (Hne 2%nat) as H2.
    simpl in H0, H1, H2.
    destruct (0 <? feeOf fa (Amount req))%float, (0 <? interestOf toAccount (Amount req))%float;
      rewrite ?lookup_insert_ne; auto.
  - intros id t. subst u. simpl.
    destruct (0 <? feeOf fa (Amount req))%float, (0 <? interestOf toAccount (Amount req))%float;
      rewrite ?lookup_insert_Some; intros Hin;
      repeat match goal with
             | H : _ ∨ _ |- _ => destruct H as [H|H]
             | H : _ ∧ _ |- _ => destruct H as [? H]
             end; subst; simpl; auto;
      right; (split; [done|]); (split; [done|]);
      (split; [first [by exists 0%nat; split; [lia|] | by exists 1%nat; split; [lia|]
                     | by exists 2%nat; split; [lia|]]|]); auto.
Qed.

Lemma internal_transfer_frame_witness :
  let s' := wStore (transferMoney "c1" (Some (mkTransferRequest "a1" "a2" 200)) exampleWorld).2 in
  Store.customers s' = Store.customers exampleStore
  ∧ Store.accounts s' !! "b1" = Some (Account.mk "b1" "c2" "current" 50 0).
Proof.
  destruct (internal_transfer_frame "c1" (mkTransferRequest "a1" "a2" 200) exampleWorld
              (Account.mk "a2" "c1" "savings" 500 0) exampleStore_keyed eq_refl eq_refl)
    as (H1 & H2 & _).
  cbv zeta. split; [exact H1|]. rewrite (H2 "b1"); [reflexivity|discriminate|discriminate].
Defined.

(** ** Transaction records over time *)

Lemma validateToken_ok token w w' :
  bankzClient.validateToken token w = (None, w') → w' = tick 1 w.
Proof.
  unfold_gateway. destruct w as [s c clk n u k]; simpl.
  repeat (run_step; simpl); intros E; by inversion E.
Qed.

Lemma InitiateTransfer_id a b token x w transactionID w' :
  bankzClient.InitiateTransfer a b token x w = (inl transactionID, w') →
  transactionID = "bankz-tx-" +:+ fmt.d (wClock w (S (wNowCalls w)))
  ∧ wNowCalls w' = S (S (wNowCalls w)).
Proof.
  unfold_gateway. destruct w as [s c clk n u k]; simpl.
  repeat (run_step; simpl); intros E; by inversion E.
Qed.

(** Every answer other than 201 leaves the store as it was. *)
Lemma transferMoney_rejected customerID body w :
  code (transferMoney customerID body w).1 ≠ http.StatusCreated →
  gatewayStep w (transferMoney customerID body w).2.
Proof.
  intros H. destruct body as [req|]; [|apply gatewayStep_refl].
  destruct (transferErrors req) as [|e l] eqn:Hv.
  2:{ unfold transferMoney. rewrite Hv. apply gatewayStep_refl. }
  destruct (Store.customers (wStore w) !! customerID) as [c|] eqn:Hc.
  2:{ unfold transferMoney. rewrite Hv. simpl. unfold_store. rewrite Hc.
      apply gatewayStep_refl. }
  pose proof (GetToken_step w) as S1.
  destruct (bankzClient.GetToken w) as [[token|e] w1] eqn:Hg; simpl in S1.
  2:{ unfold transferMoney. rewrite Hv. simpl. unfold_store. by rewrite Hc, Hg. }
  pose proof (gs_store _ _ S1) as Hs.
  destruct (Store.accounts (wStore w) !! FromAccountID req) as [fromAccount|] eqn:Hf.
  2:{ unfold transferMoney. rewrite Hv. simpl. unfold_store. by rewrite Hc, Hg, Hs, Hf. }
  destruct (String.eqb_spec (Account.CustomerID fromAccount) customerID) as [Ho|Ho].
  2:{ unfold transferMoney. rewrite Hv. simpl. unfold_store. rewrite Hc, Hg, Hs, Hf.
      by destruct (String.eqb_spec (Account.CustomerID fromAccount) customerID). }
  rewrite (transferMoney_resolved _ _ _ _ _ _ _ Hv Hc Hg Hf Ho) in H |- *.
  destruct (Store.accounts (wStore w) !! ToAccountID req) as [toAccount|] eqn:Ht.
  - destruct (negb _); [done|].
    destruct (Account.Balance fromAccount
              <? Amount req + feeOf fromAccount (Amount req))%float eqn:Hb.
    + by rewrite internalTransfer_reject.
    + rewrite internalTransfer_commit in H by done. by destruct H.
  - pose proof (GetBalance_step (ToAccountID req) token w1) as S2.
    destruct (bankzClient.GetBalance (ToAccountID req) token w1) as [[b|e] w2] eqn:Hgb;
      simpl in S2; [|by eapply gatewayStep_trans].
    destruct (Account.Balance fromAccount <? Amount req)%float eqn:Hb.
    { rewrite bankzTransfer_reject by done. by eapply gatewayStep_trans. }
    pose proof (InitiateTransfer_step (Account.ID fromAccount) (ToAccountID req)
                  token (Amount req) w2) as S3.
    destruct (bankzClient.InitiateTransfer (Account.ID fromAccount) (ToAccountID req)
                token (Amount req) w2) as [[transactionID|e] w3] eqn:Hi; simpl in S3.
    + rewrite (bankzTransfer_commit _ _ _ _ _ _ _ Hb Hi) in H. by destruct H.
    + rewrite (bankzTransfer_error _ _ _ _ _ _ _ Hb Hi).
      eapply gatewayStep_trans; [|exact S3]. by eapply gatewayStep_trans.
Qed.

Lemma gatewayStep_served w w' : gatewayStep w w' → served w w'.
Proof.
  intros [Hs Hc Hu Huc Hn Hi Hx]. constructor; try done; try lia.
  exists []. split; [done|constructor].
Qed.

Lemma run_app l1 l2 s : Store.run (l1 ++ l2) s = Store.run l2 (Store.run l1 s).
Proof. unfold Store.run. apply fold_left_app. Qed.

Lemma idDrawn_mono w1 w2 w3 w4 id :
  wClock w2 = wClock w1 → wUuid w2 = wUuid w1 →
  (wNowCalls w1 ≤ wNowCalls w2)%nat → (wUuidCalls w1 ≤ wUuidCalls w2)%nat →
  (wNowCalls w3 ≤ wNowCalls w4)%nat → (wUuidCalls w3 ≤ wUuidCalls w4)%nat →
  idDrawn w2 w3 id → idDrawn w1 w4 id.
Proof.
  intros Hc Hu H1 H2 H3 H4 [(k & Hk & ->)|(k & Hk & ->)]; [left|right];
    exists k; rewrite ?Hc, ?Hu; split; try done; lia.
Qed.

Lemma served_trans w1 w2 w3 : served w1 w2 → served w2 w3 → served w1 w3.
Proof.
  intros [Hc1 Hu1 Hn1 Hk1 Hi1 Hx1 (l1 & Hs1 & Hf1)] [Hc2 Hu2 Hn2 Hk2 Hi2 Hx2 (l2 & Hs2 & Hf2)].
  constructor; try congruence; try lia.
  exists (l1 ++ l2)%list. split; [by rewrite run_app, <- Hs1|].
  apply Forall_app. split.
  - eapply Forall_impl; [exact Hf1|]. intros o Ho id Hid.
    apply (idDrawn_mono w1 w1 w2 w3); auto.
  - eapply Forall_impl; [exact Hf2|]. intros o Ho id Hid.
    apply (idDrawn_mono w1 w2 w3 w3); auto.
Qed.

Lemma createCustomer_served body w : served w (createCustomer body w).2.
Proof.
  destruct body as [req|]; [|apply gatewayStep_served, gatewayStep_refl].
  unfold createCustomer. destruct (customerErrors req) as [|e l];
    [|apply gatewayStep_served, gatewayStep_refl].
  destruct w as [s c clk n u k]. simpl. constructor; simpl; try done; try lia.
  exists (onboardingWrites req (clk n) u k). split; [reflexivity|].
  unfold onboardingWrites.
  repeat (apply Forall_cons; split); try apply Forall_nil; simpl; try done.
  intros id <-. left. simpl. exists (3 + k)%nat. split; [lia|done].
Qed.

Lemma internalWrites_drawn customerID req fromAccount toAccount now w w' :
  wUuid w' = wUuid w →
  (wUuidCalls w' = 1 + b2n (0 <? feeOf fromAccount (Amount req))%float
                   + b2n (0 <? interestOf toAccount (Amount req))%float
                   + wUuidCalls w)%nat →
  Forall (λ o, ∀ id, addsTransaction id o → idDrawn w w' id)
         (internalWrites customerID req fromAccount toAccount now (wUuid w) (wUuidCalls w)).
Proof.
  intros Hu Hk. unfold internalWrites.
  destruct (0 <? feeOf _ _)%float, (0 <? interestOf _ _)%float; simpl in *;
    repeat (apply Forall_cons; split); try apply Forall_nil; simpl; try done;
    intros id <-; left; eexists; (split; [|reflexivity]); lia.
Qed.

Lemma transferMoney_served customerID body w : served w (transferMoney customerID body w).2.
Proof.
  destruct (decide (code (transferMoney customerID body w).1 = http.StatusCreated)) as [H|H];
    [|by apply gatewayStep_served, transferMoney_rejected].
  destruct body as [req|]; [|discriminate H].
  destruct (transferMoney_created _ _ _ H)
    as (Hv & c & token & w1 & fa & Hc & Hg & Hf & Ho & Hcase).
  pose proof (GetToken_step w) as S1. rewrite Hg in S1. simpl in S1.
  rewrite (transferMoney_resolved _ _ _ _ _ _ _ Hv Hc Hg Hf Ho).
  destruct Hcase as [(ta & Ht & Hto & Hb)|(Ht & b & w2 & tx & w3 & Hgb & Hb & Hi)].
  - rewrite Ht, Hto, String.eqb_refl. simpl negb. cbv iota.
    rewrite internalTransfer_commit by exact Hb.
    destruct S1 as [Hs Hck Hu Huc Hn Hi Hx].
    constructor; unfold drawn, tick, withStore;
      cbn [snd wClock wUuid wNowCalls wUuidCalls wStore wClient];
      try done; try lia.
    exists (internalWrites customerID req fa ta (nextNow w1) (wUuid w) (wUuidCalls w)).
    split; [by rewrite Hs, Hu, Huc|].
    apply internalWrites_drawn; simpl; [done|lia].
  - rewrite Ht, Hgb, (bankzTransfer_commit _ _ _ _ _ _ _ Hb Hi).
    pose proof (GetBalance_step (ToAccountID req) token w1) as S2. rewrite Hgb in S2.
    pose proof (InitiateTransfer_step (Account.ID fa) (ToAccountID req) token (Amount req) w2)
      as S3. rewrite Hi in S3. simpl in S2, S3.
    destruct (InitiateTransfer_id _ _ _ _ _ _ _ Hi) as [Htx Hn3].
    destruct (gatewayStep_trans _ _ _ S1 S2) as [Hs2 Hck2 Hu2 Huc2 Hn2 _ _].
    destruct (gatewayStep_trans _ _ _ (gatewayStep_trans _ _ _ S1 S2) S3)
      as [Hs Hck Hu Huc Hn Hid Hx].
    constructor; unfold tick, withStore;
      cbn [snd wClock wUuid wNowCalls wUuidCalls wStore wClient];
      try done; try lia.
    exists (bankzWrites customerID req fa tx (nextNow w3)).
    split; [by rewrite Hs|].
    unfold bankzWrites.
    repeat (apply Forall_cons; split); try apply Forall_nil; simpl; try done.
    intros id <-. right. exists (S (wNowCalls w2)).
    split; [cbn [wNowCalls]; lia|]. by rewrite <- Hck2.
Qed.

Lemma serveAll_served l w : served w (serveAll l w).
Proof.
  revert w. induction l as [|r l IH]; intros w.
  - apply gatewayStep_served, gatewayStep_refl.
  - unfold serveAll in *. simpl. eapply served_trans; [|apply IH].
    destruct r; [apply createCustomer_served|apply transferMoney_served].
Qed.

(** The two standing assumptions of the statements below hold in the initial
    world and after every sequence of requests. *)
Lemma serveAll_keyed l w : Store.keyed (wStore w) → Store.keyed (wStore (serveAll l w)).
Proof.
  intros Hk. destruct (serveAll_served l w) as [_ _ _ _ _ _ (ops & -> & _)].
  by apply run_keyed.
Qed.

Lemma serveAll_credentialsOK l w :
  credentialsOK (wClient w) → credentialsOK (wClient (serveAll l w)).
Proof.
  intros [Hi Hs]. destruct (serveAll_served l w) as [_ _ _ _ Hi' Hs' _].
  split; congruence.
Qed.




(** * The rest of the code *)

(** ** The listing methods of the store *)

Lemma rangeOver_map_to_list {A} (m : gmap string A) :
  rangeOver m (map_to_list m).*1 = map_to_list m.
Proof.
  unfold rangeOver.
  assert (∀ l : list (string * A), (∀ k v, (k, v) ∈ l → m !! k = Some v) →
            omap (λ k, (λ v, (k, v)) <$> m !! k) l.*1 = l) as H.
  { induction l as [|[k v] l IH]; intros Hl; [done|]. simpl.
    rewrite (Hl k v) by left. simpl. f_equal. apply IH.
    intros k' v' Hin. apply Hl. by right. }
  apply H. intros k v. apply elem_of_map_to_list.
Qed.

Lemma rangeOver_traversal {A} (m : gmap string A) keys :
  traversal m keys → rangeOver m keys ≡ₚ map_to_list m.
Proof.
  intros H. unfold rangeOver. rewrite H. apply reflexive_eq, rangeOver_map_to_list.
Qed.

Lemma fold_left_append {A B} (p : A → bool) (f : A → B) l init :
  fold_left (λ acc x, if p x then (acc ++ [f x])%list else acc) l init
  = (init ++ (f <$> List.filter p l))%list.
Proof.
  revert init. induction l as [|x l IH]; intros init; simpl.
  - by rewrite app_nil_r.
  - rewrite IH. destruct (p x); [|done]. simpl. by rewrite <- app_assoc.
Qed.

Lemma GetAccountsByCustomerID_filter customerID keys s :
  GetAccountsByCustomerID customerID keys s
  = (List.filter (λ e, String.eqb (Account.CustomerID e.2) customerID)
       (rangeOver (Store.accounts s) keys)).*2.
Proof. unfold GetAccountsByCustomerID. by rewrite fold_left_append. Qed.

Lemma filter_Permutation' {A} (p : A → bool) l1 l2 :
  l1 ≡ₚ l2 → List.filter p l1 ≡ₚ List.filter p l2.
Proof.
  induction 1; simpl; try done.
  - destruct (p x); [by constructor|done].
  - destruct (p x), (p y); try done. constructor.
  - etrans; eauto.
Qed.

Lemma filter_fst_NoDup {A} (p : string * A → bool) (l : list (string * A)) :
  NoDup l.*1 → NoDup (List.filter p l).*1.
Proof.
  induction l as [|[k v] l IH]; simpl; [done|]. intros Hnd.
  apply NoDup_cons in Hnd as [Hk Hnd]. destruct (p (k, v)); simpl; [|by apply IH].
  apply NoDup_cons. split; [|by apply IH]. intros Hin. apply Hk.
  apply list_elem_of_fmap in Hin as ([k' v'] & -> & Hin).
  apply list_elem_of_fmap. exists (k', v'). split; [done|].
  apply list_elem_of_In, filter_In in Hin as [Hin _]. by apply list_elem_of_In.
Qed.

Lemma GetAccountsByCustomerID_elem customerID keys s a :
  traversal (Store.accounts s) keys →
  a ∈ GetAccountsByCustomerID customerID keys s
  ↔ ∃ k, Store.accounts s !! k = Some a ∧ Account.CustomerID a = customerID.
Proof.
  intros Hk. pose proof (rangeOver_traversal _ _ Hk) as Hp.
  rewrite GetAccountsByCustomerID_filter, list_elem_of_fmap. split.
  - intros ([k a'] & -> & Hin). apply list_elem_of_In, filter_In in Hin as [Hin Ho].
    apply list_elem_of_In in Hin. rewrite Hp in Hin. apply elem_of_map_to_list in Hin.
    exists k. split; [done|]. by apply String.eqb_eq.
  - intros (k & Hl & Ho). exists (k, a). split; [done|].
    apply list_elem_of_In, filter_In. split.
    + apply list_elem_of_In. rewrite Hp. by apply elem_of_map_to_list.
    + by apply String.eqb_eq.
Qed.

(** X1. [GetAccountsByCustomerID] returns exactly the accounts whose owner is
    the given customer, whatever the order in which the map is traversed: the
    results of two traversals are permutations of each other, and in a store
    that files every account under its own ID no account is listed twice. *)
Theorem accounts_listing customerID keys s :
  traversal (Store.accounts s) keys →
  (∀ a, a ∈ GetAccountsByCustomerID customerID keys s
        ↔ ∃ k, Store.accounts s !! k = Some a ∧ Account.CustomerID a = customerID)
  ∧ (∀ keys', traversal (Store.accounts s) keys' →
       GetAccountsByCustomerID customerID keys' s ≡ₚ GetAccountsByCustomerID customerID keys s)
  ∧ (Store.keyed s → NoDup (Account.ID <$> GetAccountsByCustomerID customerID keys s)).
Proof.
  intros Hk. pose proof (rangeOver_traversal _ _ Hk) as Hp.
  split; [|split].
  - intros a. by apply GetAccountsByCustomerID_elem.
  - intros keys' Hk'. rewrite !GetAccountsByCustomerID_filter.
    apply fmap_Permutation, filter_Permutation'.
    by rewrite Hp, (rangeOver_traversal _ _ Hk').
  - intros Hkeyed. rewrite GetAccountsByCustomerID_filter.
    set (l := List.filter _ _).
    assert (Account.ID <$> l.*2 = l.*1) as ->.
    { assert (∀ e, e ∈ l → Account.ID e.2 = e.1) as He.
      { intros [k a] Hin. apply list_elem_of_In, filter_In in Hin as [Hin _].
        apply list_elem_of_In in Hin. rewrite Hp in Hin. apply elem_of_map_to_list in Hin.
        by apply Hkeyed in Hin. }
      clearbody l. induction l as [|e l IH]; [done|]. simpl. f_equal.
      - apply He. by left.
      - apply IH. intros e' Hin. apply He. by right. }
    apply filter_fst_NoDup. rewrite Hp. apply NoDup_fst_map_to_list.
Qed.

Lemma accounts_listing_witness :
  GetAccountsByCustomerID "c1" ["b1"; "a2"; "a1"] exampleStore
  ≡ₚ GetAccountsByCustomerID "c1" ["a1"; "b1"; "a2"] exampleStore
  ∧ GetAccountsByCustomerID "c1" ["a1"; "b1"; "a2"] exampleStore
    = [Account.mk "a1" "c1" "current" 1000 0; Account.mk "a2" "c1" "savings" 500 0].
Proof.
  split; [|reflexivity].
  refine (proj1 (proj2 (accounts_listing "c1" ["a1"; "b1"; "a2"] exampleStore _))
            ["b1"; "a2"; "a1"] _);
    unfold traversal; apply (bool_decide_unpack _); vm_compute; exact I.
Defined.

Lemma fold_left_union {A} (p : A → bool) (f : A → string) l (init : gset string) x :
  x ∈ fold_left (λ ids e, if p e then {[f e]} ∪ ids else ids) l init
  ↔ x ∈ init ∨ ∃ e, e ∈ l ∧ p e = true ∧ f e = x.
Proof.
  revert init. induction l as [|e l IH]; intros init; simpl.
  - split; [by left|]. intros [?|(e & He & _)]; [done|]. by apply elem_of_nil in He.
  - rewrite IH. destruct (p e) eqn:Hp.
    + rewrite elem_of_union, elem_of_singleton. split.
      * intros [[->|?]|(e' & He' & ?)]; [right; exists e; split; [left|done]|by left|].
        right. exists e'. split; [by right|done].
      * intros [?|(e' & He' & Hp' & Hf)]; [left; by right|].
        apply elem_of_cons in He' as [->|He']; [left; left; done|].
        right. by exists e'.
    + split.
      * intros [?|(e' & He' & ?)]; [by left|]. right. exists e'. split; [by right|done].
      * intros [?|(e' & He' & Hp' & Hf)]; [by left|].
        apply elem_of_cons in He' as [->|He']; [congruence|]. right. by exists e'.
Qed.

Lemma accountIDsOf_spec customerID keys s id :
  traversal (Store.accounts s) keys →
  id ∈ accountIDsOf customerID keys s
  ↔ ∃ k a, Store.accounts s !! k = Some a
           ∧ Account.CustomerID a = customerID ∧ Account.ID a = id.
Proof.
  intros Hk. pose proof (rangeOver_traversal _ _ Hk) as Hp.
  unfold accountIDsOf.
  rewrite (fold_left_union (λ e, String.eqb (Account.CustomerID e.2) customerID)
             (λ e, Account.ID e.2)).
  split.
  - intros [H|([k a] & Hin & Ho & Hid)]; [by apply elem_of_empty in H|].
    rewrite Hp in Hin. apply elem_of_map_to_list in Hin.
    exists k, a. split; [done|]. split; [by apply String.eqb_eq|done].
  - intros (k & a & Hl & Ho & Hid). right. exists (k, a). split.
    + rewrite Hp. by apply elem_of_map_to_list.
    + split; [by apply String.eqb_eq|done].
Qed.

Lemma GetTransactionsByCustomerID_filter customerID accountKeys transactionKeys s :
  GetTransactionsByCustomerID customerID accountKeys transactionKeys s
  = (List.filter
       (λ e, bool_decide (Transaction.AccountID e.2 ∈ accountIDsOf customerID accountKeys s))
       (rangeOver (Store.transactions s) transactionKeys)).*2.
Proof. unfold GetTransactionsByCustomerID. by rewrite fold_left_append. Qed.

Lemma GetTransactionsByCustomerID_elem customerID accountKeys transactionKeys s t :
  traversal (Store.accounts s) accountKeys →
  traversal (Store.transactions s) transactionKeys →
  t ∈ GetTransactionsByCustomerID customerID accountKeys transactionKeys s
  ↔ (∃ k, Store.transactions s !! k = Some t)
    ∧ ∃ ka a, Store.accounts s !! ka = Some a
              ∧ Account.CustomerID a = customerID
              ∧ Account.ID a = Transaction.AccountID t.
Proof.
  intros Ha Ht. pose proof (rangeOver_traversal _ _ Ht) as Hp.
  rewrite GetTransactionsByCustomerID_filter, list_elem_of_fmap.
  rewrite <- (accountIDsOf_spec customerID accountKeys s _ Ha). split.
  - intros ([k t'] & -> & Hin). apply list_elem_of_In, filter_In in Hin as [Hin Hb].
    apply list_elem_of_In in Hin. rewrite Hp in Hin. apply elem_of_map_to_list in Hin.
    split; [by exists k|]. by apply bool_decide_eq_true in Hb.
  - intros [(k & Hl) Hin]. exists (k, t). split; [done|].
    apply list_elem_of_In, filter_In. split.
    + apply list_elem_of_In. rewrite Hp. by apply elem_of_map_to_list.
    + by apply bool_decide_eq_true.
Qed.

(** X2. [GetTransactionsByCustomerID] returns exactly the stored transactions
    posted against an account (by its [ID] field) that the customer owns; the
    transaction's own [CustomerID] field plays no part.  The result does not
    depend on the traversal orders except for its order. *)
Theorem transactions_listing customerID accountKeys transactionKeys s :
  traversal (Store.accounts s) accountKeys →
  traversal (Store.transactions s) transactionKeys →
  (∀ t, t ∈ GetTransactionsByCustomerID customerID accountKeys transactionKeys s
        ↔ (∃ k, Store.transactions s !! k = Some t)
          ∧ ∃ ka a, Store.accounts s !! ka = Some a
                    ∧ Account.CustomerID a = customerID
                    ∧ Account.ID a = Transaction.AccountID t)
  ∧ (∀ accountKeys' transactionKeys',
       traversal (Store.accounts s) accountKeys' →
       traversal (Store.transactions s) transactionKeys' →
       GetTransactionsByCustomerID customerID accountKeys' transactionKeys' s
       ≡ₚ GetTransactionsByCustomerID customerID accountKeys transactionKeys s).
Proof.
  intros Ha Ht. pose proof (rangeOver_traversal _ _ Ht) as Hp.
  split.
  - intros t. by apply GetTransactionsByCustomerID_elem.
  - intros accountKeys' transactionKeys' Ha' Ht'.
    rewrite !GetTransactionsByCustomerID_filter.
    assert (accountIDsOf customerID accountKeys' s = accountIDsOf customerID accountKeys s)
      as ->.
    { apply set_eq. intros id. by rewrite !accountIDsOf_spec. }
    apply fmap_Permutation, filter_Permutation'.
    by rewrite Hp, (rangeOver_traversal _ _ Ht').
Qed.

Lemma transactions_listing_witness :
  let s := wStore (transferMoney "c1" (Some (mkTransferRequest "a1" "a2" 200)) exampleWorld).2 in
  Transaction.Type_ <$> GetTransactionsByCustomerID "c1" ["a1"; "a2"; "b1"] ["u2"; "u1"; "u0"] s
  = ["interest"; "fee"; "transfer"]
  ∧ GetTransactionsByCustomerID "c1" ["b1"; "a1"; "a2"] ["u0"; "u1"; "u2"] s
    ≡ₚ GetTransactionsByCustomerID "c1" ["a1"; "a2"; "b1"] ["u2"; "u1"; "u0"] s.
Proof.
  cbv zeta. split; [vm_compute; reflexivity|].
  refine (proj2 (transactions_listing "c1" ["a1"; "a2"; "b1"] ["u2"; "u1"; "u0"] _ _ _)
            ["b1"; "a1"; "a2"] ["u0"; "u1"; "u2"] _ _);
    unfold traversal; apply (bool_decide_unpack _); vm_compute; exact I.
Defined.

(** ** The validation patterns of createCustomer *)

Lemma append_nil_l (b : string) : "" +:+ b = b.
Proof. reflexivity. Qed.

Lemma append_cons c (a b : string) : String c a +:+ b = String c (a +:+ b).
Proof. reflexivity. Qed.

Lemma append_eq_nil (a b : string) : a +:+ b = "" → a = "" ∧ b = "".
Proof. destruct a; [done|]. rewrite append_cons. discriminate. Qed.

Lemma nullable_denotes r : regexp.nullable r = true ↔ denotes r "".
Proof.
  split.
  - induction r; simpl; try discriminate; intros H.
    + constructor.
    + apply andb_prop in H as [H1 H2]. change "" with ("" +:+ ""). constructor; auto.
    + apply orb_prop in H as [H|H]; [apply denotes_alt_l|apply denotes_alt_r]; auto.
    + constructor.
  - intros H. remember "" as s eqn:Hs. induction H; simpl; try done.
    + apply append_eq_nil in Hs as [-> ->]. by rewrite IHdenotes1, IHdenotes2.
    + by rewrite IHdenotes.
    + rewrite IHdenotes by done. apply orb_true_r.
Qed.

Lemma deriv_denotes c r s : denotes (regexp.deriv c r) s ↔ denotes r (String c s).
Proof.
  split.
  - revert s. induction r as [| |p|r1 IH1 r2 IH2|r1 IH1 r2 IH2|r IH]; simpl; intros s H.
    + inversion H.
    + inversion H.
    + destruct (p c) eqn:Hp; inversion H; subst. by constructor.
    + destruct (regexp.nullable r1) eqn:Hn.
      * inversion H as [| | |? ? ? H'|? ? ? H'| |]; subst.
        -- inversion H' as [| |? ? s1 s2 Ha Hb| | | |]; subst.
           change (String c (s1 +:+ s2)) with (String c s1 +:+ s2). constructor; auto.
        -- change (String c s) with ("" +:+ String c s). constructor; auto.
           by apply nullable_denotes.
      * inversion H as [| |? ? s1 s2 Ha Hb| | | |]; subst.
        change (String c (s1 +:+ s2)) with (String c s1 +:+ s2). constructor; auto.
    + inversion H; subst; [apply denotes_alt_l|apply denotes_alt_r]; auto.
    + inversion H as [| |? ? s1 s2 Ha Hb| | | |]; subst.
      change (String c (s1 +:+ s2)) with (String c s1 +:+ s2). constructor; auto.
  - intros H. remember (String c s) as cs eqn:Hcs. revert c s Hcs.
    induction H as [|p c' Hp|r1 r2 s1 s2 H1 IH1 H2 IH2|r1 r2 s' H1 IH1|r1 r2 s' H2 IH2|
                    |r s1 s2 H1 IH1 H2 IH2]; intros c s Hcs; simpl; try discriminate.
    + injection Hcs as -> <-. rewrite Hp. constructor.
    + destruct s1 as [|c1 s1]; rewrite ?append_nil_l, ?append_cons in Hcs.
      * subst s2. apply nullable_denotes in H1. rewrite H1.
        apply denotes_alt_r. by apply IH2.
      * injection Hcs as -> <-.
        assert (denotes (regexp.Cat (regexp.deriv c r1) r2) (s1 +:+ s2)) as Hd
          by (constructor; [by apply IH1|done]).
        destruct (regexp.nullable r1); [by apply denotes_alt_l|done].
    + apply denotes_alt_l. by apply IH1.
    + apply denotes_alt_r. by apply IH2.
    + destruct s1 as [|c1 s1]; rewrite ?append_nil_l, ?append_cons in Hcs.
      * by apply IH2.
      * injection Hcs as -> <-. constructor; [by apply IH1|done].
Qed.

(** The matcher decides the language of the pattern. *)
Lemma MatchString_denotes r s : regexp.MatchString r s = true ↔ denotes r s.
Proof.
  revert r. induction s as [|c s IH]; intros r; simpl.
  - apply nullable_denotes.
  - rewrite IH. apply deriv_denotes.
Qed.

Lemma denotes_class_inv p s :
  denotes (regexp.Class p) s → ∃ c, s = String c "" ∧ p c = true.
Proof. intros H. inversion H; subst. eauto. Qed.

Lemma denotes_cat_inv r1 r2 s :
  denotes (regexp.Cat r1 r2) s → ∃ s1 s2, s = s1 +:+ s2 ∧ denotes r1 s1 ∧ denotes r2 s2.
Proof. intros H. inversion H; subst. eauto. Qed.

Lemma denotes_star_class p s :
  denotes (regexp.Star (regexp.Class p)) s ↔ allChars p s = true.
Proof.
  split.
  - intros H. remember (regexp.Star (regexp.Class p)) as r eqn:Hr.
    induction H as [| | | | | |r' s1 s2 H1 _ H2 IH2]; try discriminate; [done|].
    injection Hr as ->. apply denotes_class_inv in H1 as (c & -> & Hc).
    rewrite append_cons, append_nil_l. simpl. by rewrite Hc, IH2.
  - induction s as [|c s IH]; simpl; intros H; [constructor|].
    apply andb_prop in H as [Hc Hs].
    change (String c s) with (String c "" +:+ s). constructor; [by constructor|auto].
Qed.

Lemma denotes_plus_class p s :
  denotes (regexp.Plus (regexp.Class p)) s ↔ s ≠ "" ∧ allChars p s = true.
Proof.
  unfold regexp.Plus. split.
  - intros H. apply denotes_cat_inv in H as (s1 & s2 & -> & H1 & H2).
    apply denotes_class_inv in H1 as (c & -> & Hc).
    rewrite append_cons, append_nil_l. simpl. split; [done|].
    apply denotes_star_class in H2. by rewrite H2, Hc.
  - intros [Hne H]. destruct s as [|c s]; [done|]. simpl in H.
    apply andb_prop in H as [Hc Hs].
    change (String c s) with (String c "" +:+ s).
    constructor; [by constructor|by apply denotes_star_class].
Qed.

Lemma denotes_lit c s : denotes (regexp.lit c) s ↔ s = String c "".
Proof.
  unfold regexp.lit. split.
  - intros H. apply denotes_class_inv in H as (c' & -> & Hc).
    by apply Ascii.eqb_eq in Hc as ->.
  - intros ->. constructor. apply Ascii.eqb_refl.
Qed.

Lemma denotes_atLeast2_class p s :
  denotes (regexp.AtLeast2 (regexp.Class p)) s
  ↔ (2 ≤ String.length s)%nat ∧ allChars p s = true.
Proof.
  unfold regexp.AtLeast2. split.
  - intros H. apply denotes_cat_inv in H as (s1 & s' & -> & H1 & H).
    apply denotes_cat_inv in H as (s2 & s3 & -> & H2 & H3).
    apply denotes_class_inv in H1 as (c1 & -> & Hc1).
    apply denotes_class_inv in H2 as (c2 & -> & Hc2).
    rewrite !append_cons, !append_nil_l. simpl.
    apply denotes_star_class in H3. rewrite H3, Hc1, Hc2. split; [lia|done].
  - intros [Hl H]. destruct s as [|c1 [|c2 s]]; simpl in Hl; try lia. simpl in H.
    apply andb_prop in H as [Hc1 H]. apply andb_prop in H as [Hc2 Hs].
    change (String c1 (String c2 s)) with (String c1 "" +:+ (String c2 "" +:+ s)).
    constructor; [by constructor|]. constructor; [by constructor|].
    by apply denotes_star_class.
Qed.

Lemma MatchString_nameRegex s :
  regexp.MatchString nameRegex s = true ↔ s ≠ "" ∧ allChars nameChar s = true.
Proof. rewrite MatchString_denotes. apply denotes_plus_class. Qed.

Lemma MatchString_emailRegex s :
  regexp.MatchString emailRegex s = true ↔ emailShape s.
Proof.
  rewrite MatchString_denotes. unfold emailRegex, emailShape. split.
  - intros H.
    apply denotes_cat_inv in H as (l & s1 & -> & Hl & H).
    apply denotes_cat_inv in H as (a & s2 & -> & Ha & H).
    apply denotes_cat_inv in H as (d & s3 & -> & Hd & H).
    apply denotes_cat_inv in H as (o & t & -> & Ho & Ht).
    apply denotes_lit in Ha, Ho. subst a o.
    apply denotes_plus_class in Hl as [? ?], Hd as [? ?].
    apply denotes_atLeast2_class in Ht as [? ?].
    by exists l, d, t.
  - intros (l & d & t & -> & Hl1 & Hl2 & Hd1 & Hd2 & Ht1 & Ht2).
    constructor; [by apply denotes_plus_class|].
    constructor; [by apply denotes_lit|].
    constructor; [by apply denotes_plus_class|].
    constructor; [by apply denotes_lit|].
    by apply denotes_atLeast2_class.
Qed.

Lemma customerErrors_nil req :
  customerErrors req = []
  ↔ regexp.MatchString nameRegex (Name req) = true
    ∧ regexp.MatchString emailRegex (Email req) = true.
Proof.
  unfold customerErrors.
  destruct (String.eqb_spec (Name req) "") as [En|En];
    destruct (String.eqb_spec (Email req) "") as [Ee|Ee]; simpl.
  - split; [done|]. intros [H _]. by rewrite En in H.
  - split; [by destruct (regexp.MatchString emailRegex _)|].
    intros [H _]. by rewrite En in H.
  - split; [by destruct (regexp.MatchString nameRegex _)|].
    intros [_ H]. by rewrite Ee in H.
  - destruct (regexp.MatchString nameRegex _), (regexp.MatchString emailRegex _);
      simpl; split; try done; intros [? ?]; done.
Qed.

(** X3. [createCustomer] answers 201 exactly for the requests whose name is
    non-empty and made of ASCII letters and the white space [\t\n\f\r ] only,
    and whose email is a non-empty local part of letters, digits and
    [._%+-], then "@", a non-empty domain of letters, digits, "." and "-", a
    ".", and at least two letters. *)
Theorem createCustomer_accepts_exactly req w :
  code (createCustomer (Some req) w).1 = http.StatusCreated
  ↔ (Name req ≠ "" ∧ allChars nameChar (Name req) = true) ∧ emailShape (Email req).
Proof.
  rewrite <- MatchString_nameRegex, <- MatchString_emailRegex, <- customerErrors_nil.
  unfold createCustomer. destruct (customerErrors req) as [|e l]; simpl; split; try done.
Qed.

Lemma createCustomer_accepts_exactly_witness :
  code (createCustomer (Some (mkCustomerRequest "Jane Doe" "jane.doe@example.co")) exampleWorld).1
  = http.StatusCreated
  ∧ ¬ emailShape "jane@example".
Proof.
  split.
  - apply (proj2 (createCustomer_accepts_exactly
                    (mkCustomerRequest "Jane Doe" "jane.doe@example.co") exampleWorld)).
    split; [split; [discriminate|reflexivity]|].
    exists "jane.doe", "example", "co". repeat split; try discriminate; simpl; lia.
  - intros H.
    assert (code (createCustomer (Some (mkCustomerRequest "Jane Doe" "jane@example"))
                    exampleWorld).1 = http.StatusCreated) as Hc.
    { apply (proj2 (createCustomer_accepts_exactly
                      (mkCustomerRequest "Jane Doe" "jane@example") exampleWorld)).
      split; [split; [discriminate|reflexivity]|exact H]. }
    discriminate Hc.
Defined.

(** X4. A [createCustomer] call that is not answered 201 is answered 400 with
    at least one message and leaves the whole world as it was: no ID is drawn,
    the clock is not read and nothing is stored. *)
Theorem createCustomer_rejection_changes_nothing body w :
  code (createCustomer body w).1 ≠ http.StatusCreated →
  (createCustomer body w).2 = w
  ∧ code (createCustomer body w).1 = http.StatusBadRequest
  ∧ reported (createCustomer body w).1 ≠ []
  ∧ ∀ req, body = Some req → reported (createCustomer body w).1 = customerErrors req.
Proof.
  destruct body as [req|]; [|intros _; repeat split; try done].
  unfold createCustomer. destruct (customerErrors req) as [|e l] eqn:He; simpl.
  - intros H. by destruct H.
  - intros _. split; [done|]. split; [done|]. split; [done|].
    intros req' E. injection E as <-. by rewrite He.
Qed.

Lemma createCustomer_rejection_changes_nothing_witness :
  createCustomer (Some (mkCustomerRequest "" "jane@example.com")) exampleWorld
  = (JSON http.StatusBadRequest (H_errors ["Name cannot be empty"]), exampleWorld).
Proof.
  destruct (createCustomer_rejection_changes_nothing
              (Some (mkCustomerRequest "" "jane@example.com")) exampleWorld)
    as (H1 & _ & _ & _); [discriminate|].
  apply injective_projections; [reflexivity|exact H1].
Defined.

(** ** The Bank Z client *)

Lemma validateToken_accepts token w t :
  bankz.token (wClient w) = Some t →
  bankz.AccessToken t = token →
  (nextNow w ≤ bankz.ExpiresAt t)%Z →
  bankzClient.validateToken token w = (None, tick 1 w).
Proof.
  intros Ht <- Hle. unfold_gateway. unfold nextNow in Hle.
  destruct w as [s c clk n u k]; simpl in *. rewrite Ht, String.eqb_refl. simpl.
  apply Z.ltb_ge in Hle. by rewrite Hle.
Qed.

Lemma validateToken_spec token w :
  (∃ t, bankz.token (wClient w) = Some t ∧ bankz.AccessToken t = token
        ∧ (nextNow w ≤ bankz.ExpiresAt t)%Z
        ∧ bankzClient.validateToken token w = (None, tick 1 w))
  ∨ (∃ n, (n ≤ 1)%nat
          ∧ bankzClient.validateToken token w = (Some "invalid or expired token", tick n w)
          ∧ ∀ t, bankz.token (wClient w) = Some t → bankz.AccessToken t = token →
                 (bankz.ExpiresAt t < nextNow w)%Z).
Proof.
  destruct (bankz.token (wClient w)) as [t|] eqn:Ht.
  - destruct (String.eqb_spec (bankz.AccessToken t) token) as [E|E].
    + destruct (Z.lt_ge_cases (bankz.ExpiresAt t) (nextNow w)) as [Hlt|Hge].
      * right. exists 1%nat. split; [lia|]. split.
        -- unfold_gateway. unfold nextNow in Hlt.
           destruct w as [s c clk n u k]; simpl in *. rewrite Ht, E, String.eqb_refl. simpl.
           apply Z.ltb_lt in Hlt. by rewrite Hlt.
        -- intros t' Ht' _. by injection Ht' as <-.
      * left. exists t. repeat split; try done. by apply (validateToken_accepts token w t).
    + right. exists 0%nat. split; [lia|]. split.
      * unfold_gateway. destruct w as [s c clk n u k]; simpl in *. rewrite Ht.
        by destruct (String.eqb_spec (bankz.AccessToken t) token).
      * intros t' Ht' E'. injection Ht' as <-. done.
  - right. exists 0%nat. split; [lia|]. split; [|done].
    unfold_gateway. destruct w as [s c clk n u k]; simpl in *. by rewrite Ht.
Qed.

Lemma GetToken_caches_result w token w1 :
  bankzClient.GetToken w = (inl token, w1) →
  ∃ t, bankz.token (wClient w1) = Some t ∧ bankz.AccessToken t = token.
Proof.
  unfold_gateway. destruct w as [s c clk n u k]; simpl.
  destruct (bankz.token c) as [t0|] eqn:Ht; simpl.
  - destruct (clk n <? bankz.ExpiresAt t0)%Z; simpl.
    + intros E. injection E as <- <-. simpl. eauto.
    + destruct (negb _ || negb _); simpl; intros E; [discriminate|].
      injection E as <- <-. simpl. eauto.
  - destruct (negb _ || negb _); simpl; intros E; [discriminate|].
    injection E as <- <-. simpl. eauto.
Qed.

(** X5. The string [GetToken] returns is the cached token afterwards, so the
    client accepts it in [GetBalance] for every account it holds, as long as
    the token cache is not replaced and the clock has not passed the cached
    expiry (a reading equal to the expiry is still accepted). *)
Theorem token_from_GetToken_is_accepted w token w1 :
  bankzClient.GetToken w = (inl token, w1) →
  ∃ t, bankz.token (wClient w1) = Some t
       ∧ bankz.AccessToken t = token
       ∧ ∀ w2 accountID account,
           wClient w2 = wClient w1 →
           (nextNow w2 ≤ bankz.ExpiresAt t)%Z →
           bankz.accounts (wClient w1) !! accountID = Some account →
           bankzClient.GetBalance accountID token w2
           = (inl (bankz.Balance account), tick 1 w2).
Proof.
  intros Hg. destruct (GetToken_caches_result _ _ _ Hg) as (t & Ht & Ha).
  exists t. split; [done|]. split; [done|].
  intros w2 accountID account Hc Hle Hacc. rewrite <- Hc in Ht, Hacc.
  unfold bankzClient.GetBalance, mbind, M_bind.
  rewrite (validateToken_accepts token w2 t Ht Ha Hle).
  unfold readClient, tick, mbind, M_bind, ret, mret, M_ret. simpl. by rewrite Hacc.
Qed.

Lemma token_from_GetToken_is_accepted_witness :
  bankzClient.GetBalance "bankz-acc-456" "token-1000" (bankzClient.GetToken exampleWorld).2
  = (inl 500%float, tick 1 (bankzClient.GetToken exampleWorld).2).
Proof.
  destruct (token_from_GetToken_is_accepted exampleWorld "token-1000"
              (bankzClient.GetToken exampleWorld).2 eq_refl) as (t & Ht & _ & H).
  vm_compute in Ht. injection Ht as <-.
  apply (H _ "bankz-acc-456" (bankz.mkMockAccount "bankz-acc-456" 500)); vm_compute; congruence.
Defined.

(** X6. [GetBalance] only reads: it leaves the client and the store as they
    were and takes at most one clock reading.  It succeeds exactly when the
    given token is the cached one, the clock has not passed its expiry and the
    account exists, and then returns that account's balance; a token problem
    is reported before the account is looked up. *)
Theorem GetBalance_reads_only accountID token w :
  (∃ n, (n ≤ 1)%nat ∧ (bankzClient.GetBalance accountID token w).2 = tick n w)
  ∧ (∀ b, (bankzClient.GetBalance accountID token w).1 = inl b
          ↔ ∃ t account,
              bankz.token (wClient w) = Some t ∧ bankz.AccessToken t = token
              ∧ (nextNow w ≤ bankz.ExpiresAt t)%Z
              ∧ bankz.accounts (wClient w) !! accountID = Some account
              ∧ bankz.Balance account = b)
  ∧ ((∀ t, bankz.token (wClient w) = Some t → bankz.AccessToken t = token →
           (bankz.ExpiresAt t < nextNow w)%Z) →
     (bankzClient.GetBalance accountID token w).1 = inr "invalid or expired token").
Proof.
  unfold bankzClient.GetBalance, mbind, M_bind.
  destruct (validateToken_spec token w) as [(t & Ht & Ha & Hle & Hv)|(n & Hn & Hv & Hbad)];
    rewrite Hv.
  - unfold readClient, mbind, M_bind, ret, mret, M_ret. simpl.
    destruct (bankz.accounts (wClient w) !! accountID) as [account|] eqn:Hacc; simpl.
    + split; [exists 1%nat; split; [lia|done]|]. split.
      * intros b. split.
        -- intros E. injection E as <-. by exists t, account.
        -- intros (t' & account' & _ & _ & _ & E & <-). by injection E as <-.
      * intros Hall. specialize (Hall t Ht Ha). lia.
    + split; [exists 1%nat; split; [lia|done]|]. split.
      * intros b. split; [done|]. by intros (t' & account' & _ & _ & _ & E & _).
      * intros Hall. specialize (Hall t Ht Ha). lia.
  - simpl. split; [by exists n|].
    + split; [|done]. intros b. split; [done|].
      intros (t & account & Ht & Ha & Hle & _). specialize (Hbad t Ht Ha). lia.
Qed.

Lemma GetBalance_reads_only_witness :
  (bankzClient.GetBalance "bankz-acc-123" "token-0" exampleWorld).1
  = inr "invalid or expired token".
Proof.
  apply (proj2 (proj2 (GetBalance_reads_only "bankz-acc-123" "token-0" exampleWorld))).
  intros t Ht. discriminate Ht.
Defined.

Lemma InitiateTransfer_cases fromAccountID toAccountID token amount w :
  let r := bankzClient.InitiateTransfer fromAccountID toAccountID token amount w in
  (∃ e, r.1 = inr e ∧ wClient r.2 = wClient w)
  ∨ (∃ t account,
       bankz.token (wClient w) = Some t ∧ bankz.AccessToken t = token
       ∧ (nextNow w ≤ bankz.ExpiresAt t)%Z
       ∧ (amount <=? 0)%float = false
       ∧ bankz.accounts (wClient w) !! toAccountID = Some account
       ∧ r = (inl ("bankz-tx-" +:+ fmt.d (nextNow (tick 1 w))),
              tick 2 (withClient
                        (bankz.withAccounts (wClient w)
                           (<[toAccountID :=
                                bankz.mkMockAccount toAccountID
                                  (bankz.Balance account + amount)%float]>
                              (bankz.accounts (wClient w)))) w))).
Proof.
  intros r. subst r. unfold bankzClient.InitiateTransfer, mbind, M_bind.
  destruct (validateToken_spec token w) as [(t & Ht & Ha & Hle & Hv)|(n & Hn & Hv & Hbad)];
    rewrite Hv.
  - destruct (amount <=? 0)%float eqn:Hpos; [left; by eexists|].
    unfold readClient, writeClient, time.Now, mbind, M_bind, ret, mret, M_ret. simpl.
    destruct (bankz.accounts (wClient w) !! toAccountID) as [account|] eqn:Hacc;
      [|left; by eexists].
    right. exists t, account. repeat split; try done.
  - left. by eexists.
Qed.

(** X7. A successful [InitiateTransfer] had a valid token, an amount that is
    not [<= 0] and an existing destination; it adds the amount to the balance
    of that partner account and to nothing else, keeps the token, returns
    "bankz-tx-" followed by the clock reading it takes last, and the source
    account ID it is given has no influence on any of this. *)
Theorem InitiateTransfer_credits_destination
    fromAccountID toAccountID token amount w transactionID w' :
  bankzClient.InitiateTransfer fromAccountID toAccountID token amount w
  = (inl transactionID, w') →
  (∃ account,
     bankz.accounts (wClient w) !! toAccountID = Some account
     ∧ bankz.accounts (wClient w') !! toAccountID
       = Some (bankz.mkMockAccount toAccountID (bankz.Balance account + amount)%float))
  ∧ (∀ id, id ≠ toAccountID →
           bankz.accounts (wClient w') !! id = bankz.accounts (wClient w) !! id)
  ∧ bankz.token (wClient w') = bankz.token (wClient w)
  ∧ (amount <=? 0)%float = false
  ∧ transactionID = "bankz-tx-" +:+ fmt.d (wClock w (wNowCalls w' - 1))
  ∧ wStore w' = wStore w
  ∧ ∀ other, bankzClient.InitiateTransfer other toAccountID token amount w
             = (inl transactionID, w').
Proof.
  intros H.
  destruct (InitiateTransfer_cases fromAccountID toAccountID token amount w)
    as [(e & He & _)|(t & account & Ht & Ha & Hle & Hpos & Hacc & Hr)].
  { rewrite H in He. discriminate He. }
  rewrite H in Hr. injection Hr as -> ->. simpl.
  split; [exists account; split; [done|by rewrite lookup_insert_eq]|].
  split; [intros id Hne; by rewrite lookup_insert_ne|].
  split; [done|]. split; [done|]. split.
  { unfold nextNow, tick. simpl. reflexivity. }
  split; [done|]. intros other. exact H.
Qed.

Lemma InitiateTransfer_credits_destination_witness :
  let w1 := (bankzClient.GetToken exampleWorld).2 in
  let r := bankzClient.InitiateTransfer "a1" "bankz-acc-456" "token-1000" 25 w1 in
  r.1 = inl "bankz-tx-1003"
  ∧ bankz.accounts (wClient r.2) !! "bankz-acc-456"
    = Some (bankz.mkMockAccount "bankz-acc-456" 525)
  ∧ bankz.accounts (wClient r.2) !! "bankz-acc-123"
    = Some (bankz.mkMockAccount "bankz-acc-123" 1000).
Proof.
  cbv zeta.
  destruct (InitiateTransfer_credits_destination "a1" "bankz-acc-456" "token-1000" 25
              (bankzClient.GetToken exampleWorld).2 "bankz-tx-1003"
              (bankzClient.InitiateTransfer "a1" "bankz-acc-456" "token-1000" 25
                 (bankzClient.GetToken exampleWorld).2).2)
    as ((account & Ha & Hb) & Ho & _); [vm_compute; reflexivity|].
  split; [vm_compute; reflexivity|]. split.
  - rewrite Hb. vm_compute in Ha. injection Ha as <-. reflexivity.
  - rewrite Ho by discriminate. vm_compute; reflexivity.
Defined.

(** X8. A failing [InitiateTransfer] changes no partner balance and no token,
    and the checks fail in the order token, amount, destination: an invalid
    token is reported whatever the amount and the destination, a non-positive
    amount whatever the destination. *)
Theorem InitiateTransfer_failure_is_atomic fromAccountID toAccountID token amount w e w' :
  bankzClient.InitiateTransfer fromAccountID toAccountID token amount w = (inr e, w') →
  wClient w' = wClient w
  ∧ wStore w' = wStore w
  ∧ (e = "invalid or expired token"
     ∨ (bankzClient.validateToken token w).1 = None
       ∧ (e = "amount must be positive" ∧ (amount <=? 0)%float = true
          ∨ e = "destination Bank Z account " +:+ toAccountID +:+ " not found"
            ∧ (amount <=? 0)%float = false
            ∧ bankz.accounts (wClient w) !! toAccountID = None)).
Proof.
  intros H.
  pose proof (gs_store _ _ (InitiateTransfer_step fromAccountID toAccountID token amount w))
    as Hs. rewrite H in Hs.
  destruct (InitiateTransfer_cases fromAccountID toAccountID token amount w)
    as [(e' & He & Hc)|(t & account & _ & _ & _ & _ & _ & Hr)].
  2:{ rewrite H in Hr. discriminate Hr. }
  rewrite H in Hc. split; [done|]. split; [done|].
  clear Hs Hc He. revert H.
  unfold bankzClient.InitiateTransfer, mbind, M_bind.
  destruct (validateToken_spec token w) as [(t & Ht & Ha & Hle & Hv)|(n & _ & Hv & _)];
    rewrite Hv.
  - destruct (amount <=? 0)%float eqn:Hpos.
    + intros E. injection E as <- <-. right. split; [done|]. by left.
    + unfold readClient, writeClient, time.Now, mbind, M_bind, ret, mret, M_ret. simpl.
      destruct (bankz.accounts (wClient w) !! toAccountID) as [account|] eqn:Hacc;
        [discriminate|].
      intros E. injection E as <- <-. right. split; [done|]. by right.
  - intros E. injection E as <- <-. by left.
Qed.

Lemma InitiateTransfer_failure_is_atomic_witness :
  let w1 := (bankzClient.GetToken exampleWorld).2 in
  bankzClient.InitiateTransfer "a1" "nowhere" "stale" (-5) w1
  = (inr "invalid or expired token", w1)
  ∧ (bankzClient.InitiateTransfer "a1" "nowhere" "token-1000" (-5) w1).1
    = inr "amount must be positive"
  ∧ wClient (bankzClient.InitiateTransfer "a1" "nowhere" "token-1000" 5 w1).2 = wClient w1.
Proof.
  cbv zeta. split; [reflexivity|]. split; [reflexivity|].
  apply (InitiateTransfer_failure_is_atomic "a1" "nowhere" "token-1000" 5 _
           "destination Bank Z account nowhere not found"
           (bankzClient.InitiateTransfer "a1" "nowhere" "token-1000" 5
              (bankzClient.GetToken exampleWorld).2).2).
  vm_compute; reflexivity.
Defined.

(** X9. Credit then read: after a successful [InitiateTransfer] of [amount] to
    a partner account, [GetBalance] of that account with the same token
    returns the earlier balance plus [amount], provided the clock has still not
    passed the token's expiry. *)
Theorem GetBalance_after_InitiateTransfer
    fromAccountID toAccountID token amount w transactionID w' account t :
  bankzClient.InitiateTransfer fromAccountID toAccountID token amount w
  = (inl transactionID, w') →
  bankz.accounts (wClient w) !! toAccountID = Some account →
  bankz.token (wClient w) = Some t →
  (nextNow w' ≤ bankz.ExpiresAt t)%Z →
  bankzClient.GetBalance toAccountID token w'
  = (inl (bankz.Balance account + amount)%float, tick 1 w').
Proof.
  intros H Hacc Ht Hle.
  destruct (InitiateTransfer_cases fromAccountID toAccountID token amount w)
    as [(e & He & _)|(t' & account' & Ht' & Ha & _ & _ & Hacc' & Hr)].
  { rewrite H in He. discriminate He. }
  rewrite Ht in Ht'. injection Ht' as <-. rewrite Hacc in Hacc'. injection Hacc' as <-.
  rewrite H in Hr. injection Hr as -> ->.
  unfold bankzClient.GetBalance, mbind, M_bind.
  rewrite (validateToken_accepts token _ t); try done.
  unfold readClient, tick, mbind, M_bind, ret, mret, M_ret. simpl.
  by rewrite lookup_insert_eq.
Qed.

Lemma GetBalance_after_InitiateTransfer_witness :
  let w1 := (bankzClient.GetToken exampleWorld).2 in
  let w2 := (bankzClient.InitiateTransfer "a1" "bankz-acc-123" "token-1000" 0.5 w1).2 in
  (bankzClient.GetBalance "bankz-acc-123" "token-1000" w2).1 = inl 1000.5%float.
Proof.
  cbv zeta.
  rewrite (GetBalance_after_InitiateTransfer "a1" "bankz-acc-123" "token-1000" 0.5
             (bankzClient.GetToken exampleWorld).2 "bankz-tx-1003"
             (bankzClient.InitiateTransfer "a1" "bankz-acc-123" "token-1000" 0.5
                (bankzClient.GetToken exampleWorld).2).2
             (bankz.mkMockAccount "bankz-acc-123" 1000)
             (bankz.mkToken "token-1000" 3600000001001));
    try (vm_compute; reflexivity).
  vm_compute. discriminate.
Defined.

(** ** Transfers that do not commit, and transfers to Bank Z *)

Lemma quietStep_refl w : quietStep w w.
Proof. split; [apply gatewayStep_refl|done]. Qed.

Lemma quietStep_trans w1 w2 w3 : quietStep w1 w2 → quietStep w2 w3 → quietStep w1 w3.
Proof.
  intros [G1 A1] [G2 A2]. split; [by eapply gatewayStep_trans|congruence].
Qed.

Lemma GetToken_quiet w : quietStep w (bankzClient.GetToken w).2.
Proof.
  split; [apply GetToken_step|].
  unfold_gateway. destruct w as [s c clk n u k]; simpl.
  repeat (run_step; simpl); reflexivity.
Qed.

Lemma GetBalance_quiet accountID token w :
  quietStep w (bankzClient.GetBalance accountID token w).2.
Proof.
  split; [apply GetBalance_step|].
  unfold_gateway. destruct w as [s c clk n u k]; simpl.
  repeat (run_step; simpl); reflexivity.
Qed.

Lemma InitiateTransfer_error_quiet a b token x w e w' :
  bankzClient.InitiateTransfer a b token x w = (inr e, w') → quietStep w w'.
Proof.
  intros H. split.
  - pose proof (InitiateTransfer_step a b token x w) as Hs. by rewrite H in Hs.
  - destruct (InitiateTransfer_cases a b token x w)
      as [(e' & _ & Hc)|(t & account & _ & _ & _ & _ & _ & Hr)].
    + rewrite H in Hc. simpl in Hc. by rewrite Hc.
    + rewrite H in Hr. discriminate Hr.
Qed.

Lemma transferMoney_rejected_quiet customerID body w :
  code (transferMoney customerID body w).1 ≠ http.StatusCreated →
  quietStep w (transferMoney customerID body w).2.
Proof.
  intros H. destruct body as [req|]; [|apply quietStep_refl].
  destruct (transferErrors req) as [|e l] eqn:Hv.
  2:{ unfold transferMoney. rewrite Hv. apply quietStep_refl. }
  destruct (Store.customers (wStore w) !! customerID) as [c|] eqn:Hc.
  2:{ unfold transferMoney. rewrite Hv. simpl. unfold_store. rewrite Hc.
      apply quietStep_refl. }
  pose proof (GetToken_quiet w) as S1.
  destruct (bankzClient.GetToken w) as [[token|e] w1] eqn:Hg; simpl in S1.
  2:{ unfold transferMoney. rewrite Hv. simpl. unfold_store. by rewrite Hc, Hg. }
  pose proof (gs_store _ _ (qs_gateway _ _ S1)) as Hs.
  destruct (Store.accounts (wStore w) !! FromAccountID req) as [fromAccount|] eqn:Hf.
  2:{ unfold transferMoney. rewrite Hv. simpl. unfold_store. by rewrite Hc, Hg, Hs, Hf. }
  destruct (String.eqb_spec (Account.CustomerID fromAccount) customerID) as [Ho|Ho].
  2:{ unfold transferMoney. rewrite Hv. simpl. unfold_store. rewrite Hc, Hg, Hs, Hf.
      by destruct (String.eqb_spec (Account.CustomerID fromAccount) customerID). }
  rewrite (transferMoney_resolved _ _ _ _ _ _ _ Hv Hc Hg Hf Ho) in H |- *.
  destruct (Store.accounts (wStore w) !! ToAccountID req) as [toAccount|] eqn:Ht.
  - destruct (negb _); [done|].
    destruct (Account.Balance fromAccount
              <? Amount req + feeOf fromAccount (Amount req))%float eqn:Hb.
    + by rewrite internalTransfer_reject.
    + rewrite internalTransfer_commit in H by done. by destruct H.
  - pose proof (GetBalance_quiet (ToAccountID req) token w1) as S2.
    destruct (bankzClient.GetBalance (ToAccountID req) token w1) as [[b|e] w2] eqn:Hgb;
      simpl in S2; [|by eapply quietStep_trans].
    destruct (Account.Balance fromAccount <? Amount req)%float eqn:Hb.
    { rewrite bankzTransfer_reject by done. by eapply quietStep_trans. }
    destruct (bankzClient.InitiateTransfer (Account.ID fromAccount) (ToAccountID req)
                token (Amount req) w2) as [[transactionID|e] w3] eqn:Hi.
    + rewrite (bankzTransfer_commit _ _ _ _ _ _ _ Hb Hi) in H. by destruct H.
    + rewrite (bankzTransfer_error _ _ _ _ _ _ _ Hb Hi).
      eapply quietStep_trans; [|by eapply InitiateTransfer_error_quiet].
      by eapply quietStep_trans.
Qed.

(** X10. A transfer request that is not answered 201 moves no money anywhere:
    the store is exactly as before, no partner balance has changed, and no
    UUID was drawn; only the token cache and the clock position may differ. *)
Theorem rejected_transfer_moves_no_money customerID body w :
  code (transferMoney customerID body w).1 ≠ http.StatusCreated →
  let w' := (transferMoney customerID body w).2 in
  wStore w' = wStore w
  ∧ bankz.accounts (wClient w') = bankz.accounts (wClient w)
  ∧ wUuidCalls w' = wUuidCalls w.
Proof.
  intros H. destruct (transferMoney_rejected_quiet _ _ _ H) as [[Hs _ _ Hu _ _ _] Ha].
  by repeat split.
Qed.

Lemma rejected_transfer_moves_no_money_witness :
  let w' := (transferMoney "c1" (Some (mkTransferRequest "b1" "bankz-acc-123" 10))
               exampleWorld).2 in
  wStore w' = exampleStore
  ∧ bankz.accounts (wClient w') = bankz.accounts bankz.NewMockClient
  ∧ wUuidCalls w' = 0%nat.
Proof.
  apply (rejected_transfer_moves_no_money "c1"
           (Some (mkTransferRequest "b1" "bankz-acc-123" 10)) exampleWorld).
  vm_compute. discriminate.
Defined.

Lemma transferMoney_codes customerID body w :
  credentialsOK (wClient w) →
  code (transferMoney customerID body w).1 ∈
    [http.StatusCreated; http.StatusBadRequest; http.StatusNotFound].
Proof.
  intros Hcred. destruct body as [req|]; [|set_solver].
  destruct (transferErrors req) as [|e l] eqn:Hv.
  2:{ unfold transferMoney. rewrite Hv. set_solver. }
  destruct (Store.customers (wStore w) !! customerID) as [c|] eqn:Hc.
  2:{ unfold transferMoney. rewrite Hv. simpl. unfold_store. rewrite Hc. set_solver. }
  destruct (GetToken_succeeds w Hcred) as (token & w1 & Hg).
  pose proof (GetToken_store w) as Hs. rewrite Hg in Hs. simpl in Hs.
  destruct (Store.accounts (wStore w) !! FromAccountID req) as [fromAccount|] eqn:Hf.
  2:{ unfold transferMoney. rewrite Hv. simpl. unfold_store. rewrite Hc, Hg, Hs, Hf.
      set_solver. }
  destruct (String.eqb_spec (Account.CustomerID fromAccount) customerID) as [Ho|Ho].
  2:{ unfold transferMoney. rewrite Hv. simpl. unfold_store. rewrite Hc, Hg, Hs, Hf.
      destruct (String.eqb_spec (Account.CustomerID fromAccount) customerID); [done|].
      set_solver. }
  rewrite (transferMoney_resolved _ _ _ _ _ _ _ Hv Hc Hg Hf Ho).
  destruct (Store.accounts (wStore w) !! ToAccountID req) as [toAccount|] eqn:Ht.
  - destruct (negb _); [set_solver|].
    destruct (Account.Balance fromAccount
              <? Amount req + feeOf fromAccount (Amount req))%float eqn:Hb.
    + rewrite internalTransfer_reject by done. set_solver.
    + rewrite internalTransfer_commit by done. set_solver.
  - destruct (bankzClient.GetBalance (ToAccountID req) token w1) as [[b|e] w2] eqn:Hgb;
      [|set_solver].
    destruct (Account.Balance fromAccount <? Amount req)%float eqn:Hb.
    { rewrite bankzTransfer_reject by done. set_solver. }
    destruct (bankzClient.InitiateTransfer (Account.ID fromAccount) (ToAccountID req)
                token (Amount req) w2) as [[transactionID|e] w3] eqn:Hi.
    + rewrite (bankzTransfer_commit _ _ _ _ _ _ _ Hb Hi). set_solver.
    + rewrite (bankzTransfer_error _ _ _ _ _ _ _ Hb Hi). set_solver.
Qed.

(** X11. With the credentials [NewMockClient] configures, authentication with
    Bank Z cannot fail: after any sequence of customer and transfer requests a
    transfer request is answered 201, 400 or 404, never 500. *)
Theorem transfer_never_fails_authentication reqs customerID body w :
  credentialsOK (wClient w) →
  let r := (transferMoney customerID body (serveAll reqs w)).1 in
  r ≠ authFailure
  ∧ (code r = http.StatusCreated ∨ code r = http.StatusBadRequest
     ∨ code r = http.StatusNotFound).
Proof.
  intros Hcred r.
  pose proof (transferMoney_codes customerID body _ (serveAll_credentialsOK reqs w Hcred))
    as H. fold r in H.
  rewrite !elem_of_cons, elem_of_nil in H.
  split; [|tauto]. intros E. rewrite E in H. simpl in H.
  destruct H as [H|[H|[H|[]]]]; discriminate H.
Qed.

Lemma transfer_never_fails_authentication_witness :
  (transferMoney "c1" (Some (mkTransferRequest "a1" "a2" 1))
     (serveAll [PostTransfers "c1" (Some (mkTransferRequest "a1" "bankz-acc-123" 3))]
        jumpingWorld)).1 ≠ authFailure.
Proof.
  apply (transfer_never_fails_authentication
           [PostTransfers "c1" (Some (mkTransferRequest "a1" "bankz-acc-123" 3))]
           "c1" (Some (mkTransferRequest "a1" "a2" 1)) jumpingWorld
           NewMockClient_credentialsOK).
Defined.

Module F64More.
Import SpecFloat F64.

Lemma add_zero_r (a : float) : (a <=? 0)%float = false → (a + 0)%float = a.
Proof.
  intros Hle. apply Prim2SF_inj. rewrite FloatAxioms.add_spec.
  rewrite FloatAxioms.leb_spec in Hle.
  change (Prim2SF 0) with (S754_zero false) in *.
  destruct (Prim2SF a) as [s|s| |s m e]; try done.
Qed.

Lemma SFcompare_refl x : notNan x = true → SFcompare x x = Some Eq.
Proof.
  destruct x as [s|s| |s m e]; simpl; try done.
  - by destruct s.
  - rewrite Z.compare_refl.
    change (Pos.compare_cont Eq m m) with (m ?= m)%positive.
    rewrite Pos.compare_refl. by destruct s.
Qed.

Lemma ltb_irrefl (x : float) : (x <? x)%float = false.
Proof.
  rewrite FloatAxioms.ltb_spec. unfold SFltb.
  destruct (notNan (Prim2SF x)) eqn:Hn.
  - by rewrite SFcompare_refl.
  - by destruct (Prim2SF x).
Qed.

Lemma sub_self (x : float) : is_finite x = true → (x - x)%float = 0%float.
Proof.
  intros Hf. apply F64Facts.is_finite_SF in Hf. apply Prim2SF_inj.
  rewrite FloatAxioms.sub_spec. change (Prim2SF 0) with (S754_zero false).
  destruct (Prim2SF x) as [s|s| |s m e]; try done.
  - by destruct s.
  - unfold SF64sub, SFsub. by rewrite Z.sub_diag.
Qed.

Lemma positive_of_not_le (a : float) :
  (a <=? 0)%float = false → is_nan a = false → (0 <? a)%float = true.
Proof.
  unfold is_nan. rewrite FloatAxioms.leb_spec, FloatAxioms.ltb_spec, FloatAxioms.eqb_spec.
  change (Prim2SF 0) with (S754_zero false).
  destruct (Prim2SF a) as [s|s| |s m e]; try done; by destruct s.
Qed.
End F64More.

Lemma feeOf_not_current fromAccount amount :
  Account.Type_ fromAccount ≠ "current" → feeOf fromAccount amount = 0%float.
Proof. intros H. unfold feeOf. by destruct (String.eqb_spec (Account.Type_ fromAccount) "current"). Qed.

Lemma interestOf_not_savings toAccount amount :
  Account.Type_ toAccount ≠ "savings" → interestOf toAccount amount = 0%float.
Proof.
  intros H. unfold interestOf.
  by destruct (String.eqb_spec (Account.Type_ toAccount) "savings").
Qed.

(** X12. A committed Bank Z transfer debits the source account by the amount
    alone (no fee, whatever the kind of the account), changes no other local
    account and no customer, credits the partner account by the amount, and
    records one "bankz_transfer" transaction under the ID the gateway
    returned, which is also the ID in the answer. *)
Theorem bankz_transfer_commit
    customerID req w c fromAccount token w1 b w2 transactionID w3 :
  Store.keyed (wStore w) →
  transferErrors req = [] →
  Store.customers (wStore w) !! customerID = Some c →
  Store.accounts (wStore w) !! FromAccountID req = Some fromAccount →
  Account.CustomerID fromAccount = customerID →
  Store.accounts (wStore w) !! ToAccountID req = None →
  bankzClient.GetToken w = (inl token, w1) →
  bankzClient.GetBalance (ToAccountID req) token w1 = (inl b, w2) →
  (Account.Balance fromAccount <? Amount req)%float = false →
  bankzClient.InitiateTransfer (Account.ID fromAccount) (ToAccountID req) token
    (Amount req) w2 = (inl transactionID, w3) →
  let r := transferMoney customerID (Some req) w in
  let src := FromAccountID req in
  r.1 = JSON http.StatusCreated (TransferDone transactionID "success")
  ∧ Store.accounts (wStore r.2)
    = <[src := Account.withBalance fromAccount
                 (Account.Balance fromAccount - Amount req)%float]>
        (Store.accounts (wStore w))
  ∧ Store.customers (wStore r.2) = Store.customers (wStore w)
  ∧ (∃ now, Store.transactions (wStore r.2)
            = <[transactionID :=
                  Transaction.mk transactionID src customerID "bankz_transfer" (Amount req)
                    src (ToAccountID req) now]> (Store.transactions (wStore w)))
  ∧ bankz.accounts (wClient r.2)
    = <[ToAccountID req := bankz.mkMockAccount (ToAccountID req) (b + Amount req)%float]>
        (bankz.accounts (wClient w)).
Proof.
  intros Hk Hv Hc Hf Ho Ht Hg Hgb Hb Hi r src. subst r.
  assert (Account.ID fromAccount = src) as If by (by apply Hk in Hf).
  rewrite (transferMoney_resolved _ _ _ _ _ _ _ Hv Hc Hg Hf Ho), Ht, Hgb.
  rewrite (bankzTransfer_commit _ _ _ _ _ _ _ Hb Hi).
  pose proof (GetToken_quiet w) as Q1. rewrite Hg in Q1.
  pose proof (GetBalance_quiet (ToAccountID req) token w1) as Q2. rewrite Hgb in Q2.
  destruct (quietStep_trans _ _ _ Q1 Q2) as [[Hs2 _ _ _ _ _ _] Ha2]. simpl in Hs2, Ha2.
  pose proof (gs_store _ _ (InitiateTransfer_step (Account.ID fromAccount)
                (ToAccountID req) token (Amount req) w2)) as Hs3.
  rewrite Hi in Hs3. simpl in Hs3.
  unfold tick, withStore, bankzWrites, Store.run. simpl.
  rewrite If, Hs3, Hs2. split; [done|]. split; [done|]. split; [done|].
  split; [by eexists|].
  destruct (InitiateTransfer_cases (Account.ID fromAccount) (ToAccountID req) token
              (Amount req) w2) as [(e & He & _)|(t & account & _ & _ & _ & _ & Hacc & Hr)].
  { rewrite Hi in He. discriminate He. }
  rewrite Hi in Hr. injection Hr as _ ->. simpl. rewrite Ha2. do 3 f_equal.
  revert Hgb. unfold bankzClient.GetBalance, mbind, M_bind.
  destruct (bankzClient.validateToken token w1) as [[err|] w1'] eqn:Hvt; [discriminate|].
  apply validateToken_ok in Hvt as ->.
  unfold readClient, tick, mbind, M_bind, ret, mret, M_ret. simpl.
  pose proof (qs_accounts _ _ Q2) as Ha12. simpl in Ha12. rewrite Ha12 in Hacc.
  rewrite Hacc. intros E. by injection E as <- _.
Qed.

Lemma bankz_transfer_commit_witness :
  let r := transferMoney "c1" (Some (mkTransferRequest "a1" "bankz-acc-456" 10)) exampleWorld in
  r.1 = JSON http.StatusCreated (TransferDone "bankz-tx-1004" "success")
  ∧ Store.accounts (wStore r.2) !! "a1" = Some (Account.mk "a1" "c1" "current" 990 0)
  ∧ bankz.accounts (wClient r.2) !! "bankz-acc-456"
    = Some (bankz.mkMockAccount "bankz-acc-456" 510).
Proof.
  pose (g := bankzClient.GetToken exampleWorld).
  pose (gb := bankzClient.GetBalance "bankz-acc-456" "token-1000" g.2).
  pose (it := bankzClient.InitiateTransfer "a1" "bankz-acc-456" "token-1000" 10 gb.2).
  destruct (bankz_transfer_commit "c1" (mkTransferRequest "a1" "bankz-acc-456" 10)
              exampleWorld (Customer.mk "c1" "Jane Doe" "jane@example.com")
              (Account.mk "a1" "c1" "current" 1000 0)
              "token-1000" g.2 500%float gb.2 "bankz-tx-1004" it.2 exampleStore_keyed)
    as (H1 & H2 & _ & _ & H3); try (vm_compute; reflexivity).
  cbv zeta. rewrite H1, H2, H3. repeat split; vm_compute; reflexivity.
Defined.

(** ** Internal transfers: the plain path, the boundary, the records *)

(** X13. An internal transfer from an account that is not "current" to one
    that is not "savings" charges nothing and pays nothing: when the source
    balance is not below the amount it is accepted, the source balance drops
    by the amount, the destination balance grows by the amount, and a single
    "transfer" record is stored, under the first UUID drawn. *)
Theorem plain_transfer_moves_the_amount customerID req w c fromAccount toAccount :
  Store.keyed (wStore w) →
  credentialsOK (wClient w) →
  transferErrors req = [] →
  Store.customers (wStore w) !! customerID = Some c →
  Store.accounts (wStore w) !! FromAccountID req = Some fromAccount →
  Account.CustomerID fromAccount = customerID →
  Account.Type_ fromAccount ≠ "current" →
  Store.accounts (wStore w) !! ToAccountID req = Some toAccount →
  Account.CustomerID toAccount = customerID →
  Account.Type_ toAccount ≠ "savings" →
  (Account.Balance fromAccount <? Amount req)%float = false →
  let r := transferMoney customerID (Some req) w in
  let src := FromAccountID req in
  let dst := ToAccountID req in
  let id := wUuid w (wUuidCalls w) in
  r.1 = JSON http.StatusCreated (TransferDone id "success")
  ∧ Store.accounts (wStore r.2) !! src
    = Some (Account.withBalance fromAccount (Account.Balance fromAccount - Amount req)%float)
  ∧ Store.accounts (wStore r.2) !! dst
    = Some (Account.withBalance toAccount (Account.Balance toAccount + Amount req)%float)
  ∧ ∃ now, Store.transactions (wStore r.2)
           = <[id := Transaction.mk id src customerID "transfer" (Amount req) src dst now]>
               (Store.transactions (wStore w)).
Proof.
  intros Hk Hcred Hv Hc Hf Hfo Hft Ht Hto Htt Hb r src dst id. subst r.
  destruct (GetToken_succeeds w Hcred) as (token & w1 & Hg).
  pose proof (GetToken_step w) as Hs. rewrite Hg in Hs.
  destruct Hs as [Hs _ Hu Huc _ _ _]. simpl in Hs, Hu, Huc.
  assert (Account.ID fromAccount = src) as If by (by apply Hk in Hf).
  assert (Account.ID toAccount = dst) as It by (by apply Hk in Ht).
  destruct (transferErrors_nil _ Hv) as (_ & _ & Hpos & Hne).
  pose proof (feeOf_not_current fromAccount (Amount req) Hft) as Hfee.
  pose proof (interestOf_not_savings toAccount (Amount req) Htt) as Hint.
  pose proof (F64More.add_zero_r _ Hpos) as Hz.
  rewrite (transferMoney_resolved _ _ _ _ _ _ _ Hv Hc Hg Hf Hfo), Ht, Hto.
  rewrite String.eqb_refl. simpl negb. cbv iota.
  rewrite internalTransfer_commit by (by rewrite Hfee, Hz).
  unfold drawn, tick, withStore. cbn [fst snd code wStore].
  rewrite internalWrites_accounts, internalWrites_transactions.
  rewrite Hfee, Hint, Hz, If, It, Hs, Hu, Huc. cbv zeta.
  change (0 <? 0)%float with false. cbv iota.
  split; [done|]. split; [by rewrite lookup_insert_ne, lookup_insert_eq|].
  split; [by rewrite lookup_insert_eq|]. by eexists.
Qed.

Lemma plain_transfer_moves_the_amount_witness :
  let r := transferMoney "c1" (Some (mkTransferRequest "a2" "a1" 100)) exampleWorld in
  r.1 = JSON http.StatusCreated (TransferDone "u0" "success")
  ∧ Store.accounts (wStore r.2) !! "a2" = Some (Account.mk "a2" "c1" "savings" 400 0)
  ∧ Store.accounts (wStore r.2) !! "a1" = Some (Account.mk "a1" "c1" "current" 1100 0)
  ∧ size (Store.transactions (wStore r.2)) = 1%nat.
Proof.
  destruct (plain_transfer_moves_the_amount "c1" (mkTransferRequest "a2" "a1" 100)
              exampleWorld (Customer.mk "c1" "Jane Doe" "jane@example.com")
              (Account.mk "a2" "c1" "savings" 500 0) (Account.mk "a1" "c1" "current" 1000 0)
              exampleStore_keyed NewMockClient_credentialsOK)
    as (H1 & H2 & H3 & now & H4); try (vm_compute; reflexivity); try discriminate.
  cbv zeta. split; [exact H1|]. split; [exact H2|]. split; [exact H3|].
  rewrite H4. reflexivity.
Defined.

(** X14. The boundary of the funds check: a request whose amount plus fee is
    exactly the (finite) source balance is accepted, and leaves the source
    account at zero. *)
Theorem transfer_of_whole_balance customerID req w c fromAccount toAccount :
  Store.keyed (wStore w) →
  credentialsOK (wClient w) →
  transferErrors req = [] →
  Store.customers (wStore w) !! customerID = Some c →
  Store.accounts (wStore w) !! FromAccountID req = Some fromAccount →
  Account.CustomerID fromAccount = customerID →
  Store.accounts (wStore w) !! ToAccountID req = Some toAccount →
  Account.CustomerID toAccount = customerID →
  is_finite (Account.Balance fromAccount) = true →
  Account.Balance fromAccount = (Amount req + feeOf fromAccount (Amount req))%float →
  let r := transferMoney customerID (Some req) w in
  code r.1 = http.StatusCreated
  ∧ Store.accounts (wStore r.2) !! FromAccountID req
    = Some (Account.withBalance fromAccount 0).
Proof.
  intros Hk Hcred Hv Hc Hf Hfo Ht Hto Hfin Hbal r. subst r.
  destruct (GetToken_succeeds w Hcred) as (token & w1 & Hg).
  pose proof (GetToken_store w) as Hs. rewrite Hg in Hs. simpl in Hs.
  assert (Account.ID fromAccount = FromAccountID req) as If by (by apply Hk in Hf).
  assert (Account.ID toAccount = ToAccountID req) as It by (by apply Hk in Ht).
  destruct (transferErrors_nil _ Hv) as (_ & _ & _ & Hne).
  rewrite (transferMoney_resolved _ _ _ _ _ _ _ Hv Hc Hg Hf Hfo), Ht, Hto.
  rewrite String.eqb_refl. simpl negb. cbv iota.
  rewrite internalTransfer_commit by (rewrite <- Hbal; apply F64More.ltb_irrefl).
  unfold drawn, tick, withStore. cbn [fst snd code wStore].
  rewrite internalWrites_accounts, If, It, Hs. split; [done|].
  rewrite lookup_insert_ne, lookup_insert_eq by done.
  by rewrite <- Hbal, F64More.sub_self.
Qed.

Lemma transfer_of_whole_balance_witness :
  let r := transferMoney "c1" (Some (mkTransferRequest "a2" "a1" 500)) exampleWorld in
  code r.1 = http.StatusCreated
  ∧ Store.accounts (wStore r.2) !! "a2" = Some (Account.mk "a2" "c1" "savings" 0 0).
Proof.
  apply (transfer_of_whole_balance "c1" (mkTransferRequest "a2" "a1" 500)
           exampleWorld (Customer.mk "c1" "Jane Doe" "jane@example.com")
           (Account.mk "a2" "c1" "savings" 500 0) (Account.mk "a1" "c1" "current" 1000 0)
           exampleStore_keyed NewMockClient_credentialsOK);
    vm_compute; reflexivity.
Defined.

(** X15. No handler records a transaction with an amount that is zero or
    negative: every record in the store after a customer or transfer request
    (whose amount, if any, is a number) either was there before or has a
    positive amount.  In particular a fee or interest that rounds to zero is
    not recorded. *)
Theorem recorded_amounts_are_positive (r : Request) w id t :
  (∀ customerID req, r = PostTransfers customerID (Some req) → is_nan (Amount req) = false) →
  Store.transactions (wStore (serve r w).2) !! id = Some t →
  Store.transactions (wStore w) !! id = Some t ∨ (0 <? Transaction.Amount t)%float = true.
Proof.
  intros Hnan. destruct r as [body|customerID body]; simpl.
  - destruct body as [req|]; [|by left].
    unfold createCustomer. destruct (customerErrors req) as [|e l]; [|by left].
    destruct w as [s c clk n u k]. simpl.
    rewrite lookup_insert_Some. intros [[_ <-]|[_ H]]; [by right|by left].
  - destruct (decide (code (transferMoney customerID body w).1 = http.StatusCreated))
      as [H|H].
    2:{ pose proof (transferMoney_rejected _ _ _ H) as [Hs _ _ _ _ _ _]. rewrite Hs. by left. }
    destruct body as [req|]; [|discriminate H].
    specialize (Hnan customerID req eq_refl).
    destruct (transferMoney_created _ _ _ H)
      as (Hv & c & token & w1 & fa & Hc & Hg & Hf & Ho & Hcase).
    destruct (transferErrors_nil _ Hv) as (_ & _ & Hpos & _).
    pose proof (F64More.positive_of_not_le _ Hpos Hnan) as Hamt.
    pose proof (GetToken_store w) as Hs1. rewrite Hg in Hs1. simpl in Hs1.
    rewrite (transferMoney_resolved _ _ _ _ _ _ _ Hv Hc Hg Hf Ho).
    destruct Hcase as [(ta & Ht & Hto & Hb)|(Ht & b & w2 & tx & w3 & Hgb & Hb & Hi)].
    + rewrite Ht, Hto, String.eqb_refl. simpl negb. cbv iota.
      rewrite internalTransfer_commit by exact Hb.
      unfold drawn, tick, withStore. cbn [fst snd code wStore].
      rewrite internalWrites_transactions, Hs1. cbv zeta.
      destruct (0 <? feeOf fa (Amount req))%float eqn:Hfee,
               (0 <? interestOf ta (Amount req))%float eqn:Hint;
        rewrite ?lookup_insert_Some; intros Hin;
        repeat match goal with
               | H : _ ∨ _ |- _ => destruct H as [H|H]
               | H : _ ∧ _ |- _ => destruct H as [? H]
               end; subst; simpl; auto.
    + rewrite Ht, Hgb, (bankzTransfer_commit _ _ _ _ _ _ _ Hb Hi).
      pose proof (gs_store _ _ (GetBalance_step (ToAccountID req) token w1)) as Hs2.
      rewrite Hgb in Hs2.
      pose proof (gs_store _ _ (InitiateTransfer_step (Account.ID fa) (ToAccountID req)
                    token (Amount req) w2)) as Hs3.
      rewrite Hi in Hs3. simpl in Hs2, Hs3.
      unfold tick, withStore, bankzWrites, Store.run. simpl.
      rewrite Hs3, Hs2, Hs1, lookup_insert_Some.
      intros [[_ <-]|[_ Hin]]; [by right|by left].
Qed.

Lemma recorded_amounts_are_positive_witness :
  let w' := (serve (PostTransfers "c1" (Some (mkTransferRequest "a1" "a2" 200))) exampleWorld).2 in
  (0 <? 0.1)%float = true
  ∧ Store.transactions (wStore w') !! "u1"
    = Some (Transaction.mk "u1" "a1" "c1" "fee" 0.1 "" "" 1002).
Proof.
  cbv zeta.
  assert (Store.transactions
            (wStore (serve (PostTransfers "c1" (Some (mkTransferRequest "a1" "a2" 200)))
                       exampleWorld).2) !! "u1"
          = Some (Transaction.mk "u1" "a1" "c1" "fee" 0.1 "" "" 1002)) as H
    by (vm_compute; reflexivity).
  split; [|exact H].
  assert (∀ customerID req,
            PostTransfers "c1" (Some (mkTransferRequest "a1" "a2" 200))
            = PostTransfers customerID (Some req) → is_nan (Amount req) = false) as Hn.
  { intros customerID req E. injection E as _ <-. reflexivity. }
  destruct (recorded_amounts_are_positive _ _ _ _ Hn H) as [H0|H0];
    [discriminate H0|exact H0].
Defined.

(** ** Invariants of the store under the handlers *)

Lemma is_Some_insert {A} (m : gmap string A) i j x :
  is_Some (m !! j) → is_Some (<[i := x]> m !! j).
Proof.
  intros H. destruct (decide (i = j)) as [->|Hne].
  - rewrite lookup_insert_eq. eauto.
  - by rewrite lookup_insert_ne.
Qed.

Lemma apply_consistent o s : consistent s → refersToStored s o → consistent (Store.apply o s).
Proof.
  intros [Hc Ha Ht Ho Hp] Hr. destruct o as [c|a|a|t]; simpl in *.
  - constructor; simpl; try done.
    + by apply map_Forall_insert_2.
    + eapply map_Forall_impl; [exact Ho|]. intros k a H. by apply is_Some_insert.
  - constructor; simpl; try done.
    + by apply map_Forall_insert_2.
    + by apply map_Forall_insert_2.
    + eapply map_Forall_impl; [exact Hp|]. intros k t H. by apply is_Some_insert.
  - constructor; simpl; try done.
    + by apply map_Forall_insert_2.
    + by apply map_Forall_insert_2.
    + eapply map_Forall_impl; [exact Hp|]. intros k t H. by apply is_Some_insert.
  - constructor; simpl; try done.
    + by apply map_Forall_insert_2.
    + by apply map_Forall_insert_2.
Qed.

Lemma run_consistent l s : consistent s → writesReferToStored s l → consistent (Store.run l s).
Proof.
  revert s. induction l as [|o l IH]; intros s Hs Hl; [done|].
  destruct Hl as [Ho Hl]. unfold Store.run in *. simpl.
  apply IH; [by apply apply_consistent|done].
Qed.

Lemma createCustomer_consistent body w :
  consistent (wStore w) → consistent (wStore (createCustomer body w).2).
Proof.
  intros Hs. destruct body as [req|]; [|done].
  unfold createCustomer. destruct (customerErrors req) as [|e l]; [|done].
  destruct w as [s c clk n u k]. simpl in *.
  apply (run_consistent (onboardingWrites req (clk n) u k)); [done|].
  unfold onboardingWrites. simpl. repeat split.
  - rewrite lookup_insert_eq. eauto.
  - rewrite lookup_insert_eq. eauto.
  - rewrite lookup_insert_eq. eauto.
Qed.

Lemma internalWrites_refer customerID req fromAccount toAccount now u k s :
  consistent s →
  Store.accounts s !! Account.ID fromAccount = Some fromAccount →
  Store.accounts s !! Account.ID toAccount = Some toAccount →
  writesReferToStored s (internalWrites customerID req fromAccount toAccount now u k).
Proof.
  intros [_ _ _ Ho _] Hf Ht. unfold internalWrites.
  pose proof (Ho _ _ Hf) as Hof. pose proof (Ho _ _ Ht) as Hot. simpl in Hof, Hot.
  assert (∀ (m : gmap string Account.t) x y, is_Some (<[Account.ID toAccount := x]>
            (<[Account.ID fromAccount := y]> m) !! Account.ID fromAccount)) as H1.
  { intros m x y. apply is_Some_insert. rewrite lookup_insert_eq. eauto. }
  assert (∀ (m : gmap string Account.t) x, is_Some (<[Account.ID toAccount := x]> m
            !! Account.ID toAccount)) as H2.
  { intros m x. rewrite lookup_insert_eq. eauto. }
  destruct (0 <? feeOf _ _)%float, (0 <? interestOf _ _)%float; simpl; repeat split; auto.
Qed.

Lemma transferMoney_consistent customerID body w :
  consistent (wStore w) → consistent (wStore (transferMoney customerID body w).2).
Proof.
  intros Hs.
  destruct (decide (code (transferMoney customerID body w).1 = http.StatusCreated)) as [H|H].
  2:{ pose proof (transferMoney_rejected _ _ _ H) as [E _ _ _ _ _ _]. by rewrite E. }
  destruct body as [req|]; [|discriminate H].
  destruct (transferMoney_created _ _ _ H)
    as (Hv & c & token & w1 & fa & Hc & Hg & Hf & Ho & Hcase).
  pose proof (GetToken_store w) as Hs1. rewrite Hg in Hs1. simpl in Hs1.
  assert (Account.ID fa = FromAccountID req) as If by (by apply (cs_accounts _ Hs) in Hf).
  rewrite (transferMoney_resolved _ _ _ _ _ _ _ Hv Hc Hg Hf Ho).
  destruct Hcase as [(ta & Ht & Hto & Hb)|(Ht & b & w2 & tx & w3 & Hgb & Hb & Hi)].
  - rewrite Ht, Hto, String.eqb_refl. simpl negb. cbv iota.
    assert (Account.ID ta = ToAccountID req) as It by (by apply (cs_accounts _ Hs) in Ht).
    rewrite internalTransfer_commit by exact Hb.
    unfold drawn, tick, withStore. cbn [fst snd code wStore]. rewrite Hs1.
    apply run_consistent; [done|].
    apply internalWrites_refer; [done|by rewrite If|by rewrite It].
  - rewrite Ht, Hgb, (bankzTransfer_commit _ _ _ _ _ _ _ Hb Hi).
    pose proof (gs_store _ _ (GetBalance_step (ToAccountID req) token w1)) as Hs2.
    rewrite Hgb in Hs2.
    pose proof (gs_store _ _ (InitiateTransfer_step (Account.ID fa) (ToAccountID req)
                  token (Amount req) w2)) as Hs3.
    rewrite Hi in Hs3. simpl in Hs2, Hs3.
    unfold tick, withStore. cbn [fst snd code wStore]. rewrite Hs3, Hs2, Hs1.
    apply run_consistent; [done|].
    unfold bankzWrites. simpl. split; [|split; [|done]].
    + apply (cs_owner _ Hs) in Hf. exact Hf.
    + rewrite lookup_insert_eq. eauto.
Qed.

(** X16. The store stays consistent under every sequence of customer and
    transfer requests: every customer, account and transaction is filed under
    its own ID, every account's owner is a stored customer and every
    transaction is posted against a stored account.  The empty store is
    consistent, so this holds in every state the server reaches. *)
Theorem store_stays_consistent reqs w :
  consistent (wStore w) → consistent (wStore (serveAll reqs w)).
Proof.
  revert w. induction reqs as [|r reqs IH]; intros w Hs; [done|].
  unfold serveAll in *. simpl. apply IH.
  destruct r; [by apply createCustomer_consistent|by apply transferMoney_consistent].
Qed.

Lemma empty_consistent : consistent Store.empty.
Proof. constructor; apply map_Forall_empty. Qed.

Lemma store_stays_consistent_witness :
  consistent
    (wStore (serveAll [PostCustomers (Some (mkCustomerRequest "Jane Doe" "jane@example.com"));
                       PostTransfers "u0" (Some (mkTransferRequest "u2" "u1" 100));
                       PostTransfers "u0" (Some (mkTransferRequest "u1" "bankz-acc-123" 40))]
               (withStore Store.empty exampleWorld))).
Proof. apply store_stays_consistent, empty_consistent. Defined.

Lemma withBalance_same a : Account.withBalance a (Account.Balance a) = a.
Proof. by destruct a. Qed.

Lemma withBalance_twice a b b' :
  Account.withBalance (Account.withBalance a b) b' = Account.withBalance a b'.
Proof. by destruct a. Qed.

Lemma serve_served r w : served w (serve r w).2.
Proof. destruct r; [apply createCustomer_served|apply transferMoney_served]. Qed.

Lemma serve_account_identity r w id a :
  Store.keyed (wStore w) →
  Store.accounts (wStore w) !! id = Some a →
  (∀ k, (wUuidCalls w ≤ k < wUuidCalls (serve r w).2)%nat → wUuid w k ≠ id) →
  ∃ b, Store.accounts (wStore (serve r w).2) !! id = Some (Account.withBalance a b).
Proof.
  intros Hk Ha Hfresh. destruct r as [body|customerID body]; simpl in *.
  - destruct body as [req|]; [|exists (Account.Balance a); by rewrite withBalance_same].
    revert Hfresh. unfold createCustomer.
    destruct (customerErrors req) as [|e l];
      [|intros _; exists (Account.Balance a); by rewrite withBalance_same].
    destruct w as [s c clk n u k]. simpl in *. intros Hfresh.
    exists (Account.Balance a). rewrite withBalance_same.
    rewrite !lookup_insert_ne; [done| |].
    + apply (Hfresh (S k)). lia.
    + apply (Hfresh (S (S k))). lia.
  - clear Hfresh.
    destruct (decide (code (transferMoney customerID body w).1 = http.StatusCreated))
      as [H|H].
    2:{ pose proof (transferMoney_rejected _ _ _ H) as [E _ _ _ _ _ _]. rewrite E.
        exists (Account.Balance a). by rewrite withBalance_same. }
    destruct body as [req|]; [|discriminate H].
    destruct (transferMoney_created _ _ _ H)
      as (Hv & c & token & w1 & fa & Hc & Hg & Hf & Ho & Hcase).
    pose proof (GetToken_store w) as Hs1. rewrite Hg in Hs1. simpl in Hs1.
    assert (Account.ID fa = FromAccountID req) as If by (by apply Hk in Hf).
    rewrite (transferMoney_resolved _ _ _ _ _ _ _ Hv Hc Hg Hf Ho).
    destruct Hcase as [(ta & Ht & Hto & Hb)|(Ht & b & w2 & tx & w3 & Hgb & Hb & Hi)].
    + rewrite Ht, Hto, String.eqb_refl. simpl negb. cbv iota.
      assert (Account.ID ta = ToAccountID req) as It by (by apply Hk in Ht).
      rewrite internalTransfer_commit by exact Hb.
      unfold drawn, tick, withStore. cbn [fst snd code wStore].
      rewrite internalWrites_accounts, If, It, Hs1.
      destruct (decide (ToAccountID req = id)) as [<-|Hne1].
      { rewrite lookup_insert_eq. rewrite Ht in Ha. injection Ha as <-. by eexists. }
      rewrite lookup_insert_ne by done.
      destruct (decide (FromAccountID req = id)) as [<-|Hne2].
      { rewrite lookup_insert_eq. rewrite Hf in Ha. injection Ha as <-. by eexists. }
      rewrite lookup_insert_ne by done.
      exists (Account.Balance a). by rewrite withBalance_same.
    + rewrite Ht, Hgb, (bankzTransfer_commit _ _ _ _ _ _ _ Hb Hi).
      pose proof (gs_store _ _ (GetBalance_step (ToAccountID req) token w1)) as Hs2.
      rewrite Hgb in Hs2.
      pose proof (gs_store _ _ (InitiateTransfer_step (Account.ID fa) (ToAccountID req)
                    token (Amount req) w2)) as Hs3.
      rewrite Hi in Hs3. simpl in Hs2, Hs3.
      unfold tick, withStore, bankzWrites, Store.run. simpl. rewrite Hs3, Hs2, Hs1, If.
      destruct (decide (FromAccountID req = id)) as [<-|Hne2].
      { rewrite lookup_insert_eq. rewrite Hf in Ha. injection Ha as <-. by eexists. }
      rewrite lookup_insert_ne by done.
      exists (Account.Balance a). by rewrite withBalance_same.
Qed.

(** X17. An account keeps its identity for life: after any sequence of
    customer and transfer requests an account that was stored is still stored
    under the same key with the same ID, owner, kind and creation time; at
    most its balance differs.  The one proviso is that [uuid.New()] does not
    hand out that account's ID again in between. *)
Theorem account_identity_is_stable reqs w id a :
  Store.keyed (wStore w) →
  Store.accounts (wStore w) !! id = Some a →
  (∀ k, (wUuidCalls w ≤ k < wUuidCalls (serveAll reqs w))%nat → wUuid w k ≠ id) →
  ∃ b, Store.accounts (wStore (serveAll reqs w)) !! id = Some (Account.withBalance a b).
Proof.
  revert w a. induction reqs as [|r reqs IH]; intros w a Hk Ha Hfresh.
  { exists (Account.Balance a). by rewrite withBalance_same. }
  unfold serveAll in *. simpl in *.
  pose proof (serve_served r w) as [_ Hu _ Hc1 _ _ (l & Hl & _)].
  pose proof (serveAll_served reqs (serve r w).2) as [_ _ _ Hc2 _ _ _].
  unfold serveAll in Hc2.
  destruct (serve_account_identity r w id a Hk Ha) as (b & Hb).
  { intros k Hk'. apply Hfresh. lia. }
  destruct (IH (serve r w).2 (Account.withBalance a b)) as (b' & Hb').
  - rewrite Hl. by apply run_keyed.
  - exact Hb.
  - intros k Hk'. rewrite Hu. apply Hfresh. lia.
  - exists b'. by rewrite Hb', withBalance_twice.
Qed.

Lemma account_identity_is_stable_witness :
  ∃ b, Store.accounts
         (wStore (serveAll [PostTransfers "c1" (Some (mkTransferRequest "a1" "a2" 200));
                            PostCustomers (Some (mkCustomerRequest "Ann" "ann@example.org"))]
                    exampleWorld)) !! "a2"
       = Some (Account.mk "a2" "c1" "savings" b 0).
Proof.
  destruct (account_identity_is_stable
              [PostTransfers "c1" (Some (mkTransferRequest "a1" "a2" 200));
               PostCustomers (Some (mkCustomerRequest "Ann" "ann@example.org"))]
              exampleWorld "a2" (Account.mk "a2" "c1" "savings" 500 0) exampleStore_keyed
              eq_refl) as (b & Hb).
  - intros k Hk. vm_compute in Hk. destruct Hk as [_ Hk].
    do 7 (destruct k as [|k]; [discriminate|]). lia.
  - by exists b.
Defined.

(** ** The GET handlers *)

Lemma collectBalances_quiet ids token balances w :
  quietStep w (collectBalances ids token balances w).2.
Proof.
  revert balances w. induction ids as [|id ids IH]; intros balances w; simpl.
  - apply quietStep_refl.
  - unfold mbind, M_bind. pose proof (GetBalance_quiet id token w) as Q.
    destruct (bankzClient.GetBalance id token w) as [[b|e] w1]; simpl in Q;
      (eapply quietStep_trans; [exact Q|apply IH]).
Qed.

(** X18. The GET handlers write nothing.  [getCustomerAccounts] and
    [getCustomerTransactions] leave the whole world as it was;
    [getBankZBalances] leaves the store and every partner balance as they
    were and draws no UUID (it may mint a token and read the clock). *)
Theorem get_handlers_write_nothing customerID w :
  (∀ keys, (getCustomerAccounts customerID keys w).2 = w)
  ∧ (∀ RFC3339 accountID transactionType accountKeys transactionKeys,
       (getCustomerTransactions RFC3339 customerID accountID transactionType
          accountKeys transactionKeys w).2 = w)
  ∧ wStore (getBankZBalances customerID w).2 = wStore w
  ∧ bankz.accounts (wClient (getBankZBalances customerID w).2) = bankz.accounts (wClient w)
  ∧ wUuidCalls (getBankZBalances customerID w).2 = wUuidCalls w.
Proof.
  split; [|split].
  - intros keys. unfold getCustomerAccounts. unfold_store.
    destruct (Store.customers (wStore w) !! customerID); [|done].
    by destruct (length _ =? 0)%nat.
  - intros. unfold getCustomerTransactions. unfold_store.
    destruct (Store.customers (wStore w) !! customerID); [|done].
    by destruct (length _ =? 0)%nat.
  - assert (quietStep w (getBankZBalances customerID w).2) as [[Hs _ _ Hu _ _ _] Ha];
      [|done].
    unfold getBankZBalances. unfold_store.
    destruct (Store.customers (wStore w) !! customerID); [|apply quietStep_refl].
    pose proof (GetToken_quiet w) as Q1.
    destruct (bankzClient.GetToken w) as [[token|e] w1]; simpl in Q1; [|done].
    pose proof (collectBalances_quiet linkedAccountIDs token [] w1) as Q2.
    destruct (collectBalances linkedAccountIDs token [] w1) as [balances w2].
    by eapply quietStep_trans.
Qed.

(** X19. [getCustomerAccounts] answers 404 "Customer not found" for an unknown
    customer, 404 "No accounts found for customer" for a customer who owns no
    account, and otherwise 200 with exactly the accounts the customer owns (in
    the order of the traversal). *)
Theorem getCustomerAccounts_outcome customerID keys w :
  traversal (Store.accounts (wStore w)) keys →
  let r := (getCustomerAccounts customerID keys w).1 in
  let owned a := ∃ k, Store.accounts (wStore w) !! k = Some a
                      ∧ Account.CustomerID a = customerID in
  (Store.customers (wStore w) !! customerID = None →
   r = ReadJSON http.StatusNotFound (R_error "Customer not found"))
  ∧ (is_Some (Store.customers (wStore w) !! customerID) →
     (∀ a, ¬ owned a) →
     r = ReadJSON http.StatusNotFound (R_error "No accounts found for customer"))
  ∧ (is_Some (Store.customers (wStore w) !! customerID) →
     (∃ a, owned a) →
     ∃ l, r = ReadJSON http.StatusOK (R_accounts customerID l) ∧ ∀ a, a ∈ l ↔ owned a).
Proof.
  intros Hk r owned. subst r. unfold getCustomerAccounts. unfold_store.
  split; [by intros ->|]. split.
  - intros [c ->] Hnone.
    destruct (GetAccountsByCustomerID customerID keys (wStore w)) as [|a l] eqn:E; [done|].
    destruct (Hnone a). apply (GetAccountsByCustomerID_elem customerID keys); [done|].
    rewrite E. by left.
  - intros [c ->] [a Ha].
    apply (GetAccountsByCustomerID_elem customerID keys _ _ Hk) in Ha.
    destruct (GetAccountsByCustomerID customerID keys (wStore w)) as [|a' l] eqn:E.
    { by apply elem_of_nil in Ha. }
    simpl. eexists. split; [reflexivity|].
    intros a0. rewrite <- E. by apply GetAccountsByCustomerID_elem.
Qed.

Lemma getCustomerAccounts_outcome_witness :
  (getCustomerAccounts "nobody" ["a1"; "a2"; "b1"] exampleWorld).1
  = ReadJSON http.StatusNotFound (R_error "Customer not found")
  ∧ (getCustomerAccounts "c2" ["a1"; "a2"; "b1"] exampleWorld).1
    = ReadJSON http.StatusOK (R_accounts "c2" [Account.mk "b1" "c2" "current" 50 0]).
Proof.
  split.
  - apply (getCustomerAccounts_outcome "nobody" ["a1"; "a2"; "b1"] exampleWorld);
      [unfold traversal; apply (bool_decide_unpack _); vm_compute; exact I|reflexivity].
  - reflexivity.
Defined.

Lemma filter_nil_of_none {A} (p : A → bool) l :
  (∀ x, x ∈ l → p x = false) → List.filter p l = [].
Proof.
  induction l as [|x l IH]; intros H; [done|]. simpl.
  rewrite (H x) by left. apply IH. intros y Hy. apply H. by right.
Qed.

Lemma GetAccountsByCustomerID_two_new customerID keys cs (m0 : gmap string Account.t) ts
    k1 k2 cur sav :
  k1 ≠ k2 →
  traversal (<[k2 := sav]> (<[k1 := cur]> m0)) keys →
  (∀ k a, m0 !! k = Some a → Account.CustomerID a ≠ customerID) →
  Account.CustomerID cur = customerID →
  Account.CustomerID sav = customerID →
  GetAccountsByCustomerID customerID keys (Store.mk cs (<[k2 := sav]> (<[k1 := cur]> m0)) ts)
  ≡ₚ [sav; cur].
Proof.
  intros Hne Hk Hown Hc Hs.
  rewrite GetAccountsByCustomerID_filter. simpl.
  rewrite (filter_Permutation' _ _ _ (rangeOver_traversal _ _ Hk)).
  assert (map_to_list (<[k2 := sav]> (<[k1 := cur]> m0))
          ≡ₚ (k2, sav) :: (k1, cur) :: map_to_list (delete k1 (delete k2 m0))) as Hm.
  { rewrite <- insert_delete_eq.
    rewrite map_to_list_insert by apply lookup_delete_eq.
    apply Permutation_skip. rewrite delete_insert_ne by done.
    rewrite <- insert_delete_eq.
    by rewrite map_to_list_insert by apply lookup_delete_eq. }
  rewrite (filter_Permutation' _ _ _ Hm). simpl.
  rewrite Hc, Hs, String.eqb_refl.
  rewrite filter_nil_of_none; [done|].
  intros [k' a] Hin. apply elem_of_map_to_list in Hin.
  apply lookup_delete_Some in Hin as [_ Hin]. apply lookup_delete_Some in Hin as [_ Hin].
  simpl. apply String.eqb_neq. by eapply Hown.
Qed.

(** X20. Onboarding is visible to the accounts listing: right after a
    [createCustomer] answered 201, [getCustomerAccounts] for the new customer
    ID answers 200 with exactly the two seeded accounts, the "current" one at
    0 and the "savings" one at 500 - provided the two account IDs drawn are
    different and no account was already filed for the new customer ID. *)
Theorem new_customer_lists_two_accounts req w keys :
  let u i := wUuid w (i + wUuidCalls w) in
  let w' := (createCustomer (Some req) w).2 in
  code (createCustomer (Some req) w).1 = http.StatusCreated →
  u 1 ≠ u 2 →
  (∀ k a, Store.accounts (wStore w) !! k = Some a → Account.CustomerID a ≠ u 0) →
  traversal (Store.accounts (wStore w')) keys →
  ∃ l, (getCustomerAccounts (u 0) keys w').1 = ReadJSON http.StatusOK (R_accounts (u 0) l)
       ∧ l ≡ₚ [Account.mk (u 1) (u 0) "current" 0 (nextNow w);
               Account.mk (u 2) (u 0) "savings" 500 (nextNow w)].
Proof.
  intros u w'. subst u w'. unfold createCustomer.
  destruct (customerErrors req) as [|e l0]; [|discriminate].
  intros _ Hne Hown Hk.
  destruct w as [s c clk n uu k]. unfold nextNow in *. simpl in *.
  unfold getCustomerAccounts. unfold_store. simpl. rewrite lookup_insert_eq.
  pose proof (λ cs ts, GetAccountsByCustomerID_two_new (uu k) keys cs _ ts _ _ _ _
                         Hne Hk Hown eq_refl eq_refl) as Hp.
  specialize (Hp (<[uu k := Customer.mk (uu k) (Name req) (Email req)]> (Store.customers s))
                 (<[uu (S (S (S k))) :=
                      Transaction.mk (uu (S (S (S k)))) (uu (S (S k))) (uu k) "bonus" 500
                        "" "" (clk n)]> (Store.transactions s))).
  destruct (GetAccountsByCustomerID _ _ _) as [|a l] eqn:E.
  { apply Permutation_nil_l in Hp. discriminate Hp. }
  simpl. eexists. split; [reflexivity|]. rewrite Hp. apply Permutation_swap.
Qed.

Lemma new_customer_lists_two_accounts_witness :
  let w' := (createCustomer (Some (mkCustomerRequest "Ann" "ann@example.org")) exampleWorld).2 in
  ∃ l, (getCustomerAccounts "u0" ["a1"; "u2"; "b1"; "a2"; "u1"] w').1
       = ReadJSON http.StatusOK (R_accounts "u0" l)
       ∧ l ≡ₚ [Account.mk "u1" "u0" "current" 0 1000; Account.mk "u2" "u0" "savings" 500 1000].
Proof.
  apply (new_customer_lists_two_accounts (mkCustomerRequest "Ann" "ann@example.org")
           exampleWorld ["a1"; "u2"; "b1"; "a2"; "u1"]).
  - reflexivity.
  - discriminate.
  - assert (map_Forall (λ _ a, Account.CustomerID a ≠ "u0") (Store.accounts exampleStore))
      as H by (apply (bool_decide_unpack _); vm_compute; exact I).
    exact H.
  - unfold traversal. apply (bool_decide_unpack _). vm_compute. exact I.
Defined.

Lemma GetBalance_with_cached accountID token w t :
  bankz.token (wClient w) = Some t →
  bankz.AccessToken t = token →
  bankzClient.GetBalance accountID token w
  = (if (nextNow w <=? bankz.ExpiresAt t)%Z
     then match bankz.accounts (wClient w) !! accountID with
          | Some account => inl (bankz.Balance account)
          | None => inr ("Bank Z account " +:+ accountID +:+ " not found")
          end
     else inr "invalid or expired token",
     tick 1 w).
Proof.
  intros Ht <-. unfold_gateway. unfold nextNow, tick.
  destruct w as [s c clk n u k]; simpl in *. rewrite Ht, String.eqb_refl. simpl.
  rewrite Z.leb_antisym. destruct (bankz.ExpiresAt t <? clk n)%Z; simpl; [done|].
  by destruct (bankz.accounts c !! accountID).
Qed.

(** X21. [getBankZBalances] answers 404 for an unknown customer without
    touching the gateway.  For a known customer it answers 200 with, for each
    of the two linked accounts "bankz-acc-123" and "bankz-acc-456" in that
    order, an entry with the partner balance - or no entry at all when the
    clock has passed the token's expiry at that moment or the client does not
    hold the account: a gateway failure is left out silently. *)
Theorem getBankZBalances_outcome customerID w :
  (Store.customers (wStore w) !! customerID = None →
   getBankZBalances customerID w
   = (ReadJSON http.StatusNotFound (R_error "Customer not found"), w))
  ∧ (∀ c token w1 t,
       Store.customers (wStore w) !! customerID = Some c →
       bankzClient.GetToken w = (inl token, w1) →
       bankz.token (wClient w1) = Some t →
       (getBankZBalances customerID w).1
       = ReadJSON http.StatusOK
           (R_balances customerID
              ((if (nextNow w1 <=? bankz.ExpiresAt t)%Z
                then balanceEntry (wClient w) "bankz-acc-123" else [])
               ++ (if (nextNow (tick 1 w1) <=? bankz.ExpiresAt t)%Z
                   then balanceEntry (wClient w) "bankz-acc-456" else []))%list)).
Proof.
  split.
  - intros Hc. unfold getBankZBalances. unfold_store. by rewrite Hc.
  - intros c token w1 t Hc Hg Ht.
    destruct (GetToken_caches_result _ _ _ Hg) as (t' & Ht' & Ha).
    rewrite Ht in Ht'. injection Ht' as <-.
    pose proof (qs_accounts _ _ (GetToken_quiet w)) as Hacc. rewrite Hg in Hacc.
    simpl in Hacc.
    unfold getBankZBalances. unfold_store. rewrite Hc, Hg.
    unfold linkedAccountIDs, collectBalances, mbind, M_bind.
    rewrite (GetBalance_with_cached "bankz-acc-123" token w1 t Ht Ha).
    assert (bankz.token (wClient (tick 1 w1)) = Some t) as Ht1 by done.
    unfold balanceEntry. rewrite <- Hacc.
    destruct (nextNow w1 <=? bankz.ExpiresAt t)%Z;
      [destruct (bankz.accounts (wClient w1) !! "bankz-acc-123")|];
      rewrite (GetBalance_with_cached "bankz-acc-456" token (tick 1 w1) t Ht1 Ha);
      (destruct (nextNow (tick 1 w1) <=? bankz.ExpiresAt t)%Z;
       [change (wClient (tick 1 w1)) with (wClient w1);
        destruct (bankz.accounts (wClient w1) !! "bankz-acc-456")|]); reflexivity.
Qed.

Lemma getBankZBalances_outcome_witness :
  (getBankZBalances "c1" exampleWorld).1
  = ReadJSON http.StatusOK
      (R_balances "c1" [BankZBalanceResponse.mk "bankz-acc-123" 1000;
                        BankZBalanceResponse.mk "bankz-acc-456" 500])
  ∧ (getBankZBalances "c1"
       (mkWorld exampleStore bankz.NewMockClient (λ n, if (n <? 3)%nat then 0 else 2 * time.Hour)%Z
          0 (wUuid exampleWorld) 0)).1
    = ReadJSON http.StatusOK (R_balances "c1" [BankZBalanceResponse.mk "bankz-acc-123" 1000]).
Proof.
  split.
  - apply (proj2 (getBankZBalances_outcome "c1" exampleWorld)
             (Customer.mk "c1" "Jane Doe" "jane@example.com") "token-1000"
             (bankzClient.GetToken exampleWorld).2
             (bankz.mkToken "token-1000" 3600000001001) eq_refl eq_refl eq_refl).
  - reflexivity.
Defined.

Lemma filterTransactions_filter accountID transactionType l init :
  fold_left
    (λ filtered tx,
       if negb (String.eqb accountID "") && negb (String.eqb (Transaction.AccountID tx) accountID)
       then filtered
       else if negb (String.eqb transactionType "")
               && negb (String.eqb (Transaction.Type_ tx) transactionType)
       then filtered
       else (filtered ++ [tx])%list) l init
  = (init ++ List.filter
               (λ tx, negb (negb (String.eqb accountID "")
                            && negb (String.eqb (Transaction.AccountID tx) accountID))
                      && negb (negb (String.eqb transactionType "")
                               && negb (String.eqb (Transaction.Type_ tx) transactionType)))
               l)%list.
Proof.
  revert init. induction l as [|x l IH]; intros init; simpl.
  - by rewrite app_nil_r.
  - rewrite IH.
    destruct (negb (String.eqb accountID "") && _); simpl; [done|].
    destruct (negb (String.eqb transactionType "") && _); simpl; [done|].
    by rewrite <- app_assoc.
Qed.

Lemma filterTransactions_elem accountID transactionType l t :
  t ∈ filterTransactions accountID transactionType l
  ↔ t ∈ l ∧ passesFilters accountID transactionType t.
Proof.
  unfold filterTransactions, passesFilters. rewrite filterTransactions_filter. simpl.
  rewrite list_elem_of_In, filter_In, <- list_elem_of_In.
  destruct (String.eqb_spec accountID "") as [Ea|Ea];
    destruct (String.eqb_spec (Transaction.AccountID t) accountID) as [Eb|Eb];
    destruct (String.eqb_spec transactionType "") as [Ec|Ec];
    destruct (String.eqb_spec (Transaction.Type_ t) transactionType) as [Ed|Ed];
    simpl; intuition congruence.
Qed.

(** X22. [getCustomerTransactions] answers 404 only for an unknown customer.
    For a known one it always answers 200, with exactly the transactions that
    are posted against an account the customer owns and that pass both
    filters, an empty filter letting everything pass; no match gives an empty
    list, not an error. *)
Theorem getCustomerTransactions_outcome RFC3339 customerID accountID transactionType
    accountKeys transactionKeys w :
  traversal (Store.accounts (wStore w)) accountKeys →
  traversal (Store.transactions (wStore w)) transactionKeys →
  let r := (getCustomerTransactions RFC3339 customerID accountID transactionType
              accountKeys transactionKeys w).1 in
  (Store.customers (wStore w) !! customerID = None →
   r = ReadJSON http.StatusNotFound (R_error "Customer not found"))
  ∧ (is_Some (Store.customers (wStore w) !! customerID) →
     ∃ l, r = ReadJSON http.StatusOK (R_transactions customerID l)
          ∧ ∀ x, x ∈ l
                 ↔ ∃ t, x = toTransactionResponse RFC3339 t
                        ∧ (∃ k, Store.transactions (wStore w) !! k = Some t)
                        ∧ (∃ ka a, Store.accounts (wStore w) !! ka = Some a
                                   ∧ Account.CustomerID a = customerID
                                   ∧ Account.ID a = Transaction.AccountID t)
                        ∧ passesFilters accountID transactionType t).
Proof.
  intros Ha Ht r. subst r. unfold getCustomerTransactions. unfold_store.
  split; [by intros ->|]. intros [c ->].
  pose proof (λ t, GetTransactionsByCustomerID_elem customerID accountKeys transactionKeys
                     (wStore w) t Ha Ht) as Hel.
  destruct (GetTransactionsByCustomerID customerID accountKeys transactionKeys (wStore w))
    as [|t0 l0] eqn:E; simpl.
  - exists []. split; [done|]. intros x. split; [by intros ?%elem_of_nil|].
    intros (t & _ & H1 & H2 & _). exfalso. apply (proj1 (elem_of_nil t)), Hel. by split.
  - eexists. split; [reflexivity|]. intros x.
    rewrite list_elem_of_fmap. split.
    + intros (t & -> & Hin). apply filterTransactions_elem in Hin as [Hin Hp].
      apply Hel in Hin as [H1 H2]. by exists t.
    + intros (t & -> & H1 & H2 & Hp). exists t. split; [done|].
      apply filterTransactions_elem. split; [|done]. apply Hel. by split.
Qed.

Lemma getCustomerTransactions_outcome_witness :
  let w := (transferMoney "c1" (Some (mkTransferRequest "a1" "a2" 200)) exampleWorld).2 in
  (getCustomerTransactions fmt.d "nobody" "" "" ["a1"; "a2"; "b1"] ["u0"; "u1"; "u2"] w).1
  = ReadJSON http.StatusNotFound (R_error "Customer not found")
  ∧ (getCustomerTransactions fmt.d "c1" "a1" "fee" ["a1"; "a2"; "b1"] ["u0"; "u1"; "u2"] w).1
    = ReadJSON http.StatusOK
        (R_transactions "c1" [TransactionResponse.mk "u1" "a1" "c1" "fee" 0.1 "" "" "1002"])
  ∧ (getCustomerTransactions fmt.d "c2" "" "" ["a1"; "a2"; "b1"] ["u0"; "u1"; "u2"] w).1
    = ReadJSON http.StatusOK (R_transactions "c2" []).
Proof.
  cbv zeta. split; [|split; reflexivity].
  apply (getCustomerTransactions_outcome fmt.d "nobody" "" "" ["a1"; "a2"; "b1"]
           ["u0"; "u1"; "u2"]);
    [unfold traversal; apply (bool_decide_unpack _); vm_compute; exact I ..|reflexivity].
Defined.

(** X23. A committed internal transfer shows up in the customer's
    transactions: the ID in the 201 answer is the ID of a "transfer" record of
    the requested amount, from the source to the destination account, which
    [GetTransactionsByCustomerID] returns for the customer afterwards -
    provided the UUIDs drawn for the fee and interest records differ from the
    one drawn for the transfer. *)
Theorem committed_transfer_is_listed customerID req w toAccount accountKeys transactionKeys :
  let r := transferMoney customerID (Some req) w in
  let u i := wUuid w (i + wUuidCalls w) in
  Store.keyed (wStore w) →
  Store.accounts (wStore w) !! ToAccountID req = Some toAccount →
  code r.1 = http.StatusCreated →
  u 1 ≠ u 0 → u 2 ≠ u 0 →
  traversal (Store.accounts (wStore r.2)) accountKeys →
  traversal (Store.transactions (wStore r.2)) transactionKeys →
  r.1 = JSON http.StatusCreated (TransferDone (u 0) "success")
  ∧ ∃ t, t ∈ GetTransactionsByCustomerID customerID accountKeys transactionKeys (wStore r.2)
         ∧ Transaction.ID t = u 0
         ∧ Transaction.Type_ t = "transfer"
         ∧ Transaction.Amount t = Amount req
         ∧ Transaction.FromAccountID t = FromAccountID req
         ∧ Transaction.ToAccountID t = ToAccountID req.
Proof.
  intros r u Hk Ht H Hn1 Hn2. subst r u. simpl in Hn1, Hn2.
  destruct (transferMoney_created _ _ _ H)
    as (Hv & c & token & w1 & fa & Hc & Hg & Hf & Ho & Hcase).
  destruct Hcase as [(ta & Ht' & Hto & Hb)|(Ht' & _)]; [|congruence].
  rewrite Ht in Ht'. injection Ht' as <-.
  pose proof (GetToken_step w) as Hs. rewrite Hg in Hs.
  destruct Hs as [Hs _ Hu Huc _ _ _]. simpl in Hs, Hu, Huc.
  assert (Account.ID fa = FromAccountID req) as If by (by apply Hk in Hf).
  assert (Account.ID toAccount = ToAccountID req) as It by (by apply Hk in Ht).
  destruct (transferErrors_nil _ Hv) as (_ & _ & _ & Hne).
  rewrite (transferMoney_resolved _ _ _ _ _ _ _ Hv Hc Hg Hf Ho), Ht, Hto.
  rewrite String.eqb_refl. simpl negb. cbv iota.
  rewrite internalTransfer_commit by exact Hb.
  unfold drawn, tick, withStore. cbn [fst snd code wStore].
  rewrite Hs, Hu, Huc. intros Ha Htx. split; [done|].
  exists (Transaction.mk (wUuid w (wUuidCalls w)) (FromAccountID req) customerID "transfer"
            (Amount req) (FromAccountID req) (ToAccountID req) (nextNow w1)).
  split; [|done].
  apply (GetTransactionsByCustomerID_elem _ _ _ _ _ Ha Htx). split.
  - exists (wUuid w (wUuidCalls w)). rewrite internalWrites_transactions. cbv zeta.
    rewrite If, It.
    destruct (0 <? feeOf fa (Amount req))%float, (0 <? interestOf toAccount (Amount req))%float;
      rewrite ?lookup_insert_ne by done; by rewrite lookup_insert_eq.
  - exists (FromAccountID req). eexists. rewrite internalWrites_accounts, If, It.
    rewrite lookup_insert_ne, lookup_insert_eq by done.
    split; [reflexivity|]. split; [exact Ho|]. simpl. congruence.
Qed.

Lemma committed_transfer_is_listed_witness :
  let r := transferMoney "c1" (Some (mkTransferRequest "a1" "a2" 200)) exampleWorld in
  ∃ t, t ∈ GetTransactionsByCustomerID "c1" ["b1"; "a1"; "a2"] ["u2"; "u0"; "u1"] (wStore r.2)
       ∧ Transaction.ID t = "u0" ∧ Transaction.Type_ t = "transfer".
Proof.
  destruct (committed_transfer_is_listed "c1" (mkTransferRequest "a1" "a2" 200) exampleWorld
              (Account.mk "a2" "c1" "savings" 500 0) ["b1"; "a1"; "a2"] ["u2"; "u0"; "u1"]
              exampleStore_keyed eq_refl eq_refl)
    as (_ & t & H1 & H2 & H3 & _); try discriminate;
    try (unfold traversal; apply (bool_decide_unpack _); vm_compute; exact I).
  by exists t.
Defined.
